(** * SongDNA: fingerprints, feature vectors, the similarity engine and the store

    A shallow embedding of [audio_fingerprint.py], [similarity_engine.py],
    the feature conversion and the search of [external_apis.py], and the
    persistence and search functions of [app.py].

    Numbers are rationals: a Python or numpy float is read as the real number
    it stands for, so rounding is not modelled.  The numeric kernels of the
    libraries the code calls (scipy's cosine distance, numpy's correlation
    coefficient, scikit-learn's scaler fit, faiss' L2 normalisation, the
    librosa analysis, SHA-256) are parameters of the sections below; what the
    Python code itself does with dictionaries, lists, defaults, guards and
    exceptions is written out. *)

From Stdlib Require Import QArith Qabs Qminmax Lqa.
From stdpp Require Import gmap strings list fin_maps.

Local Open Scope Q_scope.

(** ** Python values, exceptions *)

(** The values a fingerprint dictionary holds in this program.  A numpy scalar
    is what [np.mean], [np.std] or [np.sum] return; a 0-d array is what
    [np.array] makes of a JSON number or string. *)
Inductive value : Type :=
  | PyFloat (x : Q)          (* float or int *)
  | NpFloat (x : Q)          (* numpy scalar, np.float32 *)
  | NdArray (xs : list Q)    (* 1-d numpy.ndarray *)
  | NdScalar (x : Q)         (* 0-d numpy.ndarray of a number *)
  | NdStr (s : string)       (* 0-d numpy.ndarray of a string *)
  | PyList (xs : list Q)     (* list of numbers *)
  | PyStr (s : string).      (* str *)

Inductive exn : Type :=
  | AttributeError | TypeError | ValueError | IndexError
  | AssertionError | OSError | LibraryError.

Inductive result (A : Type) : Type :=
  | Ok (a : A)
  | Raise (e : exn).
Arguments Ok {A} a.
Arguments Raise {A} e.

#[global] Instance result_ret : MRet result := fun _ a => Ok a.
#[global] Instance result_fmap : FMap result := fun _ _ f r =>
  match r with
  | Ok a => Ok (f a)
  | Raise e => Raise e
  end.
#[global] Instance result_bind : MBind result := fun _ _ k r =>
  match r with
  | Ok a => k a
  | Raise e => Raise e
  end.

(** [try: body / except Exception: handler]. *)
Definition try_except {A : Type} (body : result A) (handler : exn -> A) : A :=
  match body with
  | Ok a => a
  | Raise e => handler e
  end.

(** A float coming out of a numeric library kernel: finite, or nan. *)
Inductive npfloat : Type :=
  | Fin (q : Q)
  | NaN.

(** ** Comparisons and the builtins [max], [min], [abs] *)

Definition Qltb (x y : Q) : bool := negb (Qle_bool y x).

(** [max(a, b)] keeps [a] unless [b > a]; [max(a, b, c)] folds that. *)
Definition py_max (a b : Q) : Q := if Qltb a b then b else a.
Definition py_max3 (a b c : Q) : Q := py_max (py_max a b) c.

(** [min(a, b)] keeps [a] unless [b < a]. *)
Definition py_min (a b : Q) : Q := if Qltb b a then b else a.

Definition py_abs (a : Q) : Q := if Qltb a 0 then - a else a.

(** [max(0, x)] for a float [x] that may be nan: [nan > 0] is false, so the
    first argument [0] is kept. *)
Definition py_max0 (x : npfloat) : Q :=
  match x with
  | Fin q => py_max 0 q
  | NaN => 0
  end.

(** [1 - x]. *)
Definition one_minus (x : npfloat) : npfloat :=
  match x with
  | Fin q => Fin (1 - q)
  | NaN => NaN
  end.

(** The number a scalar value denotes in arithmetic and comparisons; strings,
    lists and 1-d arrays are not numbers there. *)
Definition as_number (v : value) : option Q :=
  match v with
  | PyFloat x | NpFloat x | NdScalar x => Some x
  | _ => None
  end.

(** The vector a value denotes when passed to a numpy or scipy routine that
    wants a 1-d array. *)
Definition as_vector (v : value) : option (list Q) :=
  match v with
  | NdArray xs | PyList xs => Some xs
  | _ => None
  end.

(** What [np.array] builds from a flat list: an array of floats, or an array
    of text when some entry is a str. *)
Inductive ndarray : Type :=
  | FloatArray (xs : list Q)
  | TextArray (n : nat).

(** [a.astype('float32')]: text that spells no number is rejected.  The
    model rejects every array of text, also one whose text numpy would
    parse as numbers, and has no overflow of float32. *)
Definition astype_float32 (a : ndarray) : result (list Q) :=
  match a with
  | FloatArray xs => Ok xs
  | TextArray _ => Raise ValueError
  end.

Definition Qsum (xs : list Q) : Q := foldr Qplus 0 xs.

(** * audio_fingerprint.py *)

Module AudioFingerprinter.

Record t : Type := mk {
  sr : Z;
  hop_length : Z;
  n_mfcc : nat
}.

(** [__init__(self, sr=22050, hop_length=512, n_mfcc=13)] *)
Definition init : t := {| sr := 22050%Z; hop_length := 512%Z; n_mfcc := 13 |}.

Definition np_zeros (n : nat) : value := NdArray (replicate n 0).

Definition _get_empty_fingerprint (self : t) : gmap string value :=
  list_to_map [
    ("mfcc", np_zeros (n_mfcc self));
    ("mfcc_std", np_zeros (n_mfcc self));
    ("chroma", np_zeros 12);
    ("chroma_std", np_zeros 12);
    ("spectral_centroids", PyFloat 0);
    ("spectral_centroids_std", PyFloat 0);
    ("spectral_rolloff", PyFloat 0);
    ("spectral_rolloff_std", PyFloat 0);
    ("zero_crossing_rate", PyFloat 0);
    ("zero_crossing_rate_std", PyFloat 0);
    ("spectral_bandwidth", PyFloat 0);
    ("spectral_bandwidth_std", PyFloat 0);
    ("tempo", PyFloat 0);
    ("onset_strength", PyFloat 0);
    ("onset_strength_std", PyFloat 0);
    ("harmonic_energy", PyFloat 0);
    ("percussive_energy", PyFloat 0);
    ("harmonic_percussive_ratio", PyFloat 0);
    ("key", PyStr "Unknown");
    ("rms_energy", PyFloat 0);
    ("rms_energy_std", PyFloat 0);
    ("dynamic_range", PyFloat 0);
    ("mel_spectral_mean", PyFloat 0);
    ("mel_spectral_std", PyFloat 0);
    ("spectral_contrast", np_zeros 7);
    ("spectral_contrast_std", np_zeros 7);
    ("tonnetz", np_zeros 6);
    ("tonnetz_std", np_zeros 6);
    ("energy", PyFloat 0)
  ].

(** ** create_feature_vector *)

Definition scalar_features : list string := [
  "spectral_centroids"; "spectral_centroids_std";
  "spectral_rolloff"; "spectral_rolloff_std";
  "zero_crossing_rate"; "zero_crossing_rate_std";
  "spectral_bandwidth"; "spectral_bandwidth_std";
  "tempo"; "onset_strength"; "onset_strength_std";
  "harmonic_energy"; "percussive_energy"; "harmonic_percussive_ratio";
  "rms_energy"; "rms_energy_std"; "dynamic_range";
  "mel_spectral_mean"; "mel_spectral_std"; "energy"
].

Definition array_features : list string := [
  "mfcc"; "mfcc_std"; "chroma"; "chroma_std";
  "spectral_contrast"; "spectral_contrast_std";
  "tonnetz"; "tonnetz_std"
].

(** The first loop: [features.append(fingerprint.get(feature, 0.0))]. *)
Fixpoint append_scalars (fingerprint : gmap string value)
    (names : list string) (features : list value) : list value :=
  match names with
  | [] => features
  | feature :: rest =>
      append_scalars fingerprint rest
        (features ++ [default (PyFloat 0) (fingerprint !! feature)])
  end.

Definition chars_of (s : string) : list value :=
  (fun c => PyStr (String c EmptyString)) <$> String.list_ascii_of_string s.

(** One round of the second loop, on [arr = fingerprint.get(feature, [])].
    [arr.tolist()] of a 0-d array is a scalar (or a str), which
    [list.extend] iterates: a number is not iterable, a str gives its
    characters. *)
Definition extend_with (arr : value) (features : list value)
    : result (list value) :=
  match arr with
  | NdArray xs => Ok (features ++ (PyFloat <$> xs))
  | NdScalar _ => Raise TypeError
  | NdStr s => Ok (features ++ chars_of s)
  | PyList xs => Ok (features ++ (PyFloat <$> xs))
  | PyFloat _ | NpFloat _ | PyStr _ => Ok (features ++ [PyFloat 0])
  end.

Fixpoint extend_arrays (fingerprint : gmap string value)
    (names : list string) (features : list value) : result (list value) :=
  match names with
  | [] => Ok features
  | feature :: rest =>
      features' ← extend_with (default (PyList []) (fingerprint !! feature))
                              features;
      extend_arrays fingerprint rest features'
  end.

Definition is_sequence (v : value) : bool :=
  match v with
  | NdArray _ | PyList _ => true
  | _ => false
  end.

Fixpoint numbers_of (features : list value) : option (list Q) :=
  match features with
  | [] => Some []
  | v :: rest =>
      match as_number v with
      | Some x => cons x <$> numbers_of rest
      | None => None
      end
  end.

(** [np.array(features)].  A list of numbers gives the 1-d array of these
    numbers.  A list with a sequence among its entries has no rectangular
    shape: numpy raises ValueError.  Otherwise some entry is a str, and the
    result is an array of text of the same length.  (A list made of
    sequences of one length only, which numpy would stack into a matrix, is
    reported like a ragged one; no fingerprint with a number among its 20
    scalar fields gives such a list.) *)
Definition np_array (features : list value) : result ndarray :=
  if existsb is_sequence features then Raise ValueError
  else match numbers_of features with
       | Some xs => Ok (FloatArray xs)
       | None => Ok (TextArray (length features))
       end.

Definition create_feature_vector (self : t) (fingerprint : gmap string value)
    : result ndarray :=
  let features := append_scalars fingerprint scalar_features [] in
  features ← extend_arrays fingerprint array_features features;
  np_array features.

(** ** estimate_key *)

Definition major_profile : list Q :=
  [6.35; 2.23; 3.48; 2.33; 4.38; 4.09; 2.52; 5.19; 2.39; 3.66; 2.29; 2.88].
Definition minor_profile : list Q :=
  [6.33; 2.68; 3.52; 5.38; 2.60; 3.53; 2.54; 4.75; 3.98; 2.69; 3.34; 3.17].

Definition key_names : list string :=
  ["C"; "C#"; "D"; "D#"; "E"; "F"; "F#"; "G"; "G#"; "A"; "A#"; "B"].

(** [np.mean] of one row of the chromagram; of no frames at all it is nan
    (numpy warns, it does not raise). *)
Definition np_mean (row : list Q) : npfloat :=
  match row with
  | [] => NaN
  | _ => Fin (Qsum row / inject_Z (Z.of_nat (length row)))
  end.

Fixpoint np_sum (xs : list npfloat) : npfloat :=
  match xs with
  | [] => Fin 0
  | Fin x :: rest =>
      match np_sum rest with
      | Fin s => Fin (x + s)
      | NaN => NaN
      end
  | NaN :: _ => NaN
  end.

(** numpy's division does not raise on a zero divisor: [0/0] is nan and
    [x/0] is an infinity.  The quotient is only ever passed to
    [np.corrcoef], which answers nan for either, so both are recorded as
    not finite. *)
Definition np_divide (x s : npfloat) : npfloat :=
  match x, s with
  | Fin x, Fin s => if Qeq_bool s 0 then NaN else Fin (x / s)
  | _, _ => NaN
  end.

(** [np.roll(profile, i)] *)
Definition np_roll (profile : list Q) (i : nat) : list Q :=
  let n := length profile in
  let k := (n - i mod n)%nat in
  drop k profile ++ take k profile.

Fixpoint finite_vector (xs : list npfloat) : option (list Q) :=
  match xs with
  | [] => Some []
  | Fin x :: rest => cons x <$> finite_vector rest
  | NaN :: _ => None
  end.

Section Estimate.

(** The correlation coefficient of two finite vectors of one length, as
    [np.corrcoef(x, y)[0, 1]] computes it (nan when a variance is 0). *)
Variable pearson : list Q -> list Q -> npfloat.

(** [np.corrcoef(x, y)[0, 1]]: stacking vectors of different lengths
    raises; a nan among the entries makes the coefficient nan. *)
Definition corrcoef (x : list npfloat) (y : list Q) : result npfloat :=
  if decide (length x = length y) then
    match finite_vector x with
    | Some xs => Ok (pearson xs y)
    | None => Ok NaN
    end
  else Raise ValueError.

(** [corr > max_corr] *)
Definition exceeds (corr : npfloat) (max_corr : Q) : bool :=
  match corr with
  | Fin c => Qltb max_corr c
  | NaN => false
  end.

Definition corr_value (corr : npfloat) : Q :=
  match corr with
  | Fin c => c
  | NaN => 0
  end.

(** One round of [for i in range(12)], on the state
    [(max_corr, estimated_key)]. *)
Definition key_round (chroma_mean : list npfloat) (i : nat)
    (st : Q * string) : result (Q * string) :=
  let major_rotated := np_roll major_profile i in
  let minor_rotated := np_roll minor_profile i in
  major_corr ← corrcoef chroma_mean major_rotated;
  minor_corr ← corrcoef chroma_mean minor_rotated;
  let st :=
    if exceeds major_corr st.1
    then (corr_value major_corr, default "" (key_names !! i) +:+ " major")
    else st in
  let st :=
    if exceeds minor_corr st.1
    then (corr_value minor_corr, default "" (key_names !! i) +:+ " minor")
    else st in
  Ok st.

Fixpoint key_rounds (chroma_mean : list npfloat) (range : list nat)
    (st : Q * string) : result (Q * string) :=
  match range with
  | [] => Ok st
  | i :: rest =>
      st' ← key_round chroma_mean i st;
      key_rounds chroma_mean rest st'
  end.

Definition estimate_key_body (chroma : list (list Q)) : result string :=
  let chroma_mean := np_mean <$> chroma in
  let total := np_sum chroma_mean in
  let chroma_mean := (fun x => np_divide x total) <$> chroma_mean in
  st ← key_rounds chroma_mean (seq 0 12) (-1, "C");
  Ok st.2.

Definition estimate_key (self : t) (chroma : list (list Q)) : string :=
  try_except (estimate_key_body chroma) (fun _ => "Unknown").

(** ** extract_fingerprint *)

(** What the librosa calls of the [try] body deliver for a file: the
    aggregated descriptors, already under their dictionary keys, and the
    CQT chromagram that goes to [estimate_key]. *)
Record analysis : Type := mk_analysis {
  descriptors : gmap string value;
  chroma_cq : list (list Q)
}.

Variable analyse : t -> string -> result analysis.

Definition extract_fingerprint (self : t) (file_path : string)
    : gmap string value :=
  try_except
    (a ← analyse self file_path;
     Ok (<["key" := PyStr (estimate_key self (chroma_cq a))]> (descriptors a)))
    (fun _ => _get_empty_fingerprint self).

End Estimate.

End AudioFingerprinter.


(** * The [songs] table and its JSON column (app.py, [init_database]) *)

(** A JSON value as [json.loads] returns it.  The column [fingerprint_data]
    holds the text [json.dumps] made of a dictionary; text and dictionary
    determine each other, so the column is modelled as the dictionary. *)
Inductive jval : Type :=
  | JNum (x : Q)
  | JArr (xs : list Q)
  | JStr (s : string).

(** A value bound to a REAL or TEXT column. *)
Inductive sqlval : Type :=
  | SqlReal (x : Q)
  | SqlText (s : string).

Record song_row : Type := mk_row {
  id : Z;
  file_path : string;
  title : string;
  artist : string;
  album : string;
  duration : Q;
  file_hash : string;
  fingerprint_data : option (gmap string jval);
  tempo : sqlval;
  key_signature : sqlval;
  energy : sqlval
}.

(** The table: its rows in rowid order, and the largest id ever handed out
    (the column is AUTOINCREMENT).  The two timestamp columns hold the wall
    clock and are left out. *)
Record database : Type := mk_db {
  songs : list song_row;
  last_id : Z
}.

Definition empty_db : database := {| songs := []; last_id := 0 |}.

(** * similarity_engine.py *)

Module SimilarityEngine.

(** An entry of [self.indexed_songs]. *)
Record song : Type := mk_song {
  song_id : Z;
  song_file_path : string;
  song_title : string;
  song_artist : string;
  song_album : string;
  song_tempo : sqlval;
  song_key : sqlval;
  song_energy : sqlval;
  song_fingerprint : gmap string value
}.

(** A fitted [StandardScaler]. *)
Record StandardScaler : Type := mk_scaler {
  n_features_in_ : nat;
  mean_ : list Q;
  scale_ : list Q
}.

(** A [faiss.IndexFlatIP(d)] and the rows added to it. *)
Record IndexFlatIP : Type := mk_index {
  d : nat;
  rows : list (list Q)
}.

Record t : Type := mk {
  scaler : option StandardScaler;      (* None: not fitted yet *)
  index : option IndexFlatIP;          (* self.index = None *)
  feature_dim : option nat;
  indexed_songs : list song
}.

(** [_load_all_songs]: the table exists from [init_database] on, which runs
    before the engine is made. *)
Definition _load_all_songs (db : database) : list song_row :=
  filter (fun r => is_Some (fingerprint_data r)) (songs db).

(** ** _parse_fingerprint *)

(** Truth value of a JSON value. *)
Definition truthy (j : jval) : bool :=
  match j with
  | JNum x => negb (Qeq_bool x 0)
  | JArr [] => false
  | JArr (_ :: _) => true
  | JStr EmptyString => false
  | JStr (String _ _) => true
  end.

(** [np.array(j)] *)
Definition np_array_of (j : jval) : value :=
  match j with
  | JNum x => NdScalar x
  | JArr xs => NdArray xs
  | JStr s => NdStr s
  end.

(** A JSON value as the Python object [json.loads] gives. *)
Definition py_of (j : jval) : value :=
  match j with
  | JNum x => PyFloat x
  | JArr xs => PyList xs
  | JStr s => PyStr s
  end.

Definition parsed_array_features : list string :=
  ["mfcc"; "chroma"; "spectral_centroids"; "spectral_rolloff";
   "zero_crossing_rate"].

Definition parsed_scalar_features : list string := ["tempo"; "energy"].

Fixpoint parse_arrays (fingerprint_data : gmap string jval)
    (names : list string) (fingerprint : gmap string value)
    : gmap string value :=
  match names with
  | [] => fingerprint
  | feature :: rest =>
      parse_arrays fingerprint_data rest
        match fingerprint_data !! feature with
        | Some j =>
            if truthy j then <[feature := np_array_of j]> fingerprint
            else fingerprint
        | None => fingerprint
        end
  end.

Fixpoint parse_scalars (fingerprint_data : gmap string jval)
    (names : list string) (fingerprint : gmap string value)
    : gmap string value :=
  match names with
  | [] => fingerprint
  | feature :: rest =>
      parse_scalars fingerprint_data rest
        (<[feature := default (PyFloat 0)
                        (py_of <$> fingerprint_data !! feature)]> fingerprint)
  end.

Definition _parse_fingerprint (fingerprint_data : gmap string jval)
    : gmap string value :=
  let fingerprint := parse_arrays fingerprint_data parsed_array_features ∅ in
  let fingerprint :=
    parse_scalars fingerprint_data parsed_scalar_features fingerprint in
  <["key" := default (PyStr "Unknown") (py_of <$> fingerprint_data !! "key")]>
    fingerprint.

(** ** _calculate_detailed_similarity *)

(** A value used as an operand of [-], [>] or [/]: a str or a list raises
    TypeError.  (With a 1-d array numpy would compute elementwise and the
    truth value of the outcome raises further on; the model reports the
    array at once and does not tell an array of one element apart.) *)
Definition number (v : value) : result Q :=
  match as_number v with
  | Some x => Ok x
  | None => Raise TypeError
  end.

Definition text_of (v : value) : option string :=
  match v with
  | PyStr s | NdStr s => Some s
  | _ => None
  end.

(** [a == b] as a truth value.  Text compares with text, numbers with
    numbers, lists with lists; a comparison in which numpy broadcasts over a
    sequence has no truth value (ValueError); objects of different kinds
    are unequal. *)
Definition py_equal (a b : value) : result bool :=
  match a, b with
  | NdArray _, _ | _, NdArray _ => Raise ValueError
  | PyList _, (NpFloat _ | NdScalar _ | NdStr _)
  | (NpFloat _ | NdScalar _ | NdStr _), PyList _ => Raise ValueError
  | PyList xs, PyList ys =>
      Ok (bool_decide (length xs = length ys)
          && forallb (fun p => Qeq_bool p.1 p.2) (zip xs ys))
  | _, _ =>
      match text_of a, text_of b, as_number a, as_number b with
      | Some s, Some s', _, _ => Ok (bool_decide (s = s'))
      | _, _, Some x, Some y => Ok (Qeq_bool x y)
      | _, _, _, _ => Ok false
      end
  end.

(** [a != b] *)
Definition py_differs (a b : value) : result bool :=
  negb <$> py_equal a b.

Definition weights : list (string * Q) :=
  [("mfcc", 0.3); ("chroma", 0.25); ("tempo", 0.2); ("energy", 0.15);
   ("key", 0.1)].

(** [sum(similarities.get(feature, 0) * weight for feature, weight in ...)] *)
Definition weighted_sum (similarities : gmap string Q) : Q :=
  foldl (fun acc fw => acc + default 0 (similarities !! fw.1) * fw.2)
        0 weights.

Section Scorer.

(** The cosine distance of two vectors of one length as
    [scipy.spatial.distance.cosine] computes it: a number clipped to
    [0, 2], or nan when a norm is 0. *)
Variable cosine_dist : list Q -> list Q -> npfloat.

(** [cosine(u, v)]: inputs that are not 1-d, or of different lengths,
    raise ValueError. *)
Definition cosine (u v : value) : result npfloat :=
  match as_vector u, as_vector v with
  | Some xs, Some ys =>
      if decide (length xs = length ys) then Ok (cosine_dist xs ys)
      else Raise ValueError
  | _, _ => Raise ValueError
  end.

(** [if f in query_fp and f in target_fp:
       sim = 1 - cosine(query_fp[f], target_fp[f])
       similarities[f] = max(0, sim)] *)
Definition cosine_channel (feature : string)
    (query_fp target_fp : gmap string value)
    (similarities : gmap string Q) : result (gmap string Q) :=
  match query_fp !! feature, target_fp !! feature with
  | Some u, Some v =>
      dist ← cosine u v;
      Ok (<[feature := py_max0 (one_minus dist)]> similarities)
  | _, _ => Ok similarities
  end.

Definition tempo_channel (query_fp target_fp : gmap string value)
    (similarities : gmap string Q) : result (gmap string Q) :=
  query_tempo ← number (default (PyFloat 120) (query_fp !! "tempo"));
  target_tempo ← number (default (PyFloat 120) (target_fp !! "tempo"));
  let tempo_diff :=
    py_abs (query_tempo - target_tempo)
    / py_max3 query_tempo target_tempo 1 in
  Ok (<["tempo" := py_max 0 (1 - tempo_diff)]> similarities).

(** [and] evaluates its right operand only when the left one is true. *)
Definition energy_channel (query_fp target_fp : gmap string value)
    (similarities : gmap string Q) : result (gmap string Q) :=
  let query_energy := default (PyFloat 0) (query_fp !! "energy") in
  let target_energy := default (PyFloat 0) (target_fp !! "energy") in
  qe ← number query_energy;
  both ← (if Qltb 0 qe
          then te ← number target_energy; Ok (Qltb 0 te)
          else Ok false);
  if (both : bool) then
    te ← number target_energy;
    let energy_ratio := py_min qe te / py_max qe te in
    Ok (<["energy" := energy_ratio]> similarities)
  else Ok (<["energy" := 0.5]> similarities).

Definition key_channel (query_fp target_fp : gmap string value)
    (similarities : gmap string Q) : result (gmap string Q) :=
  let query_key := default (PyStr "Unknown") (query_fp !! "key") in
  let target_key := default (PyStr "Unknown") (target_fp !! "key") in
  known ← py_differs query_key (PyStr "Unknown");
  both ← (if (known : bool) then py_differs target_key (PyStr "Unknown")
          else Ok false);
  if (both : bool) then
    same ← py_equal query_key target_key;
    Ok (<["key" := if (same : bool) then 1.0 else 0.3]> similarities)
  else Ok (<["key" := 0.5]> similarities).

Definition detailed_similarity_body (query_fp target_fp : gmap string value)
    : result (gmap string Q) :=
  similarities ← cosine_channel "mfcc" query_fp target_fp ∅;
  similarities ← cosine_channel "chroma" query_fp target_fp similarities;
  similarities ← tempo_channel query_fp target_fp similarities;
  similarities ← energy_channel query_fp target_fp similarities;
  similarities ← key_channel query_fp target_fp similarities;
  Ok (<["overall" := weighted_sum similarities]> similarities).

Definition _calculate_detailed_similarity
    (query_fp target_fp : gmap string value) : gmap string Q :=
  try_except (detailed_similarity_body query_fp target_fp)
             (fun _ => {["overall" := 0.0]}).

End Scorer.

(** ** The index: _build_faiss_index, add_song_to_index, search_local *)

(** [__init__] before [_initialize_index]. *)
Definition fresh : t :=
  {| scaler := None; index := None; feature_dim := None;
     indexed_songs := [] |}.

Definition song_of_row (r : song_row) (fingerprint : gmap string value)
    : song :=
  {| song_id := id r; song_file_path := file_path r; song_title := title r;
     song_artist := artist r; song_album := album r; song_tempo := tempo r;
     song_key := key_signature r; song_energy := energy r;
     song_fingerprint := fingerprint |}.

(** [json.loads(song[5])]; of None it raises TypeError. *)
Definition json_loads (column : option (gmap string jval))
    : result (gmap string jval) :=
  match column with
  | Some doc => Ok doc
  | None => Raise TypeError
  end.

(** The body of the inner [try] of the loop over the rows. *)
Definition index_row (r : song_row) : result (ndarray * song) :=
  fingerprint_data ← json_loads (fingerprint_data r);
  let fingerprint := _parse_fingerprint fingerprint_data in
  feature_vector ←
    AudioFingerprinter.create_feature_vector AudioFingerprinter.init
      fingerprint;
  Ok (feature_vector, song_of_row r fingerprint).

(** The loop: a row whose body raises is skipped ([continue]). *)
Fixpoint index_rows (rs : list song_row) (features : list ndarray)
    (indexed : list song) : list ndarray * list song :=
  match rs with
  | [] => (features, indexed)
  | r :: rest =>
      match index_row r with
      | Ok (v, sg) => index_rows rest (features ++ [v]) (indexed ++ [sg])
      | Raise _ => index_rows rest features indexed
      end
  end.

(** [np.array(features).astype('float32')] on a list of 1-d arrays: a
    matrix when all rows are floats of one length, ValueError otherwise. *)
Fixpoint float_rows (features : list ndarray) : result (list (list Q)) :=
  match features with
  | [] => Ok []
  | a :: rest =>
      row ← astype_float32 a;
      rows ← float_rows rest;
      Ok (row :: rows)
  end.

Definition matrix_of (features : list ndarray) : result (list (list Q)) :=
  rows ← float_rows features;
  match rows with
  | [] => Ok []
  | r :: _ =>
      if forallb (fun r' => bool_decide (length r' = length r)) rows
      then Ok rows else Raise ValueError
  end.

(** [x] standardised column by column. *)
Definition standardize (sc : StandardScaler) (x : list Q) : list Q :=
  imap (fun j xj => (xj - default 0 (mean_ sc !! j))
                    / default 1 (scale_ sc !! j)) x.

(** [scaler.transform(X)] on one row: a row of another width than the one
    the scaler was fitted on raises ValueError. *)
Definition transform (sc : StandardScaler) (x : list Q) : result (list Q) :=
  if decide (length x = n_features_in_ sc) then Ok (standardize sc x)
  else Raise ValueError.

(** Python's [l[i]] for an integer that may be negative. *)
Definition py_index {A : Type} (l : list A) (i : Z) : result A :=
  let n := Z.of_nat (length l) in
  let j := if (i <? 0)%Z then (n + i)%Z else i in
  if (0 <=? j)%Z && (j <? n)%Z then
    match l !! Z.to_nat j with
    | Some a => Ok a
    | None => Raise IndexError
    end
  else Raise IndexError.

Definition dot (u v : list Q) : Q :=
  Qsum (zip_with Qmult u v).

(** Largest similarity first; of two equal ones the earlier stays first. *)
Fixpoint insert_desc {A : Type} (key : A -> Q) (x : A) (l : list A)
    : list A :=
  match l with
  | [] => [x]
  | y :: rest =>
      if Qle_bool (key y) (key x) then x :: l
      else y :: insert_desc key x rest
  end.

Definition sort_desc {A : Type} (key : A -> Q) (l : list A) : list A :=
  foldr (insert_desc key) [] l.

(** The largest float32: faiss fills the places for which it has no row
    with the similarity [-FLT_MAX] and the label [-1]. *)
Definition FLT_MAX : Q := 340282346638528859811704183484516925440.

(** [index.search(query, k)] of an [IndexFlatIP], for one query row: the
    [k] rows of largest inner product, best first.  The Python wrapper
    asserts the width of the query and [k > 0].  Among rows of equal inner
    product the model lists the earlier first; faiss promises no order
    among them. *)
Definition search (ix : IndexFlatIP) (query : list Q) (k : Z)
    : result (list (Q * Z)) :=
  if negb (bool_decide (length query = d ix)) then Raise AssertionError
  else if (k <=? 0)%Z then Raise AssertionError
  else
    let scored := imap (fun i row => (dot query row, Z.of_nat i)) (rows ix) in
    let best := take (Z.to_nat k) (sort_desc fst scored) in
    Ok (best ++ replicate (Z.to_nat k - length best) (- FLT_MAX, (-1)%Z)).

(** An entry of the list [search_local] returns. *)
Record hit : Type := mk_hit {
  hit_title : string;
  hit_artist : string;
  hit_album : string;
  hit_file_path : string;
  similarity : Q;
  detailed_similarity : gmap string Q;
  hit_tempo : sqlval;
  hit_key : sqlval;
  hit_energy : sqlval;
  rank : Z
}.

Section Index.

Variable cosine_dist : list Q -> list Q -> npfloat.

(** The column means and scales a [StandardScaler] learns from a matrix. *)
Variable fit_stats : list (list Q) -> list Q * list Q.

(** The Euclidean norm, as [faiss.normalize_L2] computes it. *)
Variable l2_norm : list Q -> Q.

(** [scaler.fit(X)]: the width of [X] is remembered. *)
Definition fit (X : list (list Q)) : StandardScaler :=
  {| n_features_in_ := length (default [] (head X));
     mean_ := (fit_stats X).1;
     scale_ := (fit_stats X).2 |}.

(** [faiss.normalize_L2]: a row of norm 0 is left as it is. *)
Definition normalize_L2 (row : list Q) : list Q :=
  let n := l2_norm row in
  if Qltb 0 n then (fun x => x / n) <$> row else row.

(** The part of [_build_faiss_index] under [if features:]. *)
Definition build_from (self : t) (features : list ndarray) : result t :=
  features ← matrix_of features;
  let sc := fit features in
  let features := standardize sc <$> features in
  let feature_dim := length (default [] (head features)) in
  let features := normalize_L2 <$> features in
  Ok {| scaler := Some sc;
        index := Some {| d := feature_dim; rows := features |};
        feature_dim := Some feature_dim;
        indexed_songs := indexed_songs self |}.

(** [self.indexed_songs] is replaced before the matrix is made, so it
    stays replaced when the outer [try] catches an exception. *)
Definition _build_faiss_index (self : t) (songs : list song_row) : t :=
  let '(features, indexed) := index_rows songs [] [] in
  let self :=
    {| scaler := scaler self; index := index self;
       feature_dim := feature_dim self; indexed_songs := indexed |} in
  match features with
  | [] => self
  | _ => try_except (build_from self features) (fun _ => self)
  end.

(** [_initialize_index], called at the end of [__init__]. *)
Definition _initialize_index (self : t) (db : database) : t :=
  match _load_all_songs db with
  | [] => self
  | songs => _build_faiss_index self songs
  end.

Definition init (db : database) : t := _initialize_index fresh db.

Definition rebuild_index (self : t) (db : database) : t :=
  _build_faiss_index self (_load_all_songs db).

(** [add_song_to_index(song_data)]; [song_data] has the columns of a row. *)
Definition add_song_to_index (self : t) (db : database)
    (song_data : song_row) : t :=
  try_except
    (fingerprint_data ← json_loads (fingerprint_data song_data);
     let fingerprint := _parse_fingerprint fingerprint_data in
     feature_vector ←
       AudioFingerprinter.create_feature_vector AudioFingerprinter.init
         fingerprint;
     let self :=
       {| scaler := scaler self; index := index self;
          feature_dim := feature_dim self;
          indexed_songs :=
            indexed_songs self ++ [song_of_row song_data fingerprint] |} in
     if (Z.of_nat (length (indexed_songs self)) mod 100 =? 0)%Z
     then Ok (_build_faiss_index self (_load_all_songs db))
     else Ok self)
    (fun _ => self).

(** One round of the loop over [zip(similarities[0], indices[0])]. *)
Definition collect (self : t) (query_fingerprint : gmap string value)
    (threshold : Q) (i : nat) (found : Q * Z) (results : list hit)
    : result (list hit) :=
  let '(sim, idx) := found in
  if Qle_bool threshold sim then
    sg ← py_index (indexed_songs self) idx;
    let detailed :=
      _calculate_detailed_similarity cosine_dist query_fingerprint
        (song_fingerprint sg) in
    Ok (results ++
        [{| hit_title := song_title sg; hit_artist := song_artist sg;
            hit_album := song_album sg; hit_file_path := song_file_path sg;
            similarity := sim; detailed_similarity := detailed;
            hit_tempo := song_tempo sg; hit_key := song_key sg;
            hit_energy := song_energy sg; rank := Z.of_nat i + 1 |}])
  else Ok results.

Fixpoint collect_all (self : t) (query_fingerprint : gmap string value)
    (threshold : Q) (i : nat) (found : list (Q * Z)) (results : list hit)
    : result (list hit) :=
  match found with
  | [] => Ok results
  | f :: rest =>
      results' ← collect self query_fingerprint threshold i f results;
      collect_all self query_fingerprint threshold (S i) rest results'
  end.

(** [results[:max_results]] *)
Definition py_prefix {A : Type} (l : list A) (n : Z) : list A :=
  if (n <? 0)%Z then take (length l - Z.to_nat (- n)) l
  else take (Z.to_nat n) l.

Definition search_local_body (self : t)
    (query_fingerprint : gmap string value) (max_results : Z)
    (threshold : Q) : result (list hit) :=
  match index self, indexed_songs self with
  | None, _ | _, [] => Ok []
  | Some ix, _ =>
      query_vector ←
        AudioFingerprinter.create_feature_vector AudioFingerprinter.init
          query_fingerprint;
      query_vector ← astype_float32 query_vector;
      query_vector ←
        match scaler self with
        | Some sc => transform sc query_vector
        | None => Raise LibraryError
        end;
      let query_vector := normalize_L2 query_vector in
      let k := Z.min (max_results * 2)
                     (Z.of_nat (length (indexed_songs self))) in
      found ← search ix query_vector k;
      results ← collect_all self query_fingerprint threshold 0 found [];
      Ok (py_prefix (sort_desc similarity results) max_results)
  end.

Definition search_local (self : t) (query_fingerprint : gmap string value)
    (max_results : Z) (threshold : Q) : list hit :=
  try_except
    (search_local_body self query_fingerprint max_results threshold)
    (fun _ => []).

(** [get_index_stats]: the number of indexed songs, the dimension, and
    whether there is an index. *)
Definition get_index_stats (self : t) : nat * option nat * bool :=
  (length (indexed_songs self), feature_dim self,
   bool_decide (is_Some (index self))).

End Index.

End SimilarityEngine.

(** * app.py: persistence and the ingest handlers *)

Module App.

(** What [extract_metadata] returns (the file size is not used). *)
Record metadata : Type := mk_metadata {
  meta_title : string;
  meta_artist : string;
  meta_album : string;
  meta_duration : Q
}.

(** [x.tolist()]: only numpy objects have the method. *)
Definition tolist (v : value) : result jval :=
  match v with
  | NdArray xs => Ok (JArr xs)
  | NdScalar x | NpFloat x => Ok (JNum x)
  | NdStr s => Ok (JStr s)
  | PyFloat _ | PyList _ | PyStr _ => Raise AttributeError
  end.

(** [fingerprint_data[f].tolist() if f in fingerprint_data else []] *)
Definition tolist_or_empty (fingerprint_data : gmap string value)
    (f : string) : result jval :=
  match fingerprint_data !! f with
  | Some v => tolist v
  | None => Ok (JArr [])
  end.

(** What [json.dumps] makes of a value put into the dictionary as it is:
    numpy objects are not JSON serializable.  (The numpy scalars of this
    program are np.float32; an np.float64, which is a Python float to
    json, is not told apart from them.) *)
Definition json_encode (v : value) : result jval :=
  match v with
  | PyFloat x => Ok (JNum x)
  | PyList xs => Ok (JArr xs)
  | PyStr s => Ok (JStr s)
  | NpFloat _ | NdArray _ | NdScalar _ | NdStr _ => Raise TypeError
  end.

(** A value bound to a [?] of the statement: sqlite3 takes numbers and
    text. *)
Definition sql_bind (v : value) : result sqlval :=
  match v with
  | PyFloat x => Ok (SqlReal x)
  | PyStr s => Ok (SqlText s)
  | _ => Raise TypeError
  end.

(** The dictionary handed to [json.dumps], and its serialisation. *)
Definition fingerprint_json (fingerprint_data : gmap string value)
    : result (gmap string jval) :=
  mfcc ← tolist_or_empty fingerprint_data "mfcc";
  chroma ← tolist_or_empty fingerprint_data "chroma";
  spectral_centroids ← tolist_or_empty fingerprint_data "spectral_centroids";
  spectral_rolloff ← tolist_or_empty fingerprint_data "spectral_rolloff";
  zero_crossing_rate ← tolist_or_empty fingerprint_data "zero_crossing_rate";
  tempo ← json_encode (default (PyFloat 0) (fingerprint_data !! "tempo"));
  key ← json_encode (default (PyStr "Unknown") (fingerprint_data !! "key"));
  energy ← json_encode (default (PyFloat 0) (fingerprint_data !! "energy"));
  Ok (list_to_map [
    ("mfcc", mfcc);
    ("chroma", chroma);
    ("spectral_centroids", spectral_centroids);
    ("spectral_rolloff", spectral_rolloff);
    ("zero_crossing_rate", zero_crossing_rate);
    ("tempo", tempo);
    ("key", key);
    ("energy", energy)
  ]).

(** [INSERT OR REPLACE INTO songs]: the rows that hold the new row's
    [file_path] or [file_hash] (both UNIQUE) are deleted, and the new row
    gets an id above every id used so far. *)
Definition conflicts (p h : string) (r : song_row) : bool :=
  bool_decide (file_path r = p) || bool_decide (file_hash r = h).

Definition next_id (db : database) : Z :=
  (foldr Z.max (last_id db) (id <$> songs db) + 1)%Z.

Definition insert_or_replace (db : database) (r : song_row) : database :=
  let kept :=
    filter (fun r' => conflicts (file_path r) (file_hash r) r' = false)
           (songs db) in
  let new_id := next_id db in
  {| songs := kept ++
       [{| id := new_id; file_path := file_path r; title := title r;
           artist := artist r; album := album r; duration := duration r;
           file_hash := file_hash r; fingerprint_data := fingerprint_data r;
           tempo := tempo r; key_signature := key_signature r;
           energy := energy r |}];
     last_id := new_id |}.

Section Handlers.

(** The files on disk and SHA-256's hex digest. *)
Variable files : gmap string (list Byte.byte).
Variable sha256 : list Byte.byte -> string.

(** The libraries behind [extract_fingerprint] and [extract_metadata]. *)
Variable pearson : list Q -> list Q -> npfloat.
Variable analyse :
  AudioFingerprinter.t -> string -> result AudioFingerprinter.analysis.
Variable extract_metadata : string -> metadata.

(** [open] raises on a file that cannot be read. *)
Definition calculate_file_hash (file_path : string) : result string :=
  match files !! file_path with
  | Some bytes => Ok (sha256 bytes)
  | None => Raise OSError
  end.

Definition store_audio_data (db : database) (file_path : string)
    (fingerprint_data : gmap string value) (md : metadata) : database :=
  try_except
    (file_hash ← calculate_file_hash file_path;
     fingerprint_json ← fingerprint_json fingerprint_data;
     tempo ← sql_bind (default (PyFloat 0) (fingerprint_data !! "tempo"));
     key ← sql_bind (default (PyStr "Unknown") (fingerprint_data !! "key"));
     energy ← sql_bind (default (PyFloat 0) (fingerprint_data !! "energy"));
     Ok (insert_or_replace db
           {| id := 0; file_path := file_path; title := meta_title md;
              artist := meta_artist md; album := meta_album md;
              duration := meta_duration md; file_hash := file_hash;
              fingerprint_data := Some fingerprint_json;
              tempo := tempo; key_signature := key; energy := energy |}))
    (fun _ => db).

(** [SELECT id FROM songs WHERE file_hash = ?] has a row. *)
Definition is_file_processed (db : database) (file_path : string) : bool :=
  try_except
    (h ← calculate_file_hash file_path;
     Ok (existsb (fun r => bool_decide (file_hash r = h)) (songs db)))
    (fun _ => false).

(** The process: the table, and the engine made from it at start-up.
    The fingerprinter has the default parameters. *)
Record state : Type := mk_state {
  db : database;
  similarity_engine : SimilarityEngine.t
}.

Definition extract (file_path : string) : gmap string value :=
  AudioFingerprinter.extract_fingerprint pearson analyse
    AudioFingerprinter.init file_path.

(** [handle_process_audio], without the progress events. *)
Definition handle_process_audio (st : state) (file_path : string) : state :=
  let fingerprint_data := extract file_path in
  let md := extract_metadata file_path in
  {| db := store_audio_data (db st) file_path fingerprint_data md;
     similarity_engine := similarity_engine st |}.

(** One round of the loop of [handle_scan_library] over the audio files
    found, on the state and the counter [processed_files]. *)
Definition scan_file (acc : state * nat) (file_path : string)
    : state * nat :=
  let '(st, processed_files) := acc in
  if is_file_processed (db st) file_path then acc
  else
    let fingerprint_data := extract file_path in
    let md := extract_metadata file_path in
    ({| db := store_audio_data (db st) file_path fingerprint_data md;
        similarity_engine := similarity_engine st |},
     S processed_files).

Definition handle_scan_library (st : state) (audio_files : list string)
    : state * nat :=
  foldl scan_file (st, 0%nat) audio_files.

End Handlers.

End App.

(** * The data model, for stating the properties *)

Module Schema.
Import AudioFingerprinter.

(** What a field contributes when it holds what the schema says. *)
Definition scalar_entry (fp : gmap string value) (f : string) : Q :=
  default 0 (fp !! f ≫= as_number).

Definition array_entries (fp : gmap string value) (f : string) : list Q :=
  default [] (fp !! f ≫= as_vector).

(** Every scalar field that is present holds a number, every array field
    that is present holds an array or a list. *)
Definition typed (fp : gmap string value) : bool :=
  forallb (fun f => match fp !! f with
                    | Some v => bool_decide (is_Some (as_number v))
                    | None => true
                    end) scalar_features
  && forallb (fun f => match fp !! f with
                       | Some v => is_sequence v
                       | None => true
                       end) array_features.

(** The lengths the schema declares for the array fields. *)
Definition declared : list (string * nat) :=
  [("mfcc", 13); ("mfcc_std", 13); ("chroma", 12); ("chroma_std", 12);
   ("spectral_contrast", 7); ("spectral_contrast_std", 7);
   ("tonnetz", 6); ("tonnetz_std", 6)]%nat.

(** All eight array fields are present with their declared lengths. *)
Definition complete (fp : gmap string value) : bool :=
  forallb (fun fn => match fp !! fn.1 with
                     | Some v => bool_decide (length <$> as_vector v = Some fn.2)
                     | None => false
                     end) declared.

Definition vector_of (fp : gmap string value) : list Q :=
  (scalar_entry fp <$> scalar_features)
  ++ concat (array_entries fp <$> array_features).


(** What the success path of [extract_fingerprint] puts under each key:
    [np.mean(.., axis=1)] and [np.std(.., axis=1)] give arrays, the same
    without axis (and [np.sum], [np.max - np.min]) numpy scalars,
    [float(..)] a float, [estimate_key] a str.  The lengths are those of
    the data model, with the default [n_mfcc = 13]. *)
Inductive shape : Type :=
  | Array (n : nat)
  | NpScalar
  | Float
  | Str.

Definition extraction_schema : list (string * shape) := [
  ("mfcc", Array 13); ("mfcc_std", Array 13);
  ("chroma", Array 12); ("chroma_std", Array 12);
  ("spectral_centroids", NpScalar); ("spectral_centroids_std", NpScalar);
  ("spectral_rolloff", NpScalar); ("spectral_rolloff_std", NpScalar);
  ("zero_crossing_rate", NpScalar); ("zero_crossing_rate_std", NpScalar);
  ("spectral_bandwidth", NpScalar); ("spectral_bandwidth_std", NpScalar);
  ("tempo", Float);
  ("onset_strength", NpScalar); ("onset_strength_std", NpScalar);
  ("harmonic_energy", NpScalar); ("percussive_energy", NpScalar);
  ("harmonic_percussive_ratio", NpScalar);
  ("key", Str);
  ("rms_energy", NpScalar); ("rms_energy_std", NpScalar);
  ("dynamic_range", NpScalar);
  ("mel_spectral_mean", NpScalar); ("mel_spectral_std", NpScalar);
  ("spectral_contrast", Array 7); ("spectral_contrast_std", Array 7);
  ("tonnetz", Array 6); ("tonnetz_std", Array 6);
  ("energy", Float)
].

Definition has_shape (v : value) (s : shape) : bool :=
  match s, v with
  | Array n, NdArray xs => bool_decide (length xs = n)
  | NpScalar, NpFloat _ => true
  | Float, PyFloat _ => true
  | Str, PyStr _ => true
  | _, _ => false
  end.

(** A fingerprint as the success path of extraction builds it. *)
Definition extracted (fp : gmap string value) : bool :=
  forallb (fun fs => match fp !! fs.1 with
                     | Some v => has_shape v fs.2
                     | None => false
                     end) extraction_schema.

(** The fields the scorer reads hold what the schema says: [mfcc] and
    [chroma], when present, a vector of the declared length; [tempo] and
    [energy], when present, a number; [key], when present, text. *)
Definition scorable (fp : gmap string value) : bool :=
  match fp !! "mfcc" with
  | Some v => bool_decide (length <$> as_vector v = Some 13%nat)
  | None => true
  end
  && match fp !! "chroma" with
     | Some v => bool_decide (length <$> as_vector v = Some 12%nat)
     | None => true
     end
  && match fp !! "tempo" with
     | Some v => bool_decide (is_Some (as_number v))
     | None => true
     end
  && match fp !! "energy" with
     | Some v => bool_decide (is_Some (as_number v))
     | None => true
     end
  && match fp !! "key" with
     | Some v => bool_decide (is_Some (SimilarityEngine.text_of v))
     | None => true
     end.

(** The chroma vector [estimate_key] correlates with the profiles: the
    means of the rows, divided by their sum. *)
Definition normalized_chroma (chroma : list (list Q)) : list npfloat :=
  (fun x => np_divide x (np_sum (np_mean <$> chroma))) <$> (np_mean <$> chroma).

(** The two kinds of degenerate chromagram: the time-averaged vector sums
    to zero, or every correlation with a profile is nan. *)
Definition zero_sum (chroma : list (list Q)) : Prop :=
  exists s, np_sum (np_mean <$> chroma) = Fin s /\ s == 0.

Definition nan_correlations (pearson : list Q -> list Q -> npfloat)
    (chroma : list (list Q)) : Prop :=
  forall profile, length profile = 12%nat ->
    corrcoef pearson (normalized_chroma chroma) profile = Ok NaN.

(** An engine whose scaler and index have [n] columns, with a song for
    every row of the index. *)
Definition searchable (n : nat) (self : SimilarityEngine.t) : Prop :=
  exists sc ix,
    SimilarityEngine.scaler self = Some sc
    /\ SimilarityEngine.index self = Some ix
    /\ SimilarityEngine.n_features_in_ sc = n
    /\ SimilarityEngine.d ix = n
    /\ (0 < length (SimilarityEngine.indexed_songs self))%nat
    /\ (length (SimilarityEngine.rows ix)
        <= length (SimilarityEngine.indexed_songs self))%nat.


(** What the scorer reads from such a fingerprint. *)
Definition tempo_of (fp : gmap string value) : Q :=
  default 120 (fp !! "tempo" ≫= as_number).

Definition energy_of (fp : gmap string value) : Q :=
  default 0 (fp !! "energy" ≫= as_number).

Definition key_of (fp : gmap string value) : string :=
  default "Unknown" (fp !! "key" ≫= SimilarityEngine.text_of).

Definition vector_at (fp : gmap string value) (f : string) : list Q :=
  default [] (fp !! f ≫= as_vector).

(** The five channels as formulas on these readings. *)
Definition cosine_score (cosine_dist : list Q -> list Q -> npfloat)
    (f : string) (q t : gmap string value) : option Q :=
  match q !! f, t !! f with
  | Some _, Some _ =>
      Some (py_max0 (one_minus (cosine_dist (vector_at q f) (vector_at t f))))
  | _, _ => None
  end.

Definition tempo_score (q t : gmap string value) : Q :=
  py_max 0 (1 - py_abs (tempo_of q - tempo_of t)
                / py_max3 (tempo_of q) (tempo_of t) 1).

Definition energy_score (q t : gmap string value) : Q :=
  if Qltb 0 (energy_of q) && Qltb 0 (energy_of t)
  then py_min (energy_of q) (energy_of t) / py_max (energy_of q) (energy_of t)
  else 0.5.

Definition key_score (q t : gmap string value) : Q :=
  if negb (bool_decide (key_of q = "Unknown"))
     && negb (bool_decide (key_of t = "Unknown"))
  then (if bool_decide (key_of q = key_of t) then 1.0 else 0.3)
  else 0.5.

Definition insert_if {A : Type} (k : string) (o : option A)
    (m : gmap string A) : gmap string A :=
  match o with
  | Some x => <[k := x]> m
  | None => m
  end.

Definition five_channels (cosine_dist : list Q -> list Q -> npfloat)
    (q t : gmap string value) : gmap string Q :=
  <["key" := key_score q t]>
    (<["energy" := energy_score q t]>
       (<["tempo" := tempo_score q t]>
          (insert_if "chroma" (cosine_score cosine_dist "chroma" q t)
             (insert_if "mfcc" (cosine_score cosine_dist "mfcc" q t) ∅)))).

(** Every channel of a score is one of the six and lies in [0, 1]. *)
Definition in_range (score : gmap string Q) : Prop :=
  forall name x, score !! name = Some x ->
    0 <= x <= 1
    /\ name ∈ ["mfcc"; "chroma"; "tempo"; "energy"; "key"; "overall"].

(** What scipy guarantees of its cosine distance. *)
Definition clipped (cosine_dist : list Q -> list Q -> npfloat) : Prop :=
  forall u v, match cosine_dist u v with
              | Fin d => 0 <= d <= 2
              | NaN => True
              end.

(** The channel [name] of a score is there and has the value [x]. *)
Definition channel_is (score : gmap string Q) (name : string) (x : Q)
    : Prop :=
  exists y, score !! name = Some y /\ y == x.

(** The tempo formula in the words of the specification. *)
Definition tempo_formula (qt ct : Q) : Q :=
  Qmax 0 (1 - Qabs (qt - ct) / Qmax (Qmax qt ct) 1).

(** The rows of the table that hold a given content hash. *)
Definition rows_with_hash (h : string) (db : database) : list song_row :=
  filter (fun r => file_hash r = h) (songs db).

(** The keys of the stored document. *)
Definition stored_keys : list string :=
  ["mfcc"; "chroma"; "spectral_centroids"; "spectral_rolloff";
   "zero_crossing_rate"; "tempo"; "key"; "energy"].

End Schema.

(** * Sample data *)

Module Samples.
Import Schema.

(** A fingerprint of the shape extraction gives, with every number 1. *)
Definition sample_fingerprint : gmap string value :=
  list_to_map
    ((fun fs : string * shape =>
        (fs.1, match fs.2 with
               | Array n => NdArray (replicate n 1)
               | NpScalar => NpFloat 1
               | Float => PyFloat 1
               | Str => PyStr "C major"
               end)) <$> extraction_schema).

(** The document [store_audio_data] writes for it. *)
Definition sample_document : gmap string jval :=
  list_to_map [
    ("mfcc", JArr (replicate 13 1)); ("chroma", JArr (replicate 12 1));
    ("spectral_centroids", JNum 1); ("spectral_rolloff", JNum 1);
    ("zero_crossing_rate", JNum 1); ("tempo", JNum 1);
    ("key", JStr "C major"); ("energy", JNum 1)
  ].

(** "C major", every other field zero. *)
Definition c_major_fingerprint : gmap string value :=
  <["key" := PyStr "C major"]>
    (AudioFingerprinter._get_empty_fingerprint AudioFingerprinter.init).

(** Only the three fields [_parse_fingerprint] always sets. *)
Definition bare_fingerprint : gmap string value :=
  list_to_map [("tempo", PyFloat 120); ("energy", PyFloat 0.5);
               ("key", PyStr "C major")].

(** A stored row holding the sample document. *)
Definition sample_row (i : Z) (path hash : string) : song_row :=
  {| id := i; file_path := path; title := "Unknown"; artist := "Unknown";
     album := "Unknown"; duration := 0; file_hash := hash;
     fingerprint_data := Some sample_document;
     tempo := SqlReal 1; key_signature := SqlText "C major";
     energy := SqlReal 1 |}.

(** An engine as [_build_faiss_index] leaves it for one stored row: the
    parsed document has 20 + 13 + 12 = 45 columns.  The scaler fitted on
    the single row has the row as its mean (the five scalars of the
    document, then mfcc and chroma) and, the variance being 0, the scale
    1; the standardised row is 0 everywhere. *)
Definition one_song_engine : SimilarityEngine.t :=
  {| SimilarityEngine.scaler :=
       Some {| SimilarityEngine.n_features_in_ := 45;
               SimilarityEngine.mean_ :=
                 [1; 0; 1; 0; 1; 0; 0; 0; 1; 0;
                  0; 0; 0; 0; 0; 0; 0; 0; 0; 1] ++ replicate 25 1;
               SimilarityEngine.scale_ := replicate 45 1 |};
     SimilarityEngine.index :=
       Some {| SimilarityEngine.d := 45;
               SimilarityEngine.rows := [replicate 45 0] |};
     SimilarityEngine.feature_dim := Some 45%nat;
     SimilarityEngine.indexed_songs :=
       [SimilarityEngine.song_of_row (sample_row 1 "a.wav" "h1")
          (SimilarityEngine._parse_fingerprint sample_document)] |}.

(** A library of one readable file that the analysis succeeds on, and a
    process that starts on an empty table (so the engine has no index). *)
Definition one_file : gmap string (list Byte.byte) :=
  {["a.wav" := [Byte.x52; Byte.x49; Byte.x46; Byte.x46]]}.

Definition analysed (self : AudioFingerprinter.t) (file_path : string)
    : result AudioFingerprinter.analysis :=
  Ok {| AudioFingerprinter.descriptors := sample_fingerprint;
        AudioFingerprinter.chroma_cq := replicate 12 [1; 1] |}.

Definition no_tags (file_path : string) : App.metadata :=
  {| App.meta_title := "Unknown"; App.meta_artist := "Unknown";
     App.meta_album := "Unknown"; App.meta_duration := 0 |}.

Definition started : App.state :=
  {| App.db := empty_db; App.similarity_engine := SimilarityEngine.fresh |}.

End Samples.

(** * external_apis.py *)

(** A result dictionary and its ['source'] key. *)
Record sourced (A : Type) : Type := mk_sourced {
  item : A;
  source : string
}.
Arguments mk_sourced {A} item source.
Arguments item {A} s.
Arguments source {A} s.

Module ExternalAPIManager.

(** [s.lower()], for text in ASCII (as the labels of [estimate_key] are). *)
Definition lower_ascii (c : Ascii.ascii) : Ascii.ascii :=
  let n := Ascii.nat_of_ascii c in
  if (65 <=? n)%nat && (n <=? 90)%nat then Ascii.ascii_of_nat (n + 32)
  else c.

Fixpoint lower (s : string) : string :=
  match s with
  | EmptyString => EmptyString
  | String c rest => String (lower_ascii c) (lower rest)
  end.

(** [needle in hay] *)
Fixpoint occurs (needle hay : string) : bool :=
  String.prefix needle hay
  || match hay with
     | EmptyString => false
     | String _ rest => occurs needle rest
     end.

(** [key_str.lower()]: only a str has the method (a numpy array of text
    has not). *)
Definition lower_of (v : value) : result string :=
  match v with
  | PyStr s => Ok (lower s)
  | _ => Raise AttributeError
  end.

(** ** _convert_to_spotify_features *)

(** The dictionaries of this function hold numbers only; whether one is an
    int, a float or a numpy float makes no difference to the arithmetic
    done with them.  A tempo or an energy that is a str or a list makes
    [min] raise TypeError.  One that is a numpy array is outside this
    model: [number] refuses it, where Python goes on with an array of one
    element; the properties below that depend on the refusal are stated
    for str and list only. *)
Definition convert_body (fingerprint_data : gmap string value)
    : result (gmap string Q) :=
  tempo ← SimilarityEngine.number
            (default (PyFloat 120) (fingerprint_data !! "tempo"));
  energy ← SimilarityEngine.number
             (default (PyFloat 0.5) (fingerprint_data !! "energy"));
  let spotify_features : gmap string Q :=
    list_to_map [
      ("tempo", py_max 60 (py_min 200 tempo));
      ("energy", py_max 0 (py_min 1 energy));
      ("acousticness", 0.5);
      ("danceability", py_max 0 (py_min 1 (energy * 0.8)));
      ("instrumentalness", 0.7);
      ("liveness", 0.1);
      ("loudness", -10);
      ("speechiness", 0.1);
      ("valence", 0.5)
    ] in
  match fingerprint_data !! "key" with
  | Some key_str =>
      lowered ← lower_of key_str;
      if occurs "minor" lowered
      then Ok (<["valence" := 0.3]> spotify_features)
      else
        lowered ← lower_of key_str;
        if occurs "major" lowered
        then Ok (<["valence" := 0.7]> spotify_features)
        else Ok spotify_features
  | None => Ok spotify_features
  end.

(** The dictionary of the [except] branch. *)
Definition fallback_features : gmap string Q :=
  list_to_map [
    ("tempo", 120); ("energy", 0.5); ("acousticness", 0.5);
    ("danceability", 0.5); ("instrumentalness", 0.7); ("liveness", 0.1);
    ("loudness", -10); ("speechiness", 0.1); ("valence", 0.5)
  ].

Definition _convert_to_spotify_features
    (fingerprint_data : gmap string value) : gmap string Q :=
  try_except (convert_body fingerprint_data) (fun _ => fallback_features).

(** ** _calculate_spotify_similarity *)

Definition feature_names : list string :=
  ["acousticness"; "danceability"; "energy"; "instrumentalness";
   "liveness"; "speechiness"; "valence"].

(** One round of the loop over [feature_names], on
    [(total_similarity, valid_features)].  The query features are the
    dictionary [_convert_to_spotify_features] made; the track features come
    from Spotify and may hold anything. *)
Definition compare (query_features : gmap string Q)
    (track_features : gmap string value) (acc : Q * Z) (feature : string)
    : result (Q * Z) :=
  match query_features !! feature, track_features !! feature with
  | Some query_val, Some track_val =>
      track_val ← SimilarityEngine.number track_val;
      let diff := py_abs (query_val - track_val) in
      let similarity := 1 - diff in
      Ok (acc.1 + similarity, (acc.2 + 1)%Z)
  | _, _ => Ok acc
  end.

Fixpoint compare_all (query_features : gmap string Q)
    (track_features : gmap string value) (features : list string)
    (acc : Q * Z) : result (Q * Z) :=
  match features with
  | [] => Ok acc
  | feature :: rest =>
      acc' ← compare query_features track_features acc feature;
      compare_all query_features track_features rest acc'
  end.

Definition compare_tempo (query_features : gmap string Q)
    (track_features : gmap string value) (acc : Q * Z) : result (Q * Z) :=
  match query_features !! "tempo", track_features !! "tempo" with
  | Some query_tempo, Some track_tempo =>
      track_tempo ← SimilarityEngine.number track_tempo;
      let tempo_diff :=
        py_abs (query_tempo - track_tempo)
        / py_max3 query_tempo track_tempo 1 in
      let tempo_similarity := py_max 0 (1 - tempo_diff) in
      Ok (acc.1 + tempo_similarity, (acc.2 + 1)%Z)
  | _, _ => Ok acc
  end.

Definition spotify_similarity_body (query_features : gmap string Q)
    (track_features : gmap string value) : result Q :=
  acc ← compare_all query_features track_features feature_names (0, 0%Z);
  acc ← compare_tempo query_features track_features acc;
  if (0 <? acc.2)%Z then Ok (acc.1 / inject_Z acc.2) else Ok 0.0.

Definition _calculate_spotify_similarity (query_features : gmap string Q)
    (track_features : gmap string value) : Q :=
  try_except (spotify_similarity_body query_features track_features)
             (fun _ => 0.0).

(** ** The Spotify client *)

(** A track of a recommendations response, with the fields the code
    reads. *)
Record track : Type := mk_track {
  track_id : string;
  track_name : string;
  track_artists : list string;
  album_name : string;
  album_images : list string;
  external_url : string;
  track_preview_url : option string
}.

(** The two calls made on the client.  Either may raise (network, rate
    limit, a response without the key the code indexes);
    [audio_features(id)[0]] may be None. *)
Record client : Type := mk_client {
  recommendations : Z -> gmap string Q -> result (list track);
  audio_features : string -> result (option (gmap string value))
}.

(** The manager; [acrcloud_config] is read by [search_acrcloud] only, which
    nothing calls. *)
Record t : Type := mk {
  spotify : option client
}.

(** [setup_apis], called by [__init__]: there is a client when both
    environment variables are set and not empty. *)
Definition nonempty (s : string) : bool :=
  match s with
  | EmptyString => false
  | _ => true
  end.

Definition setup_apis (getenv : string -> option string)
    (connect : string -> string -> result client) : t :=
  try_except
    (match getenv "SPOTIFY_CLIENT_ID", getenv "SPOTIFY_CLIENT_SECRET" with
     | Some client_id, Some client_secret =>
         if nonempty client_id && nonempty client_secret then
           c ← connect client_id client_secret;
           Ok {| spotify := Some c |}
         else Ok {| spotify := None |}
     | _, _ => Ok {| spotify := None |}
     end)
    (fun _ => {| spotify := None |}).

(** ** search_spotify_by_features, search_external *)

Record spotify_result : Type := mk_spotify_result {
  sp_title : string;
  sp_artist : string;
  sp_album : string;
  sp_similarity : Q;
  spotify_id : string;
  spotify_url : string;
  preview_url : option string;
  image_url : option string;
  sp_audio_features : gmap string value
}.

(** The keyword arguments of [recommendations]. *)
Definition targets (spotify_features : gmap string Q) : gmap string Q :=
  list_to_map [
    ("target_acousticness", default 0.5 (spotify_features !! "acousticness"));
    ("target_danceability", default 0.5 (spotify_features !! "danceability"));
    ("target_energy", default 0.5 (spotify_features !! "energy"));
    ("target_instrumentalness",
     default 0.7 (spotify_features !! "instrumentalness"));
    ("target_liveness", default 0.5 (spotify_features !! "liveness"));
    ("target_loudness", default (-10) (spotify_features !! "loudness"));
    ("target_speechiness", default 0.1 (spotify_features !! "speechiness"));
    ("target_tempo", default 120 (spotify_features !! "tempo"));
    ("target_valence", default 0.5 (spotify_features !! "valence"))
  ].

Definition format_track (spotify_features : gmap string Q) (tr : track)
    (features : gmap string value) : sourced spotify_result :=
  {| item :=
       {| sp_title := track_name tr;
          sp_artist := String.concat ", " (track_artists tr);
          sp_album := album_name tr;
          sp_similarity :=
            _calculate_spotify_similarity spotify_features features;
          spotify_id := track_id tr;
          spotify_url := external_url tr;
          preview_url := track_preview_url tr;
          image_url := head (album_images tr);
          sp_audio_features := features |};
     source := "spotify" |}.

(** The loop over [results['tracks']]: a track without audio features
    (None, or an empty dictionary) is left out. *)
Fixpoint format_tracks (c : client) (spotify_features : gmap string Q)
    (tracks : list track) (formatted_results : list (sourced spotify_result))
    : result (list (sourced spotify_result)) :=
  match tracks with
  | [] => Ok formatted_results
  | tr :: rest =>
      features ← audio_features c (track_id tr);
      match features with
      | Some features =>
          match size features with
          | O => format_tracks c spotify_features rest formatted_results
          | S _ =>
              format_tracks c spotify_features rest
                (formatted_results
                 ++ [format_track spotify_features tr features])
          end
      | None => format_tracks c spotify_features rest formatted_results
      end
  end.

Definition search_spotify_by_features (self : t)
    (fingerprint_data : gmap string value) (max_results : Z)
    : list (sourced spotify_result) :=
  match spotify self with
  | None => []
  | Some c =>
      try_except
        (let spotify_features :=
           _convert_to_spotify_features fingerprint_data in
         results ← recommendations c max_results (targets spotify_features);
         formatted_results ← format_tracks c spotify_features results [];
         Ok (SimilarityEngine.sort_desc (fun x => sp_similarity (item x))
               formatted_results))
        (fun _ => [])
  end.

Definition search_external (self : t)
    (fingerprint_data : gmap string value) (max_results : Z)
    : list (sourced spotify_result) :=
  let results := [] ++ search_spotify_by_features self fingerprint_data
                         max_results in
  SimilarityEngine.py_prefix results max_results.

End ExternalAPIManager.

(** * app.py: the search handler *)

Module AppSearch.

(** A result of either kind. *)
Inductive found : Type :=
  | Local (h : SimilarityEngine.hit)
  | External (r : ExternalAPIManager.spotify_result).

(** [x.get('similarity', 0)]: both kinds have the key. *)
Definition similarity_of (x : sourced found) : Q :=
  match item x with
  | Local h => SimilarityEngine.similarity h
  | External r => ExternalAPIManager.sp_similarity r
  end.

(** [combine_and_rank_results]: the ['source'] key is set on the local
    results and overwritten on the external ones. *)
Definition combine_and_rank_results
    (local_results : list SimilarityEngine.hit)
    (external_results : list (sourced ExternalAPIManager.spotify_result))
    : list (sourced found) :=
  let all_results :=
    ((fun result => {| item := Local result; source := "local" |})
       <$> local_results)
    ++ ((fun result => {| item := External (item result);
                          source := "external" |})
          <$> external_results) in
  SimilarityEngine.sort_desc similarity_of all_results.

(** The payload of a [search_similar] event. *)
Record request : Type := mk_request {
  fingerprint : option (gmap string value);
  search_mode : option string;
  max_results : option Z;
  threshold : option Q
}.

Section Handler.

Variable cosine_dist : list Q -> list Q -> npfloat.
Variable l2_norm : list Q -> Q.

(** [handle_search_similar], without the progress events: the results of
    the [search_complete] event, or None when the [error] event is emitted
    instead ([data['fingerprint']] raises KeyError).  [store_search_history]
    writes the table [search_history], which no function reads, inside a
    [try] of its own. *)
Definition handle_search_similar (similarity_engine : SimilarityEngine.t)
    (api_manager : ExternalAPIManager.t) (data : request)
    : option (list (sourced found)) :=
  match fingerprint data with
  | None => None
  | Some source_fingerprint =>
      let search_mode := default "hybrid" (search_mode data) in
      let max_results := default 20%Z (max_results data) in
      let threshold := default 0.7 (threshold data) in
      let local_results :=
        SimilarityEngine.search_local cosine_dist l2_norm similarity_engine
          source_fingerprint max_results threshold in
      let external_results :=
        if bool_decide (search_mode ∈ ["online"; "hybrid"])
        then ExternalAPIManager.search_external api_manager
               source_fingerprint max_results
        else [] in
      Some (combine_and_rank_results local_results external_results)
  end.

End Handler.

End AppSearch.

(** * Further notions for stating properties *)

Module Laws.
Import AudioFingerprinter.

(** ** estimate_key *)

(** Everything [estimate_key] can return. *)
Definition key_labels : list string :=
  "Unknown" :: "C"
  :: flat_map (fun n => [n +:+ " major"; n +:+ " minor"]) key_names.

(** The 24 candidates in the order the loop visits them: for each pitch
    class the rotated major profile, then the rotated minor profile. *)
Definition candidates : list (list Q * string) :=
  flat_map (fun i =>
              [(np_roll major_profile i,
                default "" (key_names !! i) +:+ " major");
               (np_roll minor_profile i,
                default "" (key_names !! i) +:+ " minor")])
           (seq 0 12).

(** The correlation of the normalized chroma vector with a profile. *)
Definition correlation (pearson : list Q -> list Q -> npfloat)
    (chroma : list (list Q)) (profile : list Q) : npfloat :=
  match finite_vector (Schema.normalized_chroma chroma) with
  | Some xs => pearson xs profile
  | None => NaN
  end.

Definition correlations (pearson : list Q -> list Q -> npfloat)
    (chroma : list (list Q)) : list (npfloat * string) :=
  (fun c => (correlation pearson chroma c.1, c.2)) <$> candidates.

(** One comparison of the loop, on the state [(max_corr, estimated_key)]. *)
Definition step (st : Q * string) (e : npfloat * string) : Q * string :=
  if exceeds e.1 st.1 then (corr_value e.1, e.2) else st.

Definition below (bound : Q) (e : npfloat * string) : Prop :=
  match e.1 with Fin x => x <= bound | NaN => True end.

Definition strictly_below (bound : Q) (e : npfloat * string) : Prop :=
  match e.1 with Fin x => x < bound | NaN => True end.

(** [k] is the label of the first entry of [l] whose value is the largest
    finite value of [l], provided that value exceeds [m0]; otherwise [k] is
    [k0]. *)
Definition first_maximum (l : list (npfloat * string)) (m0 : Q)
    (k0 k : string) : Prop :=
  (k = k0 /\ Forall (below m0) l)
  \/ (exists l1 c l2,
        l = l1 ++ (Fin c, k) :: l2
        /\ m0 < c
        /\ Forall (strictly_below c) l1
        /\ Forall (below c) l2).

(** ** The engine and the table *)

#[global] Instance shape_eq_dec : EqDecision Schema.shape.
Proof. solve_decision. Defined.

(** A row as [store_audio_data] writes it for a fingerprint that extraction
    produced. *)
Definition stored_by_extraction (r : song_row) : Prop :=
  exists fp doc,
    Schema.extracted fp = true
    /\ App.fingerprint_json fp = Ok doc
    /\ fingerprint_data r = Some doc.


(** The engine with its list of indexed songs replaced. *)
Definition with_songs (self : SimilarityEngine.t)
    (indexed : list SimilarityEngine.song) : SimilarityEngine.t :=
  {| SimilarityEngine.scaler := SimilarityEngine.scaler self;
     SimilarityEngine.index := SimilarityEngine.index self;
     SimilarityEngine.feature_dim := SimilarityEngine.feature_dim self;
     SimilarityEngine.indexed_songs := indexed |}.

(** The engine a build that goes through makes of the matrix [X] of feature
    vectors. *)
Definition built (fit_stats : list (list Q) -> list Q * list Q)
    (l2_norm : list Q -> Q) (X : list (list Q))
    (indexed : list SimilarityEngine.song) : SimilarityEngine.t :=
  let sc := SimilarityEngine.fit fit_stats X in
  let n := length (default [] (head (SimilarityEngine.standardize sc <$> X))) in
  {| SimilarityEngine.scaler := Some sc;
     SimilarityEngine.index :=
       Some {| SimilarityEngine.d := n;
               SimilarityEngine.rows :=
                 SimilarityEngine.normalize_L2 l2_norm
                 <$> (SimilarityEngine.standardize sc <$> X) |};
     SimilarityEngine.feature_dim := Some n;
     SimilarityEngine.indexed_songs := indexed |}.

(** Scaler, index and dimension agree on the number of columns, and every
    row of the index has that many entries. *)
Definition consistent (self : SimilarityEngine.t) : Prop :=
  match SimilarityEngine.index self with
  | None => True
  | Some ix =>
      SimilarityEngine.feature_dim self = Some (SimilarityEngine.d ix)
      /\ SimilarityEngine.n_features_in_ <$> SimilarityEngine.scaler self
         = Some (SimilarityEngine.d ix)
      /\ Forall (fun row => length row = SimilarityEngine.d ix)
                (SimilarityEngine.rows ix)
  end.

(** The index has exactly one row for every indexed song. *)
Definition aligned (self : SimilarityEngine.t) : Prop :=
  exists ix, SimilarityEngine.index self = Some ix
    /\ length (SimilarityEngine.rows ix)
       = length (SimilarityEngine.indexed_songs self).

(** A feature vector of [n] numbers. *)
Definition wide (n : nat) (a : ndarray) : Prop :=
  exists v, a = FloatArray v /\ length v = n.

(** The sample engine with [n] indexed songs in place of its one. *)
Definition crowded (n : nat) : SimilarityEngine.t :=
  with_songs Samples.one_song_engine
    (replicate n
       (SimilarityEngine.song_of_row (Samples.sample_row 1 "a.wav" "h1")
          (SimilarityEngine._parse_fingerprint Samples.sample_document))).

(** The table after the sample fingerprint was stored for one file. *)
Definition stored_once : database :=
  App.store_audio_data Samples.one_file (fun _ => "h") empty_db "a.wav"
    Samples.sample_fingerprint (Samples.no_tags "a.wav").

(** A table of two stored rows. *)
Definition two_rows : database :=
  {| songs := [Samples.sample_row 1 "a.wav" "h1";
               Samples.sample_row 2 "b.wav" "h2"];
     last_id := 2 |}.

(** The table respects its constraints: [file_path] and [file_hash] are
    UNIQUE, [id] is the primary key, and no id exceeds the largest one
    handed out. *)
Definition well_formed (db : database) : Prop :=
  NoDup (file_path <$> songs db)
  /\ NoDup (file_hash <$> songs db)
  /\ NoDup (id <$> songs db)
  /\ Forall (fun r => (id r <= last_id db)%Z) (songs db).

(** Two scores have the same channels with equal values. *)
Definition same_scores (a b : gmap string Q) : Prop :=
  forall name, option_Forall2 Qeq (a !! name) (b !! name).

(** The weighted sum in the words of the code's table of weights, a channel
    that is absent counting 0. *)
Definition overall_formula (score : gmap string Q) : Q :=
  0.3 * default 0 (score !! "mfcc") + 0.25 * default 0 (score !! "chroma")
  + 0.2 * default 0 (score !! "tempo") + 0.15 * default 0 (score !! "energy")
  + 0.1 * default 0 (score !! "key").

(** A cosine distance that is 0 between a vector and itself. *)
Definition exact (u v : list Q) : npfloat := Fin 0.

(** The dictionary the [try] body of [_convert_to_spotify_features] makes
    of a tempo, an energy and a valence. *)
Definition spotify_features_of (tempo energy valence : Q) : gmap string Q :=
  list_to_map [
    ("tempo", py_max 60 (py_min 200 tempo));
    ("energy", py_max 0 (py_min 1 energy));
    ("acousticness", 0.5);
    ("danceability", py_max 0 (py_min 1 (energy * 0.8)));
    ("instrumentalness", 0.7);
    ("liveness", 0.1);
    ("loudness", -10);
    ("speechiness", 0.1);
    ("valence", valence)
  ].

Definition spotify_keys : list string :=
  ["tempo"; "energy"; "acousticness"; "danceability"; "instrumentalness";
   "liveness"; "loudness"; "speechiness"; "valence"].

(** The valence a key label gets. *)
Definition valence_for (key : string) : Q :=
  if ExternalAPIManager.occurs "minor" (ExternalAPIManager.lower key)
  then 0.3
  else if ExternalAPIManager.occurs "major" (ExternalAPIManager.lower key)
       then 0.7 else 0.5.

(** A str or a list: what Python refuses to compare with a number. *)
Definition str_or_list (v : value) : Prop :=
  (exists s, v = PyStr s) \/ (exists xs, v = PyList xs).

(** The field is absent or a number. *)
Definition numeric (fp : gmap string value) (f : string) : Prop :=
  forall v, fp !! f = Some v -> is_Some (as_number v).

(** The features of a track that are compared one by one lie in [0, 1],
    as Spotify documents them. *)
Definition unit_features (track_features : gmap string value) : Prop :=
  forall f v x,
    f ∈ ExternalAPIManager.feature_names ->
    track_features !! f = Some v -> as_number v = Some x -> 0 <= x <= 1.

(** A client that recommends one track, whatever is asked. *)
Definition one_track_client : ExternalAPIManager.client :=
  {| ExternalAPIManager.recommendations := fun _ _ =>
       Ok [{| ExternalAPIManager.track_id := "t1";
              ExternalAPIManager.track_name := "Song";
              ExternalAPIManager.track_artists := ["A"; "B"];
              ExternalAPIManager.album_name := "Album";
              ExternalAPIManager.album_images := [];
              ExternalAPIManager.external_url := "u";
              ExternalAPIManager.track_preview_url := None |}];
     ExternalAPIManager.audio_features := fun _ =>
       Ok (Some {["energy" := PyFloat 0.5]}) |}.

(** The tags [combine_and_rank_results] puts on the results. *)
Definition tag_local (h : SimilarityEngine.hit) : sourced AppSearch.found :=
  {| item := AppSearch.Local h; source := "local" |}.

Definition tag_external (r : sourced ExternalAPIManager.spotify_result)
    : sourced AppSearch.found :=
  {| item := AppSearch.External (item r); source := "external" |}.

(** An external result as [search_spotify_by_features] leaves it. *)
Definition from_spotify (x : sourced ExternalAPIManager.spotify_result)
    : Prop :=
  source x = "spotify" /\ ExternalAPIManager.sp_similarity (item x) <= 1.

(** An environment without the Spotify credentials. *)
Definition no_credentials (getenv : string -> option string) : Prop :=
  getenv "SPOTIFY_CLIENT_ID" = None
  \/ getenv "SPOTIFY_CLIENT_ID" = Some ""
  \/ getenv "SPOTIFY_CLIENT_SECRET" = None
  \/ getenv "SPOTIFY_CLIENT_SECRET" = Some "".

(** Largest key first. *)
Fixpoint descending {A : Type} (key : A -> Q) (l : list A) : Prop :=
  match l with
  | [] => True
  | x :: rest => Forall (fun y => key y <= key x) rest /\ descending key rest
  end.

(** The entry [search_local] makes of an indexed song. *)
Definition hit_of (cosine_dist : list Q -> list Q -> npfloat)
    (query_fingerprint : gmap string value) (sg : SimilarityEngine.song)
    (sim : Q) (rank : Z) : SimilarityEngine.hit :=
  {| SimilarityEngine.hit_title := SimilarityEngine.song_title sg;
     SimilarityEngine.hit_artist := SimilarityEngine.song_artist sg;
     SimilarityEngine.hit_album := SimilarityEngine.song_album sg;
     SimilarityEngine.hit_file_path := SimilarityEngine.song_file_path sg;
     SimilarityEngine.similarity := sim;
     SimilarityEngine.detailed_similarity :=
       SimilarityEngine._calculate_detailed_similarity cosine_dist
         query_fingerprint (SimilarityEngine.song_fingerprint sg);
     SimilarityEngine.hit_tempo := SimilarityEngine.song_tempo sg;
     SimilarityEngine.hit_key := SimilarityEngine.song_key sg;
     SimilarityEngine.hit_energy := SimilarityEngine.song_energy sg;
     SimilarityEngine.rank := rank |}.

(** The hit was made of one of the first [n] of the songs, with a
    similarity of at least the threshold and a rank among the [k] places
    searched. *)
Definition hit_among (cosine_dist : list Q -> list Q -> npfloat)
    (query_fingerprint : gmap string value)
    (indexed : list SimilarityEngine.song) (n : nat) (threshold : Q) (k : Z)
    (h : SimilarityEngine.hit) : Prop :=
  exists i sg,
    (i < n)%nat /\ indexed !! i = Some sg
    /\ threshold <= SimilarityEngine.similarity h
    /\ (1 <= SimilarityEngine.rank h <= k)%Z
    /\ h = hit_of cosine_dist query_fingerprint sg
             (SimilarityEngine.similarity h) (SimilarityEngine.rank h).

(** The hit [h] was made of the song at position [i], one of the first [n]
    positions. *)
Definition hit_at (cosine_dist : list Q -> list Q -> npfloat)
    (query_fingerprint : gmap string value)
    (indexed : list SimilarityEngine.song) (n : nat) (threshold : Q) (k : Z)
    (h : SimilarityEngine.hit) (i : nat) : Prop :=
  (i < n)%nat
  /\ exists sg,
       indexed !! i = Some sg
       /\ threshold <= SimilarityEngine.similarity h
       /\ (1 <= SimilarityEngine.rank h <= k)%Z
       /\ h = hit_of cosine_dist query_fingerprint sg
                (SimilarityEngine.similarity h) (SimilarityEngine.rank h).

(** The rows a result of [index.search] names: the labels that are not the
    -1 of a padded place. *)
Definition position (label : Z) : option nat :=
  if (0 <=? label)%Z then Some (Z.to_nat label) else None.

Definition positions_of (found : list (Q * Z)) : list nat :=
  omap position found.*2.

(** The rows an [INSERT OR REPLACE] of a row with path [p] and hash [h]
    leaves in place. *)
Definition kept (p h : string) (db : database) : list song_row :=
  filter (fun r => App.conflicts p h r = false) (songs db).

Definition with_id (r : song_row) (i : Z) : song_row :=
  {| id := i; file_path := file_path r; title := title r;
     artist := artist r; album := album r; duration := duration r;
     file_hash := file_hash r; fingerprint_data := fingerprint_data r;
     tempo := tempo r; key_signature := key_signature r;
     energy := energy r |}.

(** The outcome of extraction for a file: the zero fingerprint of the
    handler, or a fingerprint of the shape the [try] body builds. *)
Definition regular (pearson : list Q -> list Q -> npfloat)
    (analyse : AudioFingerprinter.t -> string ->
               result AudioFingerprinter.analysis) (p : string) : Prop :=
  App.extract pearson analyse p
  = AudioFingerprinter._get_empty_fingerprint AudioFingerprinter.init
  \/ Schema.extracted (App.extract pearson analyse p) = true.

(** An analysis that fails on every file. *)
Definition unreadable (self : AudioFingerprinter.t) (file_path : string)
    : result AudioFingerprinter.analysis :=
  Raise LibraryError.

End Laws.

(** * Properties *)

(** ** The result monad *)

Lemma bind_Ok {A B : Type} (r : result A) (k : A -> result B) (b : B) :
  r ≫= k = Ok b -> exists a, r = Ok a /\ k a = Ok b.
Proof. destruct r as [a|e]; [eauto | discriminate]. Qed.

(** ** create_feature_vector *)

Module VectorFacts.
Import AudioFingerprinter Schema.

Lemma append_scalars_app fp names acc :
  append_scalars fp names acc
  = acc ++ ((fun f => default (PyFloat 0) (fp !! f)) <$> names).
Proof.
  revert acc. induction names as [|f names IH]; intros acc; simpl.
  - by rewrite app_nil_r.
  - by rewrite IH, <- app_assoc.
Qed.

Lemma extend_arrays_typed fp names acc :
  forallb (fun f => match fp !! f with
                    | Some v => is_sequence v
                    | None => true
                    end) names = true ->
  extend_arrays fp names acc
  = Ok (acc ++ (PyFloat <$> concat (array_entries fp <$> names))).
Proof.
  revert acc. induction names as [|f names IH]; intros acc H; simpl in *.
  - by rewrite app_nil_r.
  - apply andb_true_iff in H as [Hf H]. unfold array_entries at 1.
    destruct (fp !! f) as [v|]; simpl.
    + destruct v; try discriminate; simpl;
        rewrite IH by done; by rewrite fmap_app, app_assoc.
    + rewrite IH by done. by rewrite app_nil_r.
Qed.

Lemma numbers_of_app xs ys :
  numbers_of (xs ++ ys)
  = match numbers_of xs, numbers_of ys with
    | Some a, Some b => Some (a ++ b)
    | _, _ => None
    end.
Proof.
  induction xs as [|v xs IH]; simpl.
  - by destruct (numbers_of ys).
  - destruct (as_number v); [|done]. rewrite IH.
    destruct (numbers_of xs), (numbers_of ys); done.
Qed.

Lemma numbers_of_floats xs : numbers_of (PyFloat <$> xs) = Some xs.
Proof. induction xs as [|x xs IH]; csimpl; [done | by rewrite IH]. Qed.

Lemma no_sequence_floats xs : existsb is_sequence (PyFloat <$> xs) = false.
Proof. induction xs; csimpl; auto. Qed.

Lemma scalars_typed fp names :
  forallb (fun f => match fp !! f with
                    | Some v => bool_decide (is_Some (as_number v))
                    | None => true
                    end) names = true ->
  numbers_of ((fun f => default (PyFloat 0) (fp !! f)) <$> names)
    = Some (scalar_entry fp <$> names)
  /\ existsb is_sequence ((fun f => default (PyFloat 0) (fp !! f)) <$> names)
    = false.
Proof.
  induction names as [|f names IH]; intros H; [done|].
  cbn [forallb] in H. apply andb_true_iff in H as [Hf H].
  destruct (IH H) as [IH1 IH2]. rewrite !fmap_cons.
  cbn [numbers_of existsb]. rewrite IH1, IH2.
  assert (Hhd : as_number (default (PyFloat 0) (fp !! f))
                = Some (scalar_entry fp f)
                /\ is_sequence (default (PyFloat 0) (fp !! f)) = false).
  { unfold scalar_entry. destruct (fp !! f) as [v|]; simpl; [|done].
    apply bool_decide_eq_true in Hf as [x Hx]. rewrite Hx.
    by destruct v. }
  destruct Hhd as [-> ->]. done.
Qed.

Lemma declared_entry_length fp fn :
  match fp !! fn.1 with
  | Some v => bool_decide (length <$> as_vector v = Some fn.2)
  | None => false
  end = true ->
  length (array_entries fp fn.1) = fn.2.
Proof.
  unfold array_entries. destruct (fp !! fn.1) as [v|]; [|discriminate].
  intros H%bool_decide_eq_true. simpl.
  destruct (as_vector v); simpl in *; congruence.
Qed.

Lemma declared_total_length fp (decl : list (string * nat)) :
  forallb (fun fn => match fp !! fn.1 with
                     | Some v => bool_decide (length <$> as_vector v = Some fn.2)
                     | None => false
                     end) decl = true ->
  length (concat (array_entries fp <$> decl.*1)) = sum_list (decl.*2).
Proof.
  induction decl as [|fn decl IH]; intros H; [done|].
  cbn [forallb] in H. apply andb_true_iff in H as [Hfn H].
  rewrite !fmap_cons. cbn [concat sum_list sum_list_with].
  rewrite length_app, IH by done.
  by rewrite (declared_entry_length _ _ Hfn).
Qed.

Lemma create_feature_vector_typed self fp :
  typed fp = true ->
  create_feature_vector self fp = Ok (FloatArray (vector_of fp)).
Proof.
  intros [Hs Ha]%andb_true_iff.
  unfold create_feature_vector, vector_of.
  rewrite append_scalars_app, app_nil_l.
  rewrite (extend_arrays_typed _ _ _ Ha). cbn [mbind result_bind].
  destruct (scalars_typed _ _ Hs) as [Hn Hq].
  unfold np_array.
  rewrite existsb_app, Hq, no_sequence_floats. cbn [orb].
  by rewrite numbers_of_app, Hn, numbers_of_floats.
Qed.

End VectorFacts.

(** C1, as the code has it.  For a fingerprint whose present fields hold what
    the schema says, [create_feature_vector] returns the 20 scalar entries in
    the frozen order followed by the entries of the array fields in the frozen
    order.  A missing scalar field contributes one zero; a missing array field
    contributes no entry at all.  Hence the vector has 96 entries exactly when
    the arrays present add up to 76, which is the case when all eight array
    fields are there with their declared lengths. *)
Theorem C1_feature_vector_layout
    (self : AudioFingerprinter.t) (fp : gmap string value) :
  Schema.typed fp = true ->
  AudioFingerprinter.create_feature_vector self fp
    = Ok (FloatArray (Schema.vector_of fp))
  /\ length (Schema.vector_of fp)
     = (20 + sum_list (length ∘ Schema.array_entries fp
                        <$> AudioFingerprinter.array_features))%nat
  /\ (forall f, fp !! f = None ->
        Schema.scalar_entry fp f = 0
        /\ Schema.array_entries fp f = [])
  /\ (Schema.complete fp = true ->
      length (Schema.vector_of fp) = 96%nat).
Proof.
  intros Ht. split; [by apply VectorFacts.create_feature_vector_typed|].
  unfold Schema.vector_of. rewrite length_app, length_fmap.
  split; [|split].
  - f_equal. generalize AudioFingerprinter.array_features.
    induction l as [|f l IH]; [done|].
    rewrite !fmap_cons. cbn [concat sum_list sum_list_with].
    by rewrite length_app, IH.
  - intros f Hf. unfold Schema.scalar_entry, Schema.array_entries.
    by rewrite Hf.
  - intros Hc.
    change AudioFingerprinter.array_features with (Schema.declared.*1).
    rewrite (VectorFacts.declared_total_length fp Schema.declared Hc).
    reflexivity.
Qed.

Lemma C1_feature_vector_layout_witness :
  AudioFingerprinter.create_feature_vector AudioFingerprinter.init
    (AudioFingerprinter._get_empty_fingerprint AudioFingerprinter.init)
  = Ok (FloatArray (replicate 96 0)).
Proof.
  exact (proj1 (C1_feature_vector_layout AudioFingerprinter.init
                  (AudioFingerprinter._get_empty_fingerprint
                     AudioFingerprinter.init)
                  eq_refl)).
Defined.

(** C1 fails as stated: the fingerprint of [_get_empty_fingerprint] without
    its field [tonnetz_std] is turned into 90 numbers, not 96. *)
Lemma C1_missing_array_counterexample :
  AudioFingerprinter.create_feature_vector AudioFingerprinter.init
    (delete "tonnetz_std"
       (AudioFingerprinter._get_empty_fingerprint AudioFingerprinter.init))
  = Ok (FloatArray (replicate 90 0))
  /\ ~ (exists v,
        AudioFingerprinter.create_feature_vector AudioFingerprinter.init
          (delete "tonnetz_std"
             (AudioFingerprinter._get_empty_fingerprint
                AudioFingerprinter.init))
        = Ok (FloatArray v)
        /\ length v = 96%nat).
Proof.
  assert (E : AudioFingerprinter.create_feature_vector AudioFingerprinter.init
    (delete "tonnetz_std"
       (AudioFingerprinter._get_empty_fingerprint AudioFingerprinter.init))
    = Ok (FloatArray (replicate 90 0))) by (vm_compute; reflexivity).
  split; [exact E|]. rewrite E. intros (v & Hv & Hlen).
  injection Hv as <-. discriminate Hlen.
Qed.

(** ** Store and parse *)

Module RoundTrip.
Import SimilarityEngine Schema.

Lemma extracted_field fp f s :
  extracted fp = true -> (f, s) ∈ extraction_schema ->
  exists v, fp !! f = Some v /\ has_shape v s = true.
Proof.
  intros H Hin. unfold extracted in H. rewrite forallb_forall in H.
  apply list_elem_of_In, H in Hin. simpl in Hin.
  destruct (fp !! f) as [v|]; [eauto | discriminate].
Qed.

(** *** Lookups in a parsed fingerprint *)

Ltac solve_nodup := refine (bool_decide_unpack _ _); vm_compute; exact I.

Lemma parse_arrays_notin doc names acc f :
  f ∉ names -> parse_arrays doc names acc !! f = acc !! f.
Proof.
  revert acc. induction names as [|g names IH]; intros acc Hf; [done|].
  apply not_elem_of_cons in Hf as [Hne Hf]. cbn [parse_arrays].
  rewrite IH by done.
  destruct (doc !! g) as [j|]; [|done].
  destruct (truthy j); [|done]. by rewrite lookup_insert_ne.
Qed.

Lemma parse_arrays_in doc names acc f :
  NoDup names -> f ∈ names ->
  parse_arrays doc names acc !! f
  = match doc !! f with
    | Some j => if truthy j then Some (np_array_of j) else acc !! f
    | None => acc !! f
    end.
Proof.
  revert acc. induction names as [|g names IH]; intros acc Hnd Hf.
  - by apply elem_of_nil in Hf.
  - apply NoDup_cons in Hnd as [Hg Hnd]. cbn [parse_arrays].
    apply elem_of_cons in Hf as [->|Hf].
    + rewrite parse_arrays_notin by done.
      destruct (doc !! g) as [j|]; [|done].
      destruct (truthy j); [|done]. by rewrite lookup_insert_eq.
    + assert (g <> f) by (intros ->; done).
      rewrite IH by done.
      destruct (doc !! f) as [j|] eqn:Ef;
        destruct (doc !! g) as [j'|]; try done;
        destruct (truthy j'); try done;
        by rewrite lookup_insert_ne.
Qed.

Lemma parse_scalars_notin doc names acc f :
  f ∉ names -> parse_scalars doc names acc !! f = acc !! f.
Proof.
  revert acc. induction names as [|g names IH]; intros acc Hf; [done|].
  apply not_elem_of_cons in Hf as [Hne Hf]. cbn [parse_scalars].
  rewrite IH by done. by rewrite lookup_insert_ne.
Qed.

Lemma parse_scalars_in doc names acc f :
  NoDup names -> f ∈ names ->
  parse_scalars doc names acc !! f
  = Some (default (PyFloat 0) (py_of <$> doc !! f)).
Proof.
  revert acc. induction names as [|g names IH]; intros acc Hnd Hf.
  - by apply elem_of_nil in Hf.
  - apply NoDup_cons in Hnd as [Hg Hnd]. cbn [parse_scalars].
    apply elem_of_cons in Hf as [->|Hf].
    + rewrite parse_scalars_notin by done. by rewrite lookup_insert_eq.
    + by rewrite IH.
Qed.

(** Every lookup in the result of [_parse_fingerprint]. *)
Lemma parse_lookup doc f :
  _parse_fingerprint doc !! f
  = if decide (f = "key") then
      Some (default (PyStr "Unknown") (py_of <$> doc !! "key"))
    else if decide (f ∈ parsed_scalar_features) then
      Some (default (PyFloat 0) (py_of <$> doc !! f))
    else if decide (f ∈ parsed_array_features) then
      match doc !! f with
      | Some j => if truthy j then Some (np_array_of j) else None
      | None => None
      end
    else None.
Proof.
  unfold _parse_fingerprint.
  destruct (decide (f = "key")) as [->|Hk]; [by rewrite lookup_insert_eq|].
  rewrite lookup_insert_ne by done.
  destruct (decide (f ∈ parsed_scalar_features)) as [Hs|Hs].
  - rewrite parse_scalars_in; [done | | done].
    unfold parsed_scalar_features. solve_nodup.
  - rewrite parse_scalars_notin by done.
    destruct (decide (f ∈ parsed_array_features)) as [Ha|Ha].
    + rewrite parse_arrays_in; [ | | done].
      * destruct (doc !! f) as [j|]; [|done]. by destruct (truthy j).
      * unfold parsed_array_features. solve_nodup.
    + by rewrite parse_arrays_notin.
Qed.

Ltac by_decide := refine (bool_decide_unpack _ _); vm_compute; exact I.

Lemma parse_lookup_array doc f :
  f ∈ parsed_array_features ->
  _parse_fingerprint doc !! f
  = match doc !! f with
    | Some j => if truthy j then Some (np_array_of j) else None
    | None => None
    end.
Proof.
  intros Hf. rewrite parse_lookup.
  assert (f <> "key") by (intros ->; revert Hf; by_decide).
  assert (f ∉ parsed_scalar_features).
  { intros Hs. unfold parsed_scalar_features in Hs.
    repeat (apply elem_of_cons in Hs as [->|Hs]);
      [| | by apply elem_of_nil in Hs]; revert Hf; by_decide. }
  by rewrite !decide_False, decide_True by done.
Qed.

Lemma parse_lookup_scalar doc f :
  f ∈ parsed_scalar_features ->
  _parse_fingerprint doc !! f
  = Some (default (PyFloat 0) (py_of <$> doc !! f)).
Proof.
  intros Hf. rewrite parse_lookup.
  assert (f <> "key") by (intros ->; revert Hf; by_decide).
  by rewrite decide_False, decide_True by done.
Qed.

Lemma parse_lookup_key doc :
  _parse_fingerprint doc !! "key"
  = Some (default (PyStr "Unknown") (py_of <$> doc !! "key")).
Proof. rewrite parse_lookup. by rewrite decide_True. Qed.

Lemma parse_lookup_other doc f :
  f <> "key" -> f ∉ parsed_scalar_features -> f ∉ parsed_array_features ->
  _parse_fingerprint doc !! f = None.
Proof. intros. rewrite parse_lookup. by rewrite !decide_False. Qed.

Ltac in_schema :=
  apply list_elem_of_In; cbn;
  repeat first [left; reflexivity | right].

(** The fields the stored document is made of. *)
Lemma extracted_stored_fields fp :
  extracted fp = true ->
  exists x xs c cs sc sr zc tempo energy key,
    fp !! "mfcc" = Some (NdArray (x :: xs))
    /\ fp !! "chroma" = Some (NdArray (c :: cs))
    /\ fp !! "spectral_centroids" = Some (NpFloat sc)
    /\ fp !! "spectral_rolloff" = Some (NpFloat sr)
    /\ fp !! "zero_crossing_rate" = Some (NpFloat zc)
    /\ fp !! "tempo" = Some (PyFloat tempo)
    /\ fp !! "energy" = Some (PyFloat energy)
    /\ fp !! "key" = Some (PyStr key).
Proof.
  intros H.
  destruct (extracted_field fp "mfcc" (Array 13) H) as ([] & E1 & S1);
    [in_schema | try discriminate ..].
  destruct (extracted_field fp "chroma" (Array 12) H) as ([] & E2 & S2);
    [in_schema | try discriminate ..].
  destruct (extracted_field fp "spectral_centroids" NpScalar H)
    as ([] & E3 & S3); [in_schema | try discriminate ..].
  destruct (extracted_field fp "spectral_rolloff" NpScalar H)
    as ([] & E4 & S4); [in_schema | try discriminate ..].
  destruct (extracted_field fp "zero_crossing_rate" NpScalar H)
    as ([] & E5 & S5); [in_schema | try discriminate ..].
  destruct (extracted_field fp "tempo" Float H) as ([] & E6 & S6);
    [in_schema | try discriminate ..].
  destruct (extracted_field fp "energy" Float H) as ([] & E7 & S7);
    [in_schema | try discriminate ..].
  destruct (extracted_field fp "key" Str H) as ([] & E8 & S8);
    [in_schema | try discriminate ..].
  apply bool_decide_eq_true in S1, S2.
  destruct xs as [|a xs]; [discriminate|].
  destruct xs0 as [|b xs0]; [discriminate|].
  eauto 20.
Qed.

End RoundTrip.

(** C2, as the code has it.  Storing a fingerprint that extraction produced
    and parsing the stored document gives back the arrays [mfcc] and [chroma]
    and the fields [tempo], [energy] and [key] exactly.  The three numbers
    [spectral_centroids], [spectral_rolloff] and [zero_crossing_rate] come
    back as 0-d arrays of the same number when it is not 0 and are absent
    when it is 0.  No other field is stored, so no other field comes back. *)
Theorem C2_store_then_parse (fp : gmap string value) :
  Schema.extracted fp = true ->
  exists doc,
    App.fingerprint_json fp = Ok doc
    /\ (forall f, f ∈ ["mfcc"; "chroma"; "tempo"; "energy"; "key"] ->
          SimilarityEngine._parse_fingerprint doc !! f = fp !! f)
    /\ (forall f, f ∈ ["spectral_centroids"; "spectral_rolloff";
                       "zero_crossing_rate"] ->
          exists x, fp !! f = Some (NpFloat x)
            /\ SimilarityEngine._parse_fingerprint doc !! f
               = if Qeq_bool x 0 then None else Some (NdScalar x))
    /\ (forall f, f ∉ Schema.stored_keys ->
          SimilarityEngine._parse_fingerprint doc !! f = None).
Proof.
  intros H.
  destruct (RoundTrip.extracted_stored_fields fp H)
    as (x & xs & c & cs & sc & sr & zc & tempo & energy & key
        & E1 & E2 & E3 & E4 & E5 & E6 & E7 & E8).
  exists (list_to_map [
    ("mfcc", JArr (x :: xs)); ("chroma", JArr (c :: cs));
    ("spectral_centroids", JNum sc); ("spectral_rolloff", JNum sr);
    ("zero_crossing_rate", JNum zc); ("tempo", JNum tempo);
    ("key", JStr key); ("energy", JNum energy)]).
  split.
  { unfold App.fingerprint_json, App.tolist_or_empty.
    by rewrite E1, E2, E3, E4, E5, E6, E7, E8. }
  set (doc := list_to_map _).
  assert (D1 : doc !! "mfcc" = Some (JArr (x :: xs))) by reflexivity.
  assert (D2 : doc !! "chroma" = Some (JArr (c :: cs))) by reflexivity.
  assert (D3 : doc !! "spectral_centroids" = Some (JNum sc)) by reflexivity.
  assert (D4 : doc !! "spectral_rolloff" = Some (JNum sr)) by reflexivity.
  assert (D5 : doc !! "zero_crossing_rate" = Some (JNum zc)) by reflexivity.
  assert (D6 : doc !! "tempo" = Some (JNum tempo)) by reflexivity.
  assert (D7 : doc !! "energy" = Some (JNum energy)) by reflexivity.
  assert (D8 : doc !! "key" = Some (JStr key)) by reflexivity.
  clearbody doc.
  split; [|split].
  - intros f Hf.
    repeat (apply elem_of_cons in Hf as [->|Hf]);
      [| | | | | by apply elem_of_nil in Hf].
    + rewrite RoundTrip.parse_lookup_array by RoundTrip.by_decide.
      by rewrite D1, E1.
    + rewrite RoundTrip.parse_lookup_array by RoundTrip.by_decide.
      by rewrite D2, E2.
    + rewrite RoundTrip.parse_lookup_scalar by RoundTrip.by_decide.
      by rewrite D6, E6.
    + rewrite RoundTrip.parse_lookup_scalar by RoundTrip.by_decide.
      by rewrite D7, E7.
    + by rewrite RoundTrip.parse_lookup_key, D8, E8.
  - intros f Hf.
    repeat (apply elem_of_cons in Hf as [->|Hf]);
      [| | | by apply elem_of_nil in Hf]; eexists; (split; [eassumption|]);
      rewrite RoundTrip.parse_lookup_array by RoundTrip.by_decide;
      rewrite ?D3, ?D4, ?D5; cbn [SimilarityEngine.truthy negb];
      by destruct (Qeq_bool _ 0).
  - intros f Hf. unfold Schema.stored_keys in Hf.
    repeat (apply not_elem_of_cons in Hf as [? Hf]).
    apply RoundTrip.parse_lookup_other; [done | |];
      unfold SimilarityEngine.parsed_scalar_features,
             SimilarityEngine.parsed_array_features;
      rewrite ?not_elem_of_cons; repeat split; try done; apply not_elem_of_nil.
Qed.

Lemma C2_store_then_parse_witness :
  exists doc,
    App.fingerprint_json Samples.sample_fingerprint = Ok doc
    /\ SimilarityEngine._parse_fingerprint doc !! "mfcc"
       = Some (NdArray (replicate 13 1)).
Proof.
  destruct (C2_store_then_parse Samples.sample_fingerprint eq_refl)
    as (doc & Hdoc & Hkept & _).
  exists doc. split; [exact Hdoc|].
  rewrite (Hkept "mfcc" ltac:(apply list_elem_of_here)). reflexivity.
Defined.

(** C2 fails as stated: after storing and parsing the sample fingerprint its
    array [mfcc_std], of the declared length 13, is gone. *)
Lemma C2_round_trip_counterexample :
  Schema.extracted Samples.sample_fingerprint = true
  /\ App.fingerprint_json Samples.sample_fingerprint
     = Ok Samples.sample_document
  /\ Samples.sample_fingerprint !! "mfcc_std"
     = Some (NdArray (replicate 13 1))
  /\ SimilarityEngine._parse_fingerprint Samples.sample_document
       !! "mfcc_std" = None
  /\ SimilarityEngine._parse_fingerprint Samples.sample_document
     <> Samples.sample_fingerprint.
Proof.
  assert (Hnone : SimilarityEngine._parse_fingerprint Samples.sample_document
                  !! "mfcc_std" = None).
  { rewrite RoundTrip.parse_lookup. reflexivity. }
  repeat split; try reflexivity.
  intros Heq. rewrite Heq in Hnone. discriminate Hnone.
Qed.

(** ** add_song_to_index *)

(** C3, what the code does: unless the new length of [indexed_songs] is a
    multiple of 100, [add_song_to_index] leaves the scaler, the index and its
    dimension exactly as they were.  The feature vector it computes is used
    for nothing: the song is at most appended to [indexed_songs], and no row
    for it enters the index that [search_local] searches. *)
Theorem C3_add_leaves_index_untouched
    (fit_stats : list (list Q) -> list Q * list Q) (l2_norm : list Q -> Q)
    (self : SimilarityEngine.t) (db : database) (song_data : song_row) :
  ((Z.of_nat (length (SimilarityEngine.indexed_songs self)) + 1) mod 100 <> 0)%Z ->
  let self' :=
    SimilarityEngine.add_song_to_index fit_stats l2_norm self db song_data in
  SimilarityEngine.index self' = SimilarityEngine.index self
  /\ SimilarityEngine.scaler self' = SimilarityEngine.scaler self
  /\ SimilarityEngine.feature_dim self' = SimilarityEngine.feature_dim self
  /\ (SimilarityEngine.indexed_songs self' = SimilarityEngine.indexed_songs self
      \/ exists sg, SimilarityEngine.indexed_songs self'
                    = SimilarityEngine.indexed_songs self ++ [sg]).
Proof.
  intros Hmod self'. subst self'. unfold SimilarityEngine.add_song_to_index.
  destruct (SimilarityEngine.json_loads (fingerprint_data song_data))
    as [doc|e]; cbn [mbind result_bind try_except]; [|by auto].
  destruct (AudioFingerprinter.create_feature_vector _ _) as [v|e];
    cbn [mbind result_bind try_except]; [|by auto].
  cbn [SimilarityEngine.indexed_songs].
  rewrite length_app. cbn [length].
  replace (Z.of_nat (length (SimilarityEngine.indexed_songs self) + 1))
    with (Z.of_nat (length (SimilarityEngine.indexed_songs self)) + 1)%Z by lia.
  destruct (Z.eqb_spec
    ((Z.of_nat (length (SimilarityEngine.indexed_songs self)) + 1) mod 100) 0)
    as [E|_]; [done|].
  cbn. eauto 6.
Qed.

Lemma C3_add_leaves_index_untouched_witness :
  SimilarityEngine.index
    (SimilarityEngine.add_song_to_index (fun _ => ([], [])) (fun _ => 1)
       Samples.one_song_engine
       {| songs := [Samples.sample_row 1 "a.wav" "h1";
                    Samples.sample_row 2 "b.wav" "h2"];
          last_id := 2 |}
       (Samples.sample_row 2 "b.wav" "h2"))
  = SimilarityEngine.index Samples.one_song_engine.
Proof.
  refine (proj1 (C3_add_leaves_index_untouched _ _ Samples.one_song_engine
                   _ _ _)).
  vm_compute. discriminate.
Defined.

(** ** The scorer *)

Module ScoreFacts.
Import SimilarityEngine Schema.

Lemma Qltb_true x y : Qltb x y = true <-> x < y.
Proof.
  unfold Qltb. rewrite negb_true_iff, <- not_true_iff_false, Qle_bool_iff.
  split; [apply Qnot_le_lt | apply Qlt_not_le].
Qed.

Lemma Qltb_false x y : Qltb x y = false <-> y <= x.
Proof. unfold Qltb. by rewrite negb_false_iff, Qle_bool_iff. Qed.

Ltac case_ltb :=
  repeat match goal with
  | |- context [Qltb ?a ?b] =>
      let E := fresh "E" in
      destruct (Qltb a b) eqn:E;
      [apply Qltb_true in E | apply Qltb_false in E]
  end.

Lemma py_max_Qmax a b : py_max a b == Qmax a b.
Proof.
  unfold py_max. case_ltb.
  - symmetry. apply Q.max_r. lra.
  - symmetry. by apply Q.max_l.
Qed.

Lemma py_abs_Qabs a : py_abs a == Qabs a.
Proof.
  unfold py_abs. case_ltb.
  - symmetry. apply Qabs_neg. lra.
  - symmetry. by apply Qabs_pos.
Qed.

Lemma py_abs_nonneg a : 0 <= py_abs a.
Proof. unfold py_abs. case_ltb; lra. Qed.

Lemma py_max3_ge1 a b : 1 <= py_max3 a b 1.
Proof. unfold py_max3, py_max. case_ltb; lra. Qed.

Lemma py_max_0_range x : x <= 1 -> 0 <= py_max 0 x <= 1.
Proof. intros. unfold py_max. case_ltb; lra. Qed.

Lemma py_max0_nonneg (x : npfloat) : 0 <= py_max0 x.
Proof.
  destruct x as [x|]; cbn [py_max0]; [|lra].
  unfold py_max. case_ltb; lra.
Qed.

Lemma py_max0_range (d : npfloat) :
  match d with Fin d => 0 <= d <= 2 | NaN => True end ->
  0 <= py_max0 (one_minus d) <= 1.
Proof.
  destruct d as [d|]; simpl; [|lra].
  intros. apply py_max_0_range. lra.
Qed.

Lemma tempo_range a b :
  0 <= py_max 0 (1 - py_abs (a - b) / py_max3 a b 1) <= 1.
Proof.
  apply py_max_0_range.
  assert (0 <= py_abs (a - b) / py_max3 a b 1); [|lra].
  pose proof (py_max3_ge1 a b). pose proof (py_abs_nonneg (a - b)).
  apply Qle_shift_div_l; lra.
Qed.

Lemma energy_range a b :
  0 < a -> 0 < b -> 0 <= py_min a b / py_max a b <= 1.
Proof.
  intros Ha Hb.
  assert (Hmax : 0 < py_max a b) by (unfold py_max; case_ltb; lra).
  assert (Hmin : 0 <= py_min a b) by (unfold py_min; case_ltb; lra).
  assert (Hle : py_min a b <= py_max a b)
    by (unfold py_min, py_max; case_ltb; lra).
  split.
  - apply Qle_shift_div_l; lra.
  - apply Qle_shift_div_r; lra.
Qed.

Lemma tempo_formula_eq a b :
  py_max 0 (1 - py_abs (a - b) / py_max3 a b 1) == tempo_formula a b.
Proof.
  unfold tempo_formula, py_max3.
  rewrite py_max_Qmax, py_abs_Qabs.
  rewrite (py_max_Qmax (py_max a b) 1), (py_max_Qmax a b). reflexivity.
Qed.

Lemma tempo_formula_sym a b : tempo_formula a b == tempo_formula b a.
Proof.
  unfold tempo_formula.
  assert (Ha : Qabs (a - b) == Qabs (b - a)).
  { rewrite <- (Qabs_opp (a - b)). apply Qabs_wd. ring. }
  rewrite Ha, (Q.max_comm a b). reflexivity.
Qed.

Lemma tempo_formula_same a : tempo_formula a a == 1.
Proof.
  unfold tempo_formula.
  assert (Ha : a - a == 0) by ring.
  rewrite Ha. change (Qabs 0) with 0. unfold Qdiv. rewrite Qmult_0_l.
  rewrite Q.max_r; lra.
Qed.

(** *** The channels of scorable fingerprints *)

Lemma scorable_fields fp :
  scorable fp = true ->
  (forall v, fp !! "mfcc" = Some v ->
     exists xs, as_vector v = Some xs /\ length xs = 13%nat)
  /\ (forall v, fp !! "chroma" = Some v ->
       exists xs, as_vector v = Some xs /\ length xs = 12%nat)
  /\ (forall v, fp !! "tempo" = Some v -> exists x, as_number v = Some x)
  /\ (forall v, fp !! "energy" = Some v -> exists x, as_number v = Some x)
  /\ (forall v, fp !! "key" = Some v -> exists s, text_of v = Some s).
Proof.
  unfold scorable. rewrite !andb_true_iff. intros [[[[H1 H2] H3] H4] H5].
  repeat split; intros v Hv; rewrite Hv in *;
    match goal with H : bool_decide _ = true |- _ =>
      apply bool_decide_eq_true in H end.
  - destruct (as_vector v) as [xs|]; [|done]. exists xs.
    split; [done|]. simpl in H1. congruence.
  - destruct (as_vector v) as [xs|]; [|done]. exists xs.
    split; [done|]. simpl in H2. congruence.
  - destruct H3 as [x Hx]. eauto.
  - destruct H4 as [x Hx]. eauto.
  - destruct H5 as [x Hx]. eauto.
Qed.

Section Channels.
Variable cosine_dist : list Q -> list Q -> npfloat.
Variables q t : gmap string value.
Hypothesis Hq : scorable q = true.
Hypothesis Ht : scorable t = true.

Lemma cosine_channel_scorable f n (s : gmap string Q) :
  (forall v, q !! f = Some v ->
     exists xs, as_vector v = Some xs /\ length xs = n) ->
  (forall v, t !! f = Some v ->
     exists xs, as_vector v = Some xs /\ length xs = n) ->
  cosine_channel cosine_dist f q t s
  = Ok (insert_if f (cosine_score cosine_dist f q t) s).
Proof.
  intros Hqf Htf. unfold cosine_channel, cosine_score, vector_at.
  destruct (q !! f) as [u|]; [|done].
  destruct (t !! f) as [v|]; [|done].
  destruct (Hqf u eq_refl) as (xs & Exs & Lxs).
  destruct (Htf v eq_refl) as (ys & Eys & Lys).
  unfold cosine. simpl. rewrite Exs, Eys. simpl.
  rewrite decide_True by congruence. done.
Qed.

Lemma number_default (fp : gmap string value) f (dflt : Q) :
  (forall v, fp !! f = Some v -> exists x, as_number v = Some x) ->
  number (default (PyFloat dflt) (fp !! f))
  = Ok (default dflt (fp !! f ≫= as_number)).
Proof.
  intros H. unfold number. destruct (fp !! f) as [v|]; [|done].
  destruct (H v eq_refl) as [x Hx]. simpl. by rewrite Hx.
Qed.

Lemma tempo_channel_scorable (s : gmap string Q) :
  tempo_channel q t s = Ok (<["tempo" := tempo_score q t]> s).
Proof.
  destruct (scorable_fields q Hq) as (_ & _ & Hqt & _).
  destruct (scorable_fields t Ht) as (_ & _ & Htt & _).
  unfold tempo_channel.
  rewrite (number_default q "tempo" 120 Hqt).
  rewrite (number_default t "tempo" 120 Htt). done.
Qed.

Lemma energy_channel_scorable (s : gmap string Q) :
  energy_channel q t s = Ok (<["energy" := energy_score q t]> s).
Proof.
  destruct (scorable_fields q Hq) as (_ & _ & _ & Hqe & _).
  destruct (scorable_fields t Ht) as (_ & _ & _ & Hte & _).
  unfold energy_channel, energy_score.
  rewrite (number_default q "energy" 0 Hqe).
  rewrite (number_default t "energy" 0 Hte).
  fold (energy_of q). fold (energy_of t). cbn [mbind result_bind].
  destruct (Qltb 0 (energy_of q)); cbn [mbind result_bind andb]; [|done].
  by destruct (Qltb 0 (energy_of t)).
Qed.

Lemma text_default (fp : gmap string value) :
  (forall v, fp !! "key" = Some v -> exists s, text_of v = Some s) ->
  text_of (default (PyStr "Unknown") (fp !! "key")) = Some (key_of fp).
Proof.
  intros H. unfold key_of. destruct (fp !! "key") as [v|]; [|done].
  destruct (H v eq_refl) as [x Hx]. simpl. by rewrite Hx.
Qed.

Lemma py_equal_text a b sa sb :
  text_of a = Some sa -> text_of b = Some sb ->
  py_equal a b = Ok (bool_decide (sa = sb)).
Proof.
  destruct a, b; simpl; intros; simplify_eq; done.
Qed.

Lemma key_channel_scorable (s : gmap string Q) :
  key_channel q t s = Ok (<["key" := key_score q t]> s).
Proof.
  destruct (scorable_fields q Hq) as (_ & _ & _ & _ & Hqk).
  destruct (scorable_fields t Ht) as (_ & _ & _ & _ & Htk).
  unfold key_channel, key_score, py_differs.
  rewrite (py_equal_text _ (PyStr "Unknown") _ _
             (text_default q Hqk) eq_refl).
  rewrite (py_equal_text _ (PyStr "Unknown") _ _
             (text_default t Htk) eq_refl).
  rewrite (py_equal_text _ _ _ _ (text_default q Hqk) (text_default t Htk)).
  cbn [fmap result_fmap mbind result_bind].
  destruct (bool_decide (key_of q = "Unknown"));
    cbn [negb mbind result_bind andb]; [done|].
  destruct (bool_decide (key_of t = "Unknown"));
    cbn [negb mbind result_bind andb]; done.
Qed.

Lemma body_scorable :
  detailed_similarity_body cosine_dist q t
  = Ok (<["overall" := weighted_sum (five_channels cosine_dist q t)]>
          (five_channels cosine_dist q t)).
Proof.
  destruct (scorable_fields q Hq) as (Hqm & Hqc & _).
  destruct (scorable_fields t Ht) as (Htm & Htc & _).
  unfold detailed_similarity_body, five_channels.
  rewrite (cosine_channel_scorable "mfcc" 13 _ Hqm Htm).
  cbn [mbind result_bind].
  rewrite (cosine_channel_scorable "chroma" 12 _ Hqc Htc).
  cbn [mbind result_bind].
  rewrite tempo_channel_scorable. cbn [mbind result_bind].
  rewrite energy_channel_scorable. cbn [mbind result_bind].
  rewrite key_channel_scorable. done.
Qed.

Lemma score_scorable :
  _calculate_detailed_similarity cosine_dist q t
  = <["overall" := weighted_sum (five_channels cosine_dist q t)]>
      (five_channels cosine_dist q t).
Proof.
  unfold _calculate_detailed_similarity. by rewrite body_scorable.
Qed.

End Channels.

Lemma cosine_score_is_Some cd f (q t : gmap string value) :
  is_Some (cosine_score cd f q t) <-> is_Some (q !! f) /\ is_Some (t !! f).
Proof.
  unfold cosine_score.
  destruct (q !! f) as [u|], (t !! f) as [v|];
    (split; [intros [x Hx] | intros [[x Hx] [y Hy]]]);
    try discriminate; eauto.
Qed.

(** *** Lookups in the five channels *)

Lemma lookup_insert_if_ne {A} k j (o : option A) (m : gmap string A) :
  k <> j -> insert_if k o m !! j = m !! j.
Proof. intros. destruct o; simpl; [by rewrite lookup_insert_ne | done]. Qed.

Lemma lookup_insert_if_eq {A} k (o : option A) (m : gmap string A) :
  m !! k = None -> insert_if k o m !! k = o.
Proof. intros. destruct o; simpl; [by rewrite lookup_insert_eq | done]. Qed.

Lemma five_channels_lookup cd q t :
  five_channels cd q t !! "mfcc" = cosine_score cd "mfcc" q t
  /\ five_channels cd q t !! "chroma" = cosine_score cd "chroma" q t
  /\ five_channels cd q t !! "tempo" = Some (tempo_score q t)
  /\ five_channels cd q t !! "energy" = Some (energy_score q t)
  /\ five_channels cd q t !! "key" = Some (key_score q t)
  /\ five_channels cd q t !! "overall" = None.
Proof.
  unfold five_channels. repeat split.
  - rewrite !lookup_insert_ne by done.
    rewrite lookup_insert_if_ne by done. by rewrite lookup_insert_if_eq.
  - rewrite !lookup_insert_ne by done.
    rewrite lookup_insert_if_eq; [done|].
    by rewrite lookup_insert_if_ne.
  - rewrite !lookup_insert_ne by done. by rewrite lookup_insert_eq.
  - rewrite lookup_insert_ne by done. by rewrite lookup_insert_eq.
  - by rewrite lookup_insert_eq.
  - rewrite !lookup_insert_ne by done.
    by rewrite !lookup_insert_if_ne.
Qed.

Lemma weighted_sum_five cd q t :
  weighted_sum (five_channels cd q t)
  = 0 + default 0 (cosine_score cd "mfcc" q t) * 0.3
      + default 0 (cosine_score cd "chroma" q t) * 0.25
      + tempo_score q t * 0.2
      + energy_score q t * 0.15
      + key_score q t * 0.1.
Proof.
  destruct (five_channels_lookup cd q t) as (E1 & E2 & E3 & E4 & E5 & _).
  unfold weighted_sum, weights. cbn [foldl fst snd].
  by rewrite E1, E2, E3, E4, E5.
Qed.

(** *** Ranges *)

Lemma in_range_insert name x (s : gmap string Q) :
  in_range s -> 0 <= x <= 1 ->
  name ∈ ["mfcc"; "chroma"; "tempo"; "energy"; "key"; "overall"] ->
  in_range (<[name := x]> s).
Proof.
  intros Hs Hx Hn name' y. destruct (decide (name = name')) as [<-|Hne].
  - rewrite lookup_insert_eq. intros [= <-]. done.
  - rewrite lookup_insert_ne by done. apply Hs.
Qed.

Lemma in_range_empty : in_range ∅.
Proof. intros name x. by rewrite lookup_empty. Qed.

Ltac is_channel := refine (bool_decide_unpack _ _); vm_compute; exact I.

Section Ranges.
Variable cosine_dist : list Q -> list Q -> npfloat.
Hypothesis Hclip : clipped cosine_dist.
Variables q t : gmap string value.

Lemma cosine_channel_in_range f (s s' : gmap string Q) :
  f ∈ ["mfcc"; "chroma"; "tempo"; "energy"; "key"; "overall"] ->
  cosine_channel cosine_dist f q t s = Ok s' ->
  in_range s -> in_range s'.
Proof.
  intros Hf. unfold cosine_channel.
  destruct (q !! f) as [u|]; [|by intros [= <-]].
  destruct (t !! f) as [v|]; [|by intros [= <-]].
  intros (dist & Hdist & [= <-])%bind_Ok Hs.
  apply in_range_insert; [done | | done].
  apply py_max0_range. unfold cosine in Hdist.
  destruct (as_vector u), (as_vector v); try discriminate.
  case_decide; [|discriminate]. injection Hdist as <-. apply Hclip.
Qed.

Lemma tempo_channel_in_range (s s' : gmap string Q) :
  tempo_channel q t s = Ok s' -> in_range s -> in_range s'.
Proof.
  unfold tempo_channel.
  intros (a & _ & (b & _ & [= <-])%bind_Ok)%bind_Ok Hs.
  apply in_range_insert; [done | apply tempo_range | is_channel].
Qed.

Lemma energy_channel_in_range (s s' : gmap string Q) :
  energy_channel q t s = Ok s' -> in_range s -> in_range s'.
Proof.
  unfold energy_channel.
  intros (a & _ & (both & Hboth & H)%bind_Ok)%bind_Ok Hs.
  destruct both.
  - apply bind_Ok in H as (b & Hb & [= <-]).
    destruct (Qltb 0 a) eqn:Ea; [|discriminate].
    apply bind_Ok in Hboth as (b' & Hb' & [= Eb]).
    rewrite Hb in Hb'. injection Hb' as <-.
    apply Qltb_true in Ea, Eb.
    apply in_range_insert; [done | by apply energy_range | is_channel].
  - injection H as <-.
    apply in_range_insert; [done | lra | is_channel].
Qed.

Lemma key_channel_in_range (s s' : gmap string Q) :
  key_channel q t s = Ok s' -> in_range s -> in_range s'.
Proof.
  unfold key_channel.
  intros (known & _ & (both & _ & H)%bind_Ok)%bind_Ok Hs.
  destruct both.
  - apply bind_Ok in H as (same & _ & [= <-]).
    apply in_range_insert; [done | destruct same; lra | is_channel].
  - injection H as <-.
    apply in_range_insert; [done | lra | is_channel].
Qed.

Lemma weighted_sum_range (s : gmap string Q) :
  in_range s -> 0 <= weighted_sum s <= 1.
Proof.
  intros Hs.
  assert (Hd : forall name, 0 <= default 0 (s !! name) <= 1).
  { intros name. destruct (s !! name) as [x|] eqn:E; simpl; [|lra].
    by destruct (Hs name x E). }
  unfold weighted_sum, weights. cbn [foldl fst snd].
  pose proof (Hd "mfcc"). pose proof (Hd "chroma"). pose proof (Hd "tempo").
  pose proof (Hd "energy"). pose proof (Hd "key"). lra.
Qed.

Lemma score_in_range :
  in_range (_calculate_detailed_similarity cosine_dist q t).
Proof.
  unfold _calculate_detailed_similarity.
  destruct (detailed_similarity_body cosine_dist q t) as [s|e] eqn:E;
    cbn [try_except].
  - unfold detailed_similarity_body in E.
    apply bind_Ok in E as (s1 & H1 & E). apply bind_Ok in E as (s2 & H2 & E).
    apply bind_Ok in E as (s3 & H3 & E). apply bind_Ok in E as (s4 & H4 & E).
    apply bind_Ok in E as (s5 & H5 & [= <-]).
    assert (in_range s5).
    { eapply key_channel_in_range; [done|].
      eapply energy_channel_in_range; [done|].
      eapply tempo_channel_in_range; [done|].
      eapply cosine_channel_in_range; [|done|]; [is_channel|].
      eapply cosine_channel_in_range; [|done|]; [is_channel|].
      apply in_range_empty. }
    apply in_range_insert; [done | by apply weighted_sum_range | is_channel].
  - intros name x. rewrite lookup_singleton.
    case_decide; [|done]. intros [= <-]. subst name.
    split; [lra | is_channel].
Qed.

Lemma score_has_overall :
  is_Some (_calculate_detailed_similarity cosine_dist q t !! "overall").
Proof.
  unfold _calculate_detailed_similarity.
  destruct (detailed_similarity_body cosine_dist q t) as [s|e] eqn:E;
    cbn [try_except].
  - unfold detailed_similarity_body in E.
    apply bind_Ok in E as (s1 & H1 & E). apply bind_Ok in E as (s2 & H2 & E).
    apply bind_Ok in E as (s3 & H3 & E). apply bind_Ok in E as (s4 & H4 & E).
    apply bind_Ok in E as (s5 & H5 & [= <-]).
    rewrite lookup_insert_eq. eauto.
  - rewrite lookup_singleton_eq. eauto.
Qed.

End Ranges.

(** The weighted sum for two "C major" fingerprints that are zero
    otherwise. *)
Lemma c_major_overall cd :
  let m := py_max0 (one_minus (cd (replicate 13 0) (replicate 13 0))) in
  let c := py_max0 (one_minus (cd (replicate 12 0) (replicate 12 0))) in
  weighted_sum (five_channels cd Samples.c_major_fingerprint
                  Samples.c_major_fingerprint)
  == 0.30 * m + 0.25 * c + 0.375.
Proof.
  intros m c. set (fp := Samples.c_major_fingerprint).
  assert (Em : cosine_score cd "mfcc" fp fp = Some m) by reflexivity.
  assert (Ec : cosine_score cd "chroma" fp fp = Some c) by reflexivity.
  assert (Et : tempo_score fp fp == 1) by (vm_compute; reflexivity).
  assert (Ee : energy_score fp fp == 0.5) by (vm_compute; reflexivity).
  assert (Ek : key_score fp fp == 1.0) by (vm_compute; reflexivity).
  rewrite weighted_sum_five, Em, Ec.
  cbv [default from_option Datatypes.id]. lra.
Qed.

End ScoreFacts.

(** C4, as the code has it.  For two fingerprints whose key is "C major" and
    whose every other field is zero, [score.key = 1.0] and
    [score.energy = 0.5], but [score.tempo = 1]: both tempos are 0, so their
    difference is 0.  The mfcc and chroma channels are present and are what
    the cosine distance of two zero vectors gives ([m], [c] below, 0 when
    that distance is nan), and
    [overall = 0.30 m + 0.25 c + 0.20 + 0.075 + 0.10], at least 0.375. *)
Theorem C4_c_major_score (cosine_dist : list Q -> list Q -> npfloat) :
  let score :=
    SimilarityEngine._calculate_detailed_similarity cosine_dist
      Samples.c_major_fingerprint Samples.c_major_fingerprint in
  let m := py_max0 (one_minus (cosine_dist (replicate 13 0) (replicate 13 0))) in
  let c := py_max0 (one_minus (cosine_dist (replicate 12 0) (replicate 12 0))) in
  Schema.channel_is score "key" 1.0
  /\ Schema.channel_is score "energy" 0.5
  /\ Schema.channel_is score "tempo" 1
  /\ score !! "mfcc" = Some m
  /\ score !! "chroma" = Some c
  /\ Schema.channel_is score "overall" (0.30 * m + 0.25 * c + 0.375)
  /\ 0 <= m /\ 0 <= c
  /\ (cosine_dist (replicate 13 0) (replicate 13 0) = NaN ->
      cosine_dist (replicate 12 0) (replicate 12 0) = NaN ->
      Schema.channel_is score "overall" 0.375).
Proof.
  intros score m c. subst score.
  set (fp := Samples.c_major_fingerprint).
  assert (Hfp : Schema.scorable fp = true) by reflexivity.
  rewrite (ScoreFacts.score_scorable cosine_dist fp fp Hfp Hfp).
  destruct (ScoreFacts.five_channels_lookup cosine_dist fp fp)
    as (E1 & E2 & E3 & E4 & E5 & _).
  assert (Em : Schema.cosine_score cosine_dist "mfcc" fp fp = Some m)
    by reflexivity.
  assert (Ec : Schema.cosine_score cosine_dist "chroma" fp fp = Some c)
    by reflexivity.
  assert (Et : Schema.tempo_score fp fp == 1) by (vm_compute; reflexivity).
  assert (Ee : Schema.energy_score fp fp == 0.5) by (vm_compute; reflexivity).
  assert (Ek : Schema.key_score fp fp == 1.0) by (vm_compute; reflexivity).
  assert (Hm : 0 <= m).
  { apply ScoreFacts.py_max0_nonneg. }
  assert (Hc : 0 <= c).
  { apply ScoreFacts.py_max0_nonneg. }
  pose proof (ScoreFacts.c_major_overall cosine_dist) as Ho.
  cbv zeta in Ho. fold m c fp in Ho.
  unfold Schema.channel_is.
  rewrite lookup_insert_eq, !lookup_insert_ne by done.
  rewrite E1, E2, E3, E4, E5, Em, Ec.
  repeat split; eauto.
  intros Nm Nc. eexists. split; [reflexivity|].
  rewrite Ho. subst m c. rewrite Nm, Nc. reflexivity.
Qed.

(** C4 fails as stated: whatever the cosine distance of zero vectors is, the
    overall score of the two "C major" fingerprints is not 0.175, since the
    tempo channel alone contributes 0.20. *)
Lemma C4_overall_counterexample :
  ~ (exists cosine_dist,
       Schema.channel_is
         (SimilarityEngine._calculate_detailed_similarity cosine_dist
            Samples.c_major_fingerprint Samples.c_major_fingerprint)
         "overall" 0.175).
Proof.
  intros (cd & y & Hy & Hval).
  assert (Hfp : Schema.scorable Samples.c_major_fingerprint = true)
    by reflexivity.
  rewrite (ScoreFacts.score_scorable cd _ _ Hfp Hfp) in Hy.
  rewrite lookup_insert_eq in Hy. injection Hy as <-.
  pose proof (ScoreFacts.c_major_overall cd) as Ho. cbv zeta in Ho.
  pose proof (ScoreFacts.py_max0_nonneg
                (one_minus (cd (replicate 13 0) (replicate 13 0)))).
  pose proof (ScoreFacts.py_max0_nonneg
                (one_minus (cd (replicate 12 0) (replicate 12 0)))).
  lra.
Qed.

(** C6, as the code has it.  Every channel that [score] returns is one of
    mfcc, chroma, tempo, energy, key, overall and lies in [0, 1], and overall
    is always returned.  For fingerprints whose fields hold what the schema
    says, tempo, energy and key are returned as well, and mfcc (chroma) is
    returned exactly when both fingerprints have the field.  (When the
    computation raises, only [overall = 0.0] is returned.) *)
Theorem C6_score_channels (cosine_dist : list Q -> list Q -> npfloat)
    (q t : gmap string value) :
  Schema.clipped cosine_dist ->
  let score := SimilarityEngine._calculate_detailed_similarity cosine_dist q t in
  Schema.in_range score
  /\ is_Some (score !! "overall")
  /\ (Schema.scorable q = true -> Schema.scorable t = true ->
      is_Some (score !! "tempo")
      /\ is_Some (score !! "energy")
      /\ is_Some (score !! "key")
      /\ (is_Some (score !! "mfcc")
          <-> is_Some (q !! "mfcc") /\ is_Some (t !! "mfcc"))
      /\ (is_Some (score !! "chroma")
          <-> is_Some (q !! "chroma") /\ is_Some (t !! "chroma"))).
Proof.
  intros Hclip score. subst score.
  split; [by apply ScoreFacts.score_in_range|].
  split; [apply ScoreFacts.score_has_overall|].
  intros Hq Ht. rewrite (ScoreFacts.score_scorable cosine_dist q t Hq Ht).
  destruct (ScoreFacts.five_channels_lookup cosine_dist q t)
    as (E1 & E2 & E3 & E4 & E5 & _).
  rewrite !lookup_insert_ne by done. rewrite E1, E2, E3, E4, E5.
  rewrite !ScoreFacts.cosine_score_is_Some. eauto 10.
Qed.

Lemma C6_score_channels_witness :
  Schema.in_range
    (SimilarityEngine._calculate_detailed_similarity (fun _ _ => Fin 0)
       Samples.c_major_fingerprint Samples.sample_fingerprint).
Proof.
  refine (proj1 (C6_score_channels (fun _ _ => Fin 0)
                   Samples.c_major_fingerprint Samples.sample_fingerprint _)).
  intros u v. cbn. lra.
Defined.

(** C6 fails as stated: for two fingerprints without the field [mfcc] the
    score has no mfcc channel, whatever the cosine distance is. *)
Lemma C6_missing_channel_counterexample :
  ~ (exists cosine_dist,
       is_Some (SimilarityEngine._calculate_detailed_similarity cosine_dist
                  Samples.bare_fingerprint Samples.bare_fingerprint
                !! "mfcc")).
Proof.
  intros (cd & x & Hx).
  assert (Hb : Schema.scorable Samples.bare_fingerprint = true) by reflexivity.
  rewrite (ScoreFacts.score_scorable cd _ _ Hb Hb) in Hx.
  rewrite lookup_insert_ne in Hx by done.
  destruct (ScoreFacts.five_channels_lookup cd Samples.bare_fingerprint
              Samples.bare_fingerprint) as (E1 & _).
  rewrite E1 in Hx. discriminate Hx.
Qed.

(** C10.  For fingerprints whose fields hold what the schema says: when both
    lack [tempo], the tempo channel is 1; when one lacks it and the other has
    the tempo [x], the channel is [max(0, 1 - |120 - x| / max(120, x, 1))]. *)
Theorem C10_missing_tempo_is_120 (cosine_dist : list Q -> list Q -> npfloat)
    (q t : gmap string value) :
  Schema.scorable q = true -> Schema.scorable t = true ->
  let score := SimilarityEngine._calculate_detailed_similarity cosine_dist q t in
  (q !! "tempo" = None -> t !! "tempo" = None ->
     Schema.channel_is score "tempo" 1)
  /\ (forall v x, q !! "tempo" = None -> t !! "tempo" = Some v ->
        as_number v = Some x ->
        Schema.channel_is score "tempo" (Schema.tempo_formula 120 x))
  /\ (forall v x, q !! "tempo" = Some v -> t !! "tempo" = None ->
        as_number v = Some x ->
        Schema.channel_is score "tempo" (Schema.tempo_formula 120 x)).
Proof.
  intros Hq Ht score. subst score.
  rewrite (ScoreFacts.score_scorable cosine_dist q t Hq Ht).
  destruct (ScoreFacts.five_channels_lookup cosine_dist q t)
    as (_ & _ & E3 & _).
  unfold Schema.channel_is. rewrite lookup_insert_ne by done. rewrite E3.
  unfold Schema.tempo_score, Schema.tempo_of.
  split; [|split].
  - intros -> ->. eexists. split; [reflexivity|]. cbn [mbind option_bind default].
    rewrite ScoreFacts.tempo_formula_eq. apply ScoreFacts.tempo_formula_same.
  - intros v x -> -> Hx. eexists. split; [reflexivity|].
    cbn [mbind option_bind default]. rewrite Hx. cbn [default].
    apply ScoreFacts.tempo_formula_eq.
  - intros v x -> -> Hx. eexists. split; [reflexivity|].
    cbn [mbind option_bind default]. rewrite Hx. cbn [default].
    rewrite ScoreFacts.tempo_formula_eq. apply ScoreFacts.tempo_formula_sym.
Qed.

Lemma C10_missing_tempo_is_120_witness :
  Schema.channel_is
    (SimilarityEngine._calculate_detailed_similarity (fun _ _ => NaN)
       (delete "tempo" Samples.sample_fingerprint)
       (delete "tempo" Samples.c_major_fingerprint))
    "tempo" 1.
Proof.
  refine (proj1 (C10_missing_tempo_is_120 (fun _ _ => NaN)
                   (delete "tempo" Samples.sample_fingerprint)
                   (delete "tempo" Samples.c_major_fingerprint) _ _) _ _);
    reflexivity.
Defined.

(** ** estimate_key *)

Module KeyFacts.
Import AudioFingerprinter Schema.

Lemma length_np_roll profile i : length (np_roll profile i) = length profile.
Proof.
  unfold np_roll. rewrite length_app, length_drop, length_take. lia.
Qed.

Section NaNRounds.
Variable pearson : list Q -> list Q -> npfloat.
Variable chroma_mean : list npfloat.
Hypothesis Hnan : forall profile, length profile = 12%nat ->
  corrcoef pearson chroma_mean profile = Ok NaN.

(** A round in which both correlations are nan changes nothing:
    [nan > max_corr] is false. *)
Lemma key_round_nan i st : key_round pearson chroma_mean i st = Ok st.
Proof.
  unfold key_round.
  rewrite !Hnan by (by rewrite length_np_roll).
  reflexivity.
Qed.

Lemma key_rounds_nan range st :
  key_rounds pearson chroma_mean range st = Ok st.
Proof.
  induction range as [|i range IH]; [done|].
  cbn [key_rounds]. rewrite key_round_nan. apply IH.
Qed.

End NaNRounds.

Lemma estimate_key_nan pearson self chroma :
  nan_correlations pearson chroma -> estimate_key pearson self chroma = "C".
Proof.
  intros H. unfold estimate_key, estimate_key_body.
  fold (normalized_chroma chroma).
  by rewrite (key_rounds_nan pearson _ H).
Qed.

(** Division by a sum that is 0 leaves no finite entry. *)
Lemma zero_sum_nan pearson chroma :
  length chroma = 12%nat -> zero_sum chroma -> nan_correlations pearson chroma.
Proof.
  intros Hlen (s & Hs & Hz) profile Hp.
  unfold corrcoef, normalized_chroma. rewrite !length_fmap, Hlen, Hp.
  rewrite decide_True by done. rewrite Hs.
  destruct chroma as [|row chroma]; [discriminate|].
  rewrite !fmap_cons. cbn [finite_vector].
  unfold np_divide at 1.
  destruct (np_mean row); [|done].
  apply Qeq_bool_iff in Hz. by rewrite Hz.
Qed.

End KeyFacts.

(** C8, what the code does: for a chromagram of 12 rows whose time-averaged
    vector has zero sum, or whose correlations with the profiles are all nan,
    [estimate_key] returns "C", the initial value of [estimated_key], and
    not "Unknown": numpy divides by zero without raising, and no comparison
    with nan is true. *)
Theorem C8_degenerate_chroma_gives_C
    (pearson : list Q -> list Q -> npfloat) (self : AudioFingerprinter.t)
    (chroma : list (list Q)) :
  length chroma = 12%nat ->
  Schema.zero_sum chroma \/ Schema.nan_correlations pearson chroma ->
  AudioFingerprinter.estimate_key pearson self chroma = "C"
  /\ AudioFingerprinter.estimate_key pearson self chroma <> "Unknown".
Proof.
  intros Hlen H.
  assert (E : AudioFingerprinter.estimate_key pearson self chroma = "C").
  { apply KeyFacts.estimate_key_nan.
    destruct H as [H|H]; [by apply KeyFacts.zero_sum_nan | done]. }
  rewrite E. split; [done | discriminate].
Qed.

Lemma C8_degenerate_chroma_gives_C_witness :
  AudioFingerprinter.estimate_key (fun _ _ => Fin 1) AudioFingerprinter.init
    (replicate 12 [0; 0; 0]) = "C".
Proof.
  refine (proj1 (C8_degenerate_chroma_gives_C (fun _ _ => Fin 1)
                   AudioFingerprinter.init (replicate 12 [0; 0; 0]) _ _)).
  - reflexivity.
  - left. exists (0 # 531441). split; [vm_compute; reflexivity | reflexivity].
Defined.

(** ** search_local *)

Module SearchFacts.
Import SimilarityEngine Schema.

Lemma search_local_no_index cd l2 self q mr th :
  index self = None \/ indexed_songs self = [] ->
  search_local cd l2 self q mr th = [].
Proof.
  unfold search_local, search_local_body.
  intros [-> | ->]; [done|]. by destruct (index self).
Qed.

(** A query vector of another width than the scaler's raises in
    [scaler.transform]; the handler of [search_local] returns []. *)
Lemma search_local_body_mismatch cd l2 self q mr th ix sg sgs sc v :
  index self = Some ix -> indexed_songs self = sg :: sgs ->
  scaler self = Some sc ->
  AudioFingerprinter.create_feature_vector AudioFingerprinter.init q
    = Ok (FloatArray v) ->
  length v <> n_features_in_ sc ->
  search_local_body cd l2 self q mr th = Raise ValueError.
Proof.
  intros Hix Hsg Hsc Hv Hne. unfold search_local_body.
  rewrite Hix, Hsg, Hv, Hsc. cbn [mbind result_bind astype_float32].
  unfold transform. by rewrite decide_False.
Qed.

Lemma length_standardize sc x : length (standardize sc x) = length x.
Proof. unfold standardize. apply length_imap. Qed.

Lemma length_normalize_L2 l2 row : length (normalize_L2 l2 row) = length row.
Proof.
  unfold normalize_L2. destruct (Qltb 0 (l2 row)); [|done].
  apply length_fmap.
Qed.

Lemma Forall_insert_desc {A} (P : A -> Prop) key x l :
  P x -> Forall P l -> Forall P (insert_desc key x l).
Proof.
  intros Hx. induction 1 as [|y l Hy Hl IH]; cbn [insert_desc].
  - by constructor.
  - destruct (Qle_bool (key y) (key x)); repeat constructor; done.
Qed.

Lemma Forall_sort_desc {A} (P : A -> Prop) key l :
  Forall P l -> Forall P (sort_desc key l).
Proof.
  unfold sort_desc. induction 1; cbn [foldr]; [constructor|].
  by apply Forall_insert_desc.
Qed.

(** Every label [search] returns is the position of a row, or -1. *)
Lemma search_labels ix query k found :
  search ix query k = Ok found ->
  Forall (fun f => (-1 <= f.2 < Z.of_nat (length (rows ix)))%Z) found.
Proof.
  unfold search.
  destruct (negb _); [discriminate|].
  destruct (k <=? 0)%Z; [discriminate|]. intros [= <-].
  apply Forall_app. split.
  - apply Forall_take, Forall_sort_desc.
    apply Forall_forall. intros [sim i] Hin.
    apply elem_of_lookup_imap in Hin as (j & row & [= -> ->] & Hj).
    apply lookup_lt_Some in Hj. simpl. lia.
  - apply Forall_replicate. simpl. lia.
Qed.

Lemma py_index_ok {A} (l : list A) (i : Z) :
  (0 < length l)%nat -> (-1 <= i < Z.of_nat (length l))%Z ->
  exists a, py_index l i = Ok a.
Proof.
  intros Hl Hi. unfold py_index.
  set (j := if (i <? 0)%Z then (Z.of_nat (length l) + i)%Z else i).
  assert (Hj : (0 <= j < Z.of_nat (length l))%Z).
  { subst j. destruct (Z.ltb_spec i 0); lia. }
  destruct (Z.leb_spec 0 j); [|lia].
  destruct (Z.ltb_spec j (Z.of_nat (length l))); [|lia].
  cbn [andb].
  destruct (lookup_lt_is_Some_2 l (Z.to_nat j)) as [a Ha]; [lia|].
  rewrite Ha. eauto.
Qed.

Lemma collect_all_ok cd self q th found :
  (0 < length (indexed_songs self))%nat ->
  Forall (fun f => (-1 <= f.2 < Z.of_nat (length (indexed_songs self)))%Z)
         found ->
  forall i results, exists results',
    collect_all cd self q th i found results = Ok results'.
Proof.
  intros Hl. induction 1 as [|[sim idx] found Hf Hfound IH];
    intros i results; cbn [collect_all]; [eauto|].
  unfold collect.
  destruct (Qle_bool th sim); cbn [mbind result_bind]; [|apply IH].
  destruct (py_index_ok (indexed_songs self) idx Hl Hf) as [sg ->].
  cbn [mbind result_bind]. apply IH.
Qed.

(** On an engine of [n] columns, a query whose vector has [n] entries is
    searched without any exception. *)
Lemma search_local_body_ok cd l2 self q mr th v :
  searchable (length v) self ->
  AudioFingerprinter.create_feature_vector AudioFingerprinter.init q
    = Ok (FloatArray v) ->
  (0 < mr)%Z ->
  exists hits, search_local_body cd l2 self q mr th = Ok hits
               /\ search_local cd l2 self q mr th = hits.
Proof.
  intros (sc & ix & Hsc & Hix & Hn & Hd & Hl & Hrows) Hv Hmr.
  unfold search_local, search_local_body. rewrite Hix, Hv, Hsc.
  destruct (indexed_songs self) as [|sg sgs] eqn:Hsongs;
    [simpl in Hl; lia|].
  rewrite <- Hsongs in *. cbn [mbind result_bind astype_float32].
  unfold transform. rewrite decide_True by done.
  cbn [mbind result_bind].
  destruct (search ix _ _) as [found|e] eqn:Hfound.
  - cbn [mbind result_bind].
    pose proof (search_labels _ _ _ _ Hfound) as Hlab.
    destruct (collect_all_ok cd self q th found Hl) with (i := 0%nat)
      (results := @nil hit) as [results Hres].
    { eapply Forall_impl; [exact Hlab|]. simpl. intros; lia. }
    rewrite Hres. cbn [mbind result_bind try_except]. eauto.
  - exfalso. unfold search in Hfound.
    rewrite length_normalize_L2, length_standardize, Hd in Hfound.
    rewrite bool_decide_eq_true_2 in Hfound by done. cbn [negb] in Hfound.
    destruct (Z.leb_spec (Z.min (mr * 2) (Z.of_nat (length (indexed_songs self)))) 0);
      [lia | discriminate].
Qed.

End SearchFacts.

(** The engine of a process started on an empty table has no index, and the
    one built from a single stored row of the sample document has 45
    columns, whatever the scaler learns. *)
Lemma init_empty fit_stats l2_norm :
  SimilarityEngine.init fit_stats l2_norm empty_db = SimilarityEngine.fresh.
Proof. reflexivity. Qed.

Lemma init_one_row fit_stats l2_norm :
  let engine :=
    SimilarityEngine.init fit_stats l2_norm
      {| songs := [Samples.sample_row 1 "a.wav" "h1"]; last_id := 1 |} in
  SimilarityEngine.feature_dim engine = Some 45%nat
  /\ SimilarityEngine.n_features_in_ <$> SimilarityEngine.scaler engine
     = Some 45%nat
  /\ SimilarityEngine.d <$> SimilarityEngine.index engine = Some 45%nat
  /\ SimilarityEngine.indexed_songs engine
     = SimilarityEngine.indexed_songs Samples.one_song_engine.
Proof. repeat split; reflexivity. Qed.

(** C5, as the code has it.  [search_local] on an engine without index, or
    without indexed songs, returns the empty list; and so does a search whose
    query vector has another dimension than the scaler or the index: the
    ValueError of [scaler.transform] (or the assertion of [index.search]) is
    caught by the handler of [search_local], which prints it and returns
    []. *)
Theorem C5_search_returns_empty
    (cosine_dist : list Q -> list Q -> npfloat) (l2_norm : list Q -> Q)
    (self : SimilarityEngine.t) (query_fingerprint : gmap string value)
    (max_results : Z) (threshold : Q) :
  SimilarityEngine.index self = None
  \/ SimilarityEngine.indexed_songs self = []
  \/ (exists v,
        AudioFingerprinter.create_feature_vector AudioFingerprinter.init
          query_fingerprint = Ok (FloatArray v)
        /\ ((exists sc, SimilarityEngine.scaler self = Some sc
                        /\ length v <> SimilarityEngine.n_features_in_ sc)
            \/ (exists ix, SimilarityEngine.index self = Some ix
                           /\ length v <> SimilarityEngine.d ix))) ->
  SimilarityEngine.search_local cosine_dist l2_norm self query_fingerprint
    max_results threshold = [].
Proof.
  intros [H | [H | (v & Hv & Hne)]];
    [apply SearchFacts.search_local_no_index; auto ..|].
  destruct (SimilarityEngine.index self) as [ix|] eqn:Hix;
    [|apply SearchFacts.search_local_no_index; auto].
  destruct (SimilarityEngine.indexed_songs self) as [|sg sgs] eqn:Hsg;
    [apply SearchFacts.search_local_no_index; auto|].
  unfold SimilarityEngine.search_local, SimilarityEngine.search_local_body.
  rewrite Hix, Hsg, Hv. cbn [mbind result_bind astype_float32].
  destruct (SimilarityEngine.scaler self) as [sc|] eqn:Hsc; [|done].
  unfold SimilarityEngine.transform. case_decide as Hlen; [|done].
  cbn [mbind result_bind]. unfold SimilarityEngine.search.
  destruct Hne as [(sc' & [= <-] & Hne) | (ix' & [= <-] & Hne)]; [done|].
  rewrite SearchFacts.length_normalize_L2, SearchFacts.length_standardize.
  by rewrite bool_decide_eq_false_2.
Qed.

Lemma C5_search_returns_empty_witness :
  SimilarityEngine.search_local (fun _ _ => NaN) (fun _ => 1)
    Samples.one_song_engine Samples.c_major_fingerprint 20 0.7 = [].
Proof.
  apply C5_search_returns_empty. right. right.
  exists (replicate 96 0). split; [reflexivity|]. right.
  exists {| SimilarityEngine.d := 45;
            SimilarityEngine.rows := [replicate 45 0] |}.
  split; [reflexivity|]. vm_compute. discriminate.
Defined.

(** C5 fails as stated: a query of 96 entries against an index of 45 columns
    does not make [search_local] fail.  The ValueError raised inside is
    handled there, and the caller gets the empty list. *)
Lemma C5_mismatch_counterexample :
  (forall cosine_dist l2_norm,
     SimilarityEngine.search_local_body cosine_dist l2_norm
       Samples.one_song_engine Samples.c_major_fingerprint 20 0.7
     = Raise ValueError)
  /\ (forall cosine_dist l2_norm,
       SimilarityEngine.search_local cosine_dist l2_norm
         Samples.one_song_engine Samples.c_major_fingerprint 20 0.7 = []).
Proof.
  assert (H : forall cd l2,
    SimilarityEngine.search_local_body cd l2
      Samples.one_song_engine Samples.c_major_fingerprint 20 0.7
    = Raise ValueError).
  { intros cd l2.
    eapply SearchFacts.search_local_body_mismatch with (v := replicate 96 0);
      try reflexivity.
    vm_compute. discriminate. }
  split; [exact H|]. intros cd l2.
  unfold SimilarityEngine.search_local. by rewrite H.
Qed.

(** ** Ingest *)

Module IngestFacts.
Import App Schema.

Lemma filter_hash_kept p h (l : list song_row) :
  filter (fun r => file_hash r = h)
         (filter (fun r => conflicts p h r = false) l) = [].
Proof.
  induction l as [|r l IH]; [done|].
  rewrite (filter_cons (fun r => conflicts p h r = false)).
  case_decide as Hc; [|done].
  rewrite filter_cons. rewrite decide_False; [done|].
  intros Hh. unfold conflicts in Hc.
  rewrite (bool_decide_eq_true_2 (file_hash r = h)) in Hc by done.
  by rewrite orb_true_r in Hc.
Qed.



Section Scan.
Variable files : gmap string (list Byte.byte).
Variable sha256 : list Byte.byte -> string.
Variable pearson : list Q -> list Q -> npfloat.
Variable analyse :
  AudioFingerprinter.t -> string -> result AudioFingerprinter.analysis.
Variable extract_metadata : string -> metadata.

Lemma store_extracted db p bytes fp md :
  files !! p = Some bytes -> extracted fp = true ->
  exists r, file_hash r = sha256 bytes
    /\ store_audio_data files sha256 db p fp md = insert_or_replace db r.
Proof.
  intros Hp Hfp.
  destruct (RoundTrip.extracted_stored_fields fp Hfp)
    as (x & xs & c & cs & sc & sr & zc & tempo & energy & key
        & E1 & E2 & E3 & E4 & E5 & E6 & E7 & E8).
  unfold store_audio_data, calculate_file_hash, fingerprint_json,
    tolist_or_empty.
  rewrite Hp, E1, E2, E3, E4, E5, E6, E7, E8.
  cbn [mbind result_bind try_except tolist json_encode sql_bind default
       from_option id].
  eexists. split; [|reflexivity]. reflexivity.
Qed.

Lemma processed_after_insert db p bytes r :
  files !! p = Some bytes -> file_hash r = sha256 bytes ->
  is_file_processed files sha256 (insert_or_replace db r) p = true.
Proof.
  intros Hp Hr. unfold is_file_processed, calculate_file_hash.
  rewrite Hp. cbn [mbind result_bind try_except].
  unfold insert_or_replace. cbn [songs].
  rewrite existsb_app. cbn [existsb file_hash].
  rewrite (bool_decide_eq_true_2 _ Hr). by rewrite orb_true_r.
Qed.

Lemma processed_rows db p bytes :
  files !! p = Some bytes ->
  is_file_processed files sha256 db p
  = existsb (fun r => bool_decide (file_hash r = sha256 bytes)) (songs db).
Proof.
  intros Hp. unfold is_file_processed, calculate_file_hash. by rewrite Hp.
Qed.

Lemma scan_file_processed st n p :
  is_file_processed files sha256 (db st) p = true ->
  scan_file files sha256 pearson analyse extract_metadata (st, n) p
  = (st, n).
Proof. intros H. unfold scan_file. by rewrite H. Qed.

Lemma scan_file_new st n p :
  is_file_processed files sha256 (db st) p = false ->
  scan_file files sha256 pearson analyse extract_metadata (st, n) p
  = ({| db := store_audio_data files sha256 (db st) p
                (extract pearson analyse p) (extract_metadata p);
        similarity_engine := similarity_engine st |}, S n).
Proof. intros H. unfold scan_file. by rewrite H. Qed.

End Scan.

End IngestFacts.




(** * Further properties *)

(** ** estimate_key *)

Module KeyLaws.
Import AudioFingerprinter Schema Laws.

Lemma corrcoef_12 pearson chroma profile :
  length chroma = 12%nat -> length profile = 12%nat ->
  corrcoef pearson (normalized_chroma chroma) profile
  = Ok (correlation pearson chroma profile).
Proof.
  intros Hc Hp. unfold corrcoef, correlation, normalized_chroma.
  rewrite !length_fmap, Hc, Hp. rewrite decide_True by done.
  by destruct (finite_vector _).
Qed.

Lemma length_major_profile : length major_profile = 12%nat.
Proof. reflexivity. Qed.

Lemma length_minor_profile : length minor_profile = 12%nat.
Proof. reflexivity. Qed.

Lemma key_rounds_fold pearson chroma range st :
  length chroma = 12%nat ->
  key_rounds pearson (normalized_chroma chroma) range st
  = Ok (foldl step st
          ((fun c => (correlation pearson chroma c.1, c.2))
           <$> flat_map (fun i =>
                 [(np_roll major_profile i,
                   default "" (key_names !! i) +:+ " major");
                  (np_roll minor_profile i,
                   default "" (key_names !! i) +:+ " minor")]) range)).
Proof.
  intros Hc. revert st. induction range as [|i range IH]; intros st; [done|].
  cbn [key_rounds flat_map]. unfold key_round.
  rewrite !corrcoef_12
    by (done || by rewrite KeyFacts.length_np_roll).
  cbn [mbind result_bind]. rewrite IH. done.
Qed.

Lemma foldl_step_spec l m0 k0 :
  (foldl step (m0, k0) l = (m0, k0) /\ Forall (below m0) l)
  \/ (exists l1 c l2,
        l = l1 ++ (Fin c, (foldl step (m0, k0) l).2) :: l2
        /\ (foldl step (m0, k0) l).1 = c
        /\ m0 < c
        /\ Forall (strictly_below c) l1
        /\ Forall (below c) l2).
Proof.
  revert m0 k0. induction l as [|[v k] l IH]; intros m0 k0.
  - left. split; [done | constructor].
  - cbn [foldl].
    assert (Hskip : step (m0, k0) (v, k) = (m0, k0) ->
                    below m0 (v, k) ->
                    (foldl step (step (m0, k0) (v, k)) l = (m0, k0)
                     /\ Forall (below m0) ((v, k) :: l))
                    \/ (exists l1 c l2,
                          (v, k) :: l
                          = l1 ++ (Fin c, (foldl step (step (m0, k0) (v, k)) l).2)
                                  :: l2
                          /\ (foldl step (step (m0, k0) (v, k)) l).1 = c
                          /\ m0 < c
                          /\ Forall (strictly_below c) l1
                          /\ Forall (below c) l2)).
    { intros -> Hv.
      destruct (IH m0 k0)
        as [[-> Hall] | (l1 & c & l2 & Hl & Hm & Hlt & H1 & H2)].
      - left. split; [done|]. by constructor.
      - right. exists ((v, k) :: l1), c, l2.
        split; [by rewrite Hl at 1|]. split; [done|]. split; [done|].
        split; [|done]. constructor; [|done].
        unfold below, strictly_below in *. destruct v; simpl in *; [lra|done]. }
    destruct v as [x|]; [|by apply Hskip].
    destruct (Qltb m0 x) eqn:E.
    + assert (Hstep : step (m0, k0) (Fin x, k) = (x, k))
        by (unfold step; cbn [fst snd exceeds corr_value]; by rewrite E).
      rewrite Hstep. apply ScoreFacts.Qltb_true in E. right.
      destruct (IH x k)
        as [[-> Hall] | (l1 & c & l2 & Hl & Hm & Hlt & H1 & H2)].
      * exists [], x, l. split; [done|]. split; [done|]. split; [done|].
        split; [constructor | done].
      * exists ((Fin x, k) :: l1), c, l2.
        split; [by rewrite Hl at 1|]. split; [done|]. split; [lra|].
        split; [|done]. constructor; [exact Hlt | done].
    + apply Hskip.
      * unfold step. cbn [fst snd exceeds]. by rewrite E.
      * apply ScoreFacts.Qltb_false in E. exact E.
Qed.

Lemma estimate_key_fold pearson self chroma :
  length chroma = 12%nat ->
  estimate_key pearson self chroma
  = (foldl step (-1, "C") (correlations pearson chroma)).2.
Proof.
  intros Hc. unfold estimate_key, estimate_key_body.
  fold (normalized_chroma chroma).
  by rewrite (key_rounds_fold pearson chroma (seq 0 12) _ Hc).
Qed.

Lemma key_round_raises pearson chroma_mean i st :
  length chroma_mean <> 12%nat ->
  key_round pearson chroma_mean i st = Raise ValueError.
Proof.
  intros H. unfold key_round, corrcoef.
  rewrite !KeyFacts.length_np_roll, length_major_profile.
  destruct (decide (length chroma_mean = 12%nat)) as [E|_]; [done|].
  reflexivity.
Qed.

End KeyLaws.

(** X1: for a chromagram of 12 rows, [estimate_key] returns the label of the
    first candidate, in the order C major, C minor, C# major, ..., whose
    correlation is the largest finite correlation, provided that correlation
    exceeds -1; when no correlation exceeds -1 it returns "C". *)
Theorem X1_estimate_key_first_maximum
    (pearson : list Q -> list Q -> npfloat) (self : AudioFingerprinter.t)
    (chroma : list (list Q)) :
  length chroma = 12%nat ->
  Laws.first_maximum (Laws.correlations pearson chroma) (-1) "C"
    (AudioFingerprinter.estimate_key pearson self chroma).
Proof.
  intros Hc. rewrite (KeyLaws.estimate_key_fold pearson self chroma Hc).
  destruct (KeyLaws.foldl_step_spec (Laws.correlations pearson chroma) (-1) "C")
    as [[E Hall] | (l1 & c & l2 & Hl & Hm & Hlt & H1 & H2)].
  - left. by rewrite E.
  - right. eauto 10.
Qed.

Lemma X1_estimate_key_first_maximum_witness :
  Laws.first_maximum
    (Laws.correlations (fun _ y => Fin (default 0 (head y)))
       (replicate 12 [1; 2]))
    (-1) "C"
    (AudioFingerprinter.estimate_key (fun _ y => Fin (default 0 (head y)))
       AudioFingerprinter.init (replicate 12 [1; 2])).
Proof.
  apply X1_estimate_key_first_maximum. reflexivity.
Defined.

(** X2: a chromagram that does not have exactly 12 rows makes
    [np.corrcoef] raise in the first round, and [estimate_key] returns
    "Unknown". *)
Theorem X2_estimate_key_wrong_shape
    (pearson : list Q -> list Q -> npfloat) (self : AudioFingerprinter.t)
    (chroma : list (list Q)) :
  length chroma <> 12%nat ->
  AudioFingerprinter.estimate_key pearson self chroma = "Unknown".
Proof.
  intros Hc. unfold AudioFingerprinter.estimate_key,
    AudioFingerprinter.estimate_key_body.
  cbn [seq AudioFingerprinter.key_rounds].
  rewrite KeyLaws.key_round_raises; [done|].
  by rewrite !length_fmap.
Qed.

Lemma X2_estimate_key_wrong_shape_witness :
  AudioFingerprinter.estimate_key (fun _ _ => Fin 1) AudioFingerprinter.init
    (replicate 11 [1; 2]) = "Unknown".
Proof.
  apply X2_estimate_key_wrong_shape. vm_compute. discriminate.
Defined.

(** X3: whatever the chromagram and the correlation kernel, [estimate_key]
    returns "Unknown", the bare "C", or one of the 24 labels
    "<pitch class> major" and "<pitch class> minor". *)
Theorem X3_estimate_key_labels
    (pearson : list Q -> list Q -> npfloat) (self : AudioFingerprinter.t)
    (chroma : list (list Q)) :
  AudioFingerprinter.estimate_key pearson self chroma ∈ Laws.key_labels.
Proof.
  destruct (decide (length chroma = 12%nat)) as [Hc|Hc].
  - rewrite (KeyLaws.estimate_key_fold pearson self chroma Hc).
    destruct (KeyLaws.foldl_step_spec (Laws.correlations pearson chroma)
                (-1) "C") as [[-> _] | (l1 & c & l2 & Hl & _)].
    + by refine (bool_decide_unpack _ _).
    + set (k := (foldl Laws.step (-1, "C")
                   (Laws.correlations pearson chroma)).2) in *.
      assert (Hin : (Fin c, k) ∈ Laws.correlations pearson chroma).
      { rewrite Hl. apply elem_of_app. right. left. }
      unfold Laws.correlations in Hin.
      apply list_elem_of_fmap in Hin as ([profile label] & [= _ ->] & Hcand).
      assert (Hall : Forall (fun c => c.2 ∈ Laws.key_labels) Laws.candidates).
      { refine (bool_decide_unpack _ _). vm_compute. exact I. }
      rewrite Forall_forall in Hall. exact (Hall _ Hcand).
  - unfold AudioFingerprinter.estimate_key,
      AudioFingerprinter.estimate_key_body.
    cbn [seq AudioFingerprinter.key_rounds].
    rewrite KeyLaws.key_round_raises by (by rewrite !length_fmap).
    by refine (bool_decide_unpack _ _).
Qed.

(** ** _parse_fingerprint *)

(** X4: whatever the document, the parsed fingerprint has the keys [tempo],
    [energy] and [key]; a document without them gives tempo 0.0, energy 0.0
    and key "Unknown".  An array key that the document lacks, or holds with
    an empty list or the number 0, is absent from the fingerprint, and the
    fingerprint has no key beyond the eight of the stored document. *)
Theorem X4_parse_defaults (doc : gmap string jval) :
  let fp := SimilarityEngine._parse_fingerprint doc in
  (doc !! "tempo" = None -> fp !! "tempo" = Some (PyFloat 0))
  /\ (doc !! "energy" = None -> fp !! "energy" = Some (PyFloat 0))
  /\ (doc !! "key" = None -> fp !! "key" = Some (PyStr "Unknown"))
  /\ is_Some (fp !! "tempo") /\ is_Some (fp !! "energy")
  /\ is_Some (fp !! "key")
  /\ (forall f, f ∈ SimilarityEngine.parsed_array_features ->
        doc !! f = None \/ doc !! f = Some (JArr []) \/ doc !! f = Some (JNum 0) ->
        fp !! f = None)
  /\ (forall f, is_Some (fp !! f) -> f ∈ Schema.stored_keys).
Proof.
  intros fp. subst fp.
  rewrite RoundTrip.parse_lookup_key.
  rewrite !RoundTrip.parse_lookup_scalar by RoundTrip.by_decide.
  split; [by intros ->|]. split; [by intros ->|]. split; [by intros ->|].
  split; [eauto|]. split; [eauto|]. split; [eauto|]. split.
  - intros f Hf Hdoc. rewrite RoundTrip.parse_lookup_array by done.
    destruct Hdoc as [-> | [-> | ->]]; reflexivity.
  - intros f [v Hv]. rewrite RoundTrip.parse_lookup in Hv.
    case_decide as Hk; [subst f; RoundTrip.by_decide|].
    case_decide as Hs.
    { unfold SimilarityEngine.parsed_scalar_features in Hs.
      repeat (apply elem_of_cons in Hs as [->|Hs]; [RoundTrip.by_decide|]).
      by apply elem_of_nil in Hs. }
    case_decide as Ha; [|discriminate].
    unfold SimilarityEngine.parsed_array_features in Ha.
    repeat (apply elem_of_cons in Ha as [->|Ha]; [RoundTrip.by_decide|]).
    by apply elem_of_nil in Ha.
Qed.

(** ** From the stored document to the feature vector *)

Module StoredFacts.
Import AudioFingerprinter SimilarityEngine Schema.

(** The document [store_audio_data] writes for an extracted fingerprint. *)
Lemma extracted_document fp :
  extracted fp = true ->
  exists mfcc chroma sc sr zc tempo energy key,
    length mfcc = 13%nat /\ length chroma = 12%nat
    /\ App.fingerprint_json fp
       = Ok (list_to_map [
           ("mfcc", JArr mfcc); ("chroma", JArr chroma);
           ("spectral_centroids", JNum sc); ("spectral_rolloff", JNum sr);
           ("zero_crossing_rate", JNum zc); ("tempo", JNum tempo);
           ("key", JStr key); ("energy", JNum energy)]).
Proof.
  intros H.
  destruct (RoundTrip.extracted_field fp "mfcc" (Array 13) H) as ([] & E1 & S1);
    [RoundTrip.in_schema | try discriminate ..].
  destruct (RoundTrip.extracted_field fp "chroma" (Array 12) H)
    as ([] & E2 & S2); [RoundTrip.in_schema | try discriminate ..].
  destruct (RoundTrip.extracted_field fp "spectral_centroids" NpScalar H)
    as ([] & E3 & S3); [RoundTrip.in_schema | try discriminate ..].
  destruct (RoundTrip.extracted_field fp "spectral_rolloff" NpScalar H)
    as ([] & E4 & S4); [RoundTrip.in_schema | try discriminate ..].
  destruct (RoundTrip.extracted_field fp "zero_crossing_rate" NpScalar H)
    as ([] & E5 & S5); [RoundTrip.in_schema | try discriminate ..].
  destruct (RoundTrip.extracted_field fp "tempo" Float H) as ([] & E6 & S6);
    [RoundTrip.in_schema | try discriminate ..].
  destruct (RoundTrip.extracted_field fp "energy" Float H) as ([] & E7 & S7);
    [RoundTrip.in_schema | try discriminate ..].
  destruct (RoundTrip.extracted_field fp "key" Str H) as ([] & E8 & S8);
    [RoundTrip.in_schema | try discriminate ..].
  apply bool_decide_eq_true in S1, S2.
  do 8 eexists. split; [exact S1|]. split; [exact S2|].
  unfold App.fingerprint_json, App.tolist_or_empty.
  by rewrite E1, E2, E3, E4, E5, E6, E7, E8.
Qed.

Lemma typed_intro fp :
  (forall f, f ∈ scalar_features ->
     match fp !! f with
     | Some v => is_Some (as_number v)
     | None => True
     end) ->
  (forall f, f ∈ array_features ->
     match fp !! f with
     | Some v => is_sequence v = true
     | None => True
     end) ->
  typed fp = true.
Proof.
  intros Hs Ha. unfold typed. apply andb_true_iff. split.
  - apply forallb_forall. intros f Hf%list_elem_of_In. specialize (Hs f Hf).
    destruct (fp !! f); [by apply bool_decide_eq_true | done].
  - apply forallb_forall. intros f Hf%list_elem_of_In. specialize (Ha f Hf).
    by destruct (fp !! f).
Qed.

Lemma length_vector_of fp :
  length (vector_of fp)
  = (20 + sum_list (length ∘ array_entries fp <$> array_features))%nat.
Proof.
  unfold vector_of. rewrite length_app, length_fmap. f_equal.
  generalize array_features. intros l.
  induction l as [|f l IH]; [done|].
  rewrite !fmap_cons. cbn [concat sum_list sum_list_with].
  by rewrite length_app, IH.
Qed.

Section Parsed.
Variables (mfcc chroma : list Q) (sc sr zc tempo energy : Q) (key : string).
Hypothesis Hmfcc : length mfcc = 13%nat.
Hypothesis Hchroma : length chroma = 12%nat.

Let doc : gmap string jval :=
  list_to_map [
    ("mfcc", JArr mfcc); ("chroma", JArr chroma);
    ("spectral_centroids", JNum sc); ("spectral_rolloff", JNum sr);
    ("zero_crossing_rate", JNum zc); ("tempo", JNum tempo);
    ("key", JStr key); ("energy", JNum energy)].

Ltac parse_at :=
  first
    [ rewrite RoundTrip.parse_lookup_other by RoundTrip.by_decide
    | rewrite RoundTrip.parse_lookup_scalar by RoundTrip.by_decide
    | rewrite RoundTrip.parse_lookup_array by RoundTrip.by_decide ].

Lemma doc_sc : doc !! "spectral_centroids" = Some (JNum sc).
Proof. reflexivity. Qed.
Lemma doc_sr : doc !! "spectral_rolloff" = Some (JNum sr).
Proof. reflexivity. Qed.
Lemma doc_zc : doc !! "zero_crossing_rate" = Some (JNum zc).
Proof. reflexivity. Qed.
Lemma doc_tempo : doc !! "tempo" = Some (JNum tempo).
Proof. reflexivity. Qed.
Lemma doc_energy : doc !! "energy" = Some (JNum energy).
Proof. reflexivity. Qed.

Lemma parsed_mfcc : _parse_fingerprint doc !! "mfcc" = Some (NdArray mfcc).
Proof.
  parse_at. change (doc !! "mfcc") with (Some (JArr mfcc)).
  by destruct mfcc.
Qed.

Lemma parsed_chroma :
  _parse_fingerprint doc !! "chroma" = Some (NdArray chroma).
Proof.
  parse_at. change (doc !! "chroma") with (Some (JArr chroma)).
  by destruct chroma.
Qed.

Lemma parsed_typed : typed (_parse_fingerprint doc) = true.
Proof.
  apply typed_intro.
  - intros f Hf. unfold scalar_features in Hf.
    repeat (apply elem_of_cons in Hf as [->|Hf];
            [parse_at;
             rewrite ?doc_sc, ?doc_sr, ?doc_zc, ?doc_tempo, ?doc_energy;
             cbn [truthy]; try destruct (negb _);
             cbn [fmap option_fmap option_map default from_option id py_of
                  np_array_of as_number]; eauto |]).
    by apply elem_of_nil in Hf.
  - intros f Hf. unfold array_features in Hf.
    repeat (apply elem_of_cons in Hf as [->|Hf];
            [first [ by rewrite parsed_mfcc
                   | by rewrite parsed_chroma
                   | by parse_at ] |]).
    by apply elem_of_nil in Hf.
Qed.

Lemma parsed_vector_length : length (vector_of (_parse_fingerprint doc)) = 45%nat.
Proof.
  rewrite length_vector_of. unfold array_features.
  rewrite !fmap_cons, fmap_nil. unfold compose, array_entries.
  rewrite parsed_mfcc, parsed_chroma.
  repeat parse_at.
  cbn [mbind option_bind as_vector default from_option sum_list
       sum_list_with].
  unfold Datatypes.id. rewrite Hmfcc, Hchroma. reflexivity.
Qed.

End Parsed.

End StoredFacts.

Module ExtractedFacts.
Import AudioFingerprinter Schema Laws.

Lemma scalar_schema :
  Forall (fun f => (f, NpScalar) ∈ extraction_schema
                   \/ (f, Float) ∈ extraction_schema) scalar_features.
Proof. refine (bool_decide_unpack _ _). vm_compute. exact I. Qed.

Lemma array_schema :
  Forall (fun fn : string * nat => (fn.1, Array fn.2) ∈ extraction_schema)
         declared.
Proof. refine (bool_decide_unpack _ _). vm_compute. exact I. Qed.

Lemma array_features_declared : array_features = declared.*1.
Proof. reflexivity. Qed.

Lemma extracted_typed fp : extracted fp = true -> typed fp = true.
Proof.
  intros H. apply StoredFacts.typed_intro.
  - intros f Hf.
    pose proof scalar_schema as Hs. rewrite Forall_forall in Hs.
    destruct (Hs f Hf) as [Hin|Hin];
      destruct (RoundTrip.extracted_field fp _ _ H Hin) as (v & -> & Hv);
      destruct v; try discriminate; simpl; eauto.
  - intros f Hf. rewrite array_features_declared in Hf.
    apply list_elem_of_fmap in Hf as ([f' n] & -> & Hin).
    pose proof array_schema as Ha. rewrite Forall_forall in Ha.
    destruct (RoundTrip.extracted_field fp _ _ H (Ha _ Hin)) as (v & -> & Hv).
    destruct v; try discriminate; done.
Qed.

Lemma extracted_complete fp : extracted fp = true -> complete fp = true.
Proof.
  intros H. unfold complete. apply forallb_forall.
  intros [f n] Hin%list_elem_of_In.
  pose proof array_schema as Ha. rewrite Forall_forall in Ha.
  destruct (RoundTrip.extracted_field fp _ _ H (Ha _ Hin)) as (v & Hv & Hs).
  cbn beta. cbn [fst snd] in *. rewrite Hv. destruct v; try discriminate.
  apply bool_decide_eq_true in Hs. apply bool_decide_eq_true.
  simpl. by rewrite Hs.
Qed.

Lemma extracted_vector fp :
  extracted fp = true ->
  create_feature_vector init fp = Ok (FloatArray (vector_of fp))
  /\ length (vector_of fp) = 96%nat.
Proof.
  intros H. split.
  - apply VectorFacts.create_feature_vector_typed. by apply extracted_typed.
  - rewrite StoredFacts.length_vector_of.
    pose proof (VectorFacts.declared_total_length fp declared
                  (extracted_complete fp H)) as Hlen.
    rewrite <- array_features_declared in Hlen.
    assert (Hsum : forall l : list string,
              sum_list (length ∘ array_entries fp <$> l)
              = length (concat (array_entries fp <$> l))).
    { induction l as [|g l IH]; [done|].
      rewrite !fmap_cons. cbn [concat sum_list sum_list_with].
      by rewrite length_app, IH. }
    rewrite Hsum, Hlen. reflexivity.
Qed.

Lemma stored_vector fp :
  extracted fp = true ->
  exists doc v,
    App.fingerprint_json fp = Ok doc
    /\ create_feature_vector init (SimilarityEngine._parse_fingerprint doc)
       = Ok (FloatArray v)
    /\ length v = 45%nat.
Proof.
  intros H.
  destruct (StoredFacts.extracted_document fp H)
    as (mfcc & chroma & sc & sr & zc & tempo & energy & key
        & Hm & Hc & Hdoc).
  eexists _, _. split; [exact Hdoc|]. split.
  - apply VectorFacts.create_feature_vector_typed.
    by apply StoredFacts.parsed_typed.
  - by apply StoredFacts.parsed_vector_length.
Qed.

End ExtractedFacts.

(** X5: a fingerprint that extraction produced is turned into a vector of 96
    entries, but the fingerprint parsed back from its stored document into
    one of 45 entries (20 scalars, 13 of mfcc, 12 of chroma): the rows of an
    index built from the table are 45 wide. *)
Theorem X5_stored_vector_is_shorter (fp : gmap string value) :
  Schema.extracted fp = true ->
  exists doc v w,
    AudioFingerprinter.create_feature_vector AudioFingerprinter.init fp
      = Ok (FloatArray v)
    /\ length v = 96%nat
    /\ App.fingerprint_json fp = Ok doc
    /\ AudioFingerprinter.create_feature_vector AudioFingerprinter.init
         (SimilarityEngine._parse_fingerprint doc) = Ok (FloatArray w)
    /\ length w = 45%nat.
Proof.
  intros H.
  destruct (ExtractedFacts.extracted_vector fp H) as [Hv Hlen].
  destruct (ExtractedFacts.stored_vector fp H) as (doc & w & Hdoc & Hw & Hwlen).
  exists doc, (Schema.vector_of fp), w. auto.
Qed.

Lemma X5_stored_vector_is_shorter_witness :
  exists doc v w,
    AudioFingerprinter.create_feature_vector AudioFingerprinter.init
      Samples.sample_fingerprint = Ok (FloatArray v)
    /\ length v = 96%nat
    /\ App.fingerprint_json Samples.sample_fingerprint = Ok doc
    /\ AudioFingerprinter.create_feature_vector AudioFingerprinter.init
         (SimilarityEngine._parse_fingerprint doc) = Ok (FloatArray w)
    /\ length w = 45%nat.
Proof.
  apply X5_stored_vector_is_shorter. reflexivity.
Defined.

(** ** _build_faiss_index, rebuild_index, add_song_to_index *)

Module BuildFacts.
Import SimilarityEngine Schema Laws.

Lemma index_rows_app rs F S :
  index_rows rs F S
  = (F ++ (index_rows rs [] []).1, S ++ (index_rows rs [] []).2).
Proof.
  revert F S. induction rs as [|r rs IH]; intros F S; cbn [index_rows].
  - by rewrite !app_nil_r.
  - destruct (index_row r) as [[v sg]|e].
    + rewrite (IH (F ++ [v])), (IH ([] ++ [v])). cbn [fst snd].
      by rewrite <- !app_assoc.
    + apply IH.
Qed.

Lemma index_rows_lengths rs :
  length (index_rows rs [] []).1 = length (index_rows rs [] []).2
  /\ (length (index_rows rs [] []).2 <= length rs)%nat
  /\ song_id <$> (index_rows rs [] []).2 `sublist_of` id <$> rs.
Proof.
  induction rs as [|r rs (IH1 & IH2 & IH3)]; cbn [index_rows].
  - done.
  - destruct (index_row r) as [[v sg]|e] eqn:E.
    + rewrite index_rows_app. cbn [fst snd app length].
      rewrite IH1. split; [done|]. split; [lia|].
      rewrite !fmap_cons.
      assert (song_id sg = id r) as ->.
      { unfold index_row in E.
        apply bind_Ok in E as (doc & _ & E).
        apply bind_Ok in E as (fv & _ & [= _ <-]). done. }
      by apply sublist_skip.
    + split; [done|]. split; [cbn [length]; lia|].
      rewrite fmap_cons. by apply sublist_cons.
Qed.


Section Build.
Variable fit_stats : list (list Q) -> list Q * list Q.
Variable l2_norm : list Q -> Q.

Local Abbreviation made := (built fit_stats l2_norm).

Lemma build_cases self songs :
  let features := (index_rows songs [] []).1 in
  let indexed := (index_rows songs [] []).2 in
  (_build_faiss_index fit_stats l2_norm self songs = with_songs self indexed
   /\ (features = [] \/ exists e, matrix_of features = Raise e))
  \/ (exists X, features <> [] /\ matrix_of features = Ok X
        /\ _build_faiss_index fit_stats l2_norm self songs = made X indexed).
Proof.
  intros features indexed. unfold _build_faiss_index.
  subst features indexed.
  destruct (index_rows songs [] []) as [features indexed]. cbn [fst snd].
  destruct features as [|a features]; [left; eauto|].
  unfold build_from.
  destruct (matrix_of (a :: features)) as [X|e] eqn:E.
  - right. exists X. split; [done|]. split; [done|]. reflexivity.
  - left. cbn [mbind result_bind try_except]. eauto.
Qed.

Lemma float_rows_length F X : float_rows F = Ok X -> length X = length F.
Proof.
  revert X. induction F as [|a F IH]; intros X; cbn [float_rows].
  - by intros [= <-].
  - intros (row & _ & (rows & Hrows & [= <-])%bind_Ok)%bind_Ok.
    cbn [length]. f_equal. by apply IH.
Qed.

Lemma matrix_of_spec F X :
  matrix_of F = Ok X ->
  length X = length F
  /\ Forall (fun row => length row = length (default [] (head X))) X.
Proof.
  unfold matrix_of.
  intros (rows & Hrows & H)%bind_Ok.
  destruct rows as [|r rows].
  - injection H as <-. split; [by apply float_rows_length | constructor].
  - destruct (forallb _ _) eqn:Hall; [|discriminate]. injection H as <-.
    split; [by apply float_rows_length|].
    rewrite forallb_forall in Hall. apply Forall_forall.
    intros row Hrow%list_elem_of_In. specialize (Hall row Hrow).
    by apply bool_decide_eq_true in Hall.
Qed.

Lemma made_consistent F X indexed :
  matrix_of F = Ok X -> consistent (made X indexed).
Proof.
  intros [_ Hall]%matrix_of_spec. unfold consistent, built. cbn.
  split; [done|]. split.
  - f_equal. destruct X as [|r X]; [done|]. cbn.
    by rewrite SearchFacts.length_standardize.
  - rewrite Forall_fmap, Forall_fmap. eapply Forall_impl; [exact Hall|].
    intros row Hrow. cbn.
    rewrite SearchFacts.length_normalize_L2, SearchFacts.length_standardize.
    rewrite Hrow. destruct X as [|r X]; [done|]. cbn.
    by rewrite SearchFacts.length_standardize.
Qed.

Lemma build_consistent self songs :
  consistent self ->
  consistent (_build_faiss_index fit_stats l2_norm self songs).
Proof.
  intros Hself.
  destruct (build_cases self songs) as [[-> _] | (X & _ & HX & ->)].
  - exact Hself.
  - by eapply made_consistent.
Qed.

Lemma build_independent self self' songs :
  scaler self = scaler self' -> index self = index self' ->
  feature_dim self = feature_dim self' ->
  _build_faiss_index fit_stats l2_norm self songs
  = _build_faiss_index fit_stats l2_norm self' songs.
Proof.
  intros H1 H2 H3.
  destruct (build_cases self songs) as [[-> Hc] | (X & Hne & HX & ->)];
    destruct (build_cases self' songs) as [[-> Hc'] | (X' & Hne' & HX' & ->)].
  - unfold with_songs. by rewrite H1, H2, H3.
  - destruct Hc as [Hc | [e Hc]]; congruence.
  - destruct Hc' as [Hc' | [e Hc']]; congruence.
  - congruence.
Qed.

End Build.

End BuildFacts.

(** X6: the engine stays consistent.  The engine [__init__] makes from any
    table is consistent (scaler, index and [feature_dim] agree on the number
    of columns, and every index row has that many entries), and
    [rebuild_index] and [add_song_to_index] keep a consistent engine
    consistent, whether the build inside goes through or raises. *)
Theorem X6_engine_stays_consistent
    (fit_stats : list (list Q) -> list Q * list Q) (l2_norm : list Q -> Q)
    (db : database) :
  Laws.consistent (SimilarityEngine.init fit_stats l2_norm db)
  /\ (forall self, Laws.consistent self ->
        Laws.consistent (SimilarityEngine.rebuild_index fit_stats l2_norm
                           self db))
  /\ (forall self song_data, Laws.consistent self ->
        Laws.consistent (SimilarityEngine.add_song_to_index fit_stats l2_norm
                           self db song_data)).
Proof.
  split; [|split].
  - unfold SimilarityEngine.init, SimilarityEngine._initialize_index.
    destruct (SimilarityEngine._load_all_songs db) as [|r rs]; [exact I|].
    apply BuildFacts.build_consistent. exact I.
  - intros self Hself. by apply BuildFacts.build_consistent.
  - intros self sd Hself. unfold SimilarityEngine.add_song_to_index.
    destruct (SimilarityEngine.json_loads _) as [doc|e];
      cbn [mbind result_bind try_except]; [|done].
    destruct (AudioFingerprinter.create_feature_vector _ _) as [v|e];
      cbn [mbind result_bind try_except]; [|done].
    destruct (_ =? 0)%Z; cbn [try_except].
    + by apply BuildFacts.build_consistent.
    + exact Hself.
Qed.



(** X8: rebuilding twice from the same table gives what rebuilding once
    gives. *)
Theorem X8_rebuild_idempotent
    (fit_stats : list (list Q) -> list Q * list Q) (l2_norm : list Q -> Q)
    (self : SimilarityEngine.t) (db : database) :
  SimilarityEngine.rebuild_index fit_stats l2_norm
    (SimilarityEngine.rebuild_index fit_stats l2_norm self db) db
  = SimilarityEngine.rebuild_index fit_stats l2_norm self db.
Proof.
  unfold SimilarityEngine.rebuild_index.
  set (songs := SimilarityEngine._load_all_songs db).
  destruct (BuildFacts.build_cases fit_stats l2_norm self songs)
    as [[E Hc] | (X & Hne & HX & E)].
  - rewrite E.
    destruct (BuildFacts.build_cases fit_stats l2_norm
                (Laws.with_songs self (SimilarityEngine.index_rows songs [] []).2)
                songs) as [[E' _] | (X' & Hne' & HX' & _)].
    + by rewrite E'.
    + destruct Hc as [Hc | [e Hc]]; congruence.
  - rewrite E.
    destruct (BuildFacts.build_cases fit_stats l2_norm
                (Laws.built fit_stats l2_norm X
                   (SimilarityEngine.index_rows songs [] []).2)
                songs) as [[_ Hc] | (X' & _ & HX' & ->)].
    + destruct Hc as [Hc | [e Hc]]; congruence.
    + congruence.
Qed.

(** X9: when the song is usable and the new number of indexed songs is a
    multiple of 100, [add_song_to_index] gives exactly what [rebuild_index]
    gives: the list of indexed songs is replaced by the songs of the table,
    so the added song survives only if the table holds its row. *)
Theorem X9_hundredth_add_is_rebuild
    (fit_stats : list (list Q) -> list Q * list Q) (l2_norm : list Q -> Q)
    (self : SimilarityEngine.t) (db : database) (song_data : song_row)
    (doc : gmap string jval) (v : ndarray) :
  fingerprint_data song_data = Some doc ->
  AudioFingerprinter.create_feature_vector AudioFingerprinter.init
    (SimilarityEngine._parse_fingerprint doc) = Ok v ->
  ((Z.of_nat (length (SimilarityEngine.indexed_songs self)) + 1) mod 100 = 0)%Z ->
  SimilarityEngine.add_song_to_index fit_stats l2_norm self db song_data
  = SimilarityEngine.rebuild_index fit_stats l2_norm self db.
Proof.
  intros Hdoc Hv Hmod.
  unfold SimilarityEngine.add_song_to_index, SimilarityEngine.rebuild_index.
  rewrite Hdoc. cbn [SimilarityEngine.json_loads mbind result_bind].
  rewrite Hv. cbn [mbind result_bind SimilarityEngine.indexed_songs].
  rewrite length_app. cbn [length].
  replace (Z.of_nat (length (SimilarityEngine.indexed_songs self) + 1))
    with (Z.of_nat (length (SimilarityEngine.indexed_songs self)) + 1)%Z by lia.
  rewrite Hmod. cbn [Z.eqb try_except].
  by apply BuildFacts.build_independent.
Qed.

Lemma X6_engine_stays_consistent_witness :
  Laws.consistent Samples.one_song_engine
  /\ Laws.consistent
       (SimilarityEngine.add_song_to_index (fun _ => ([], [])) (fun _ => 1)
          Samples.one_song_engine Laws.two_rows
          (Samples.sample_row 2 "b.wav" "h2")).
Proof.
  assert (H : Laws.consistent Samples.one_song_engine).
  { split; [reflexivity|]. split; [reflexivity|].
    repeat constructor. }
  split; [exact H|].
  exact (proj2 (proj2 (X6_engine_stays_consistent (fun _ => ([], []))
                         (fun _ => 1) Laws.two_rows))
           Samples.one_song_engine (Samples.sample_row 2 "b.wav" "h2") H).
Defined.

Lemma X9_hundredth_add_is_rebuild_witness :
  SimilarityEngine.add_song_to_index (fun _ => ([], [])) (fun _ => 1)
    (Laws.crowded 99) Laws.two_rows (Samples.sample_row 2 "b.wav" "h2")
  = SimilarityEngine.rebuild_index (fun _ => ([], [])) (fun _ => 1)
      (Laws.crowded 99) Laws.two_rows.
Proof.
  eapply X9_hundredth_add_is_rebuild with (doc := Samples.sample_document).
  - reflexivity.
  - reflexivity.
  - reflexivity.
Defined.

(** ** An index built from what the application stores *)

Module LibraryFacts.
Import SimilarityEngine Schema Laws.

Lemma index_row_stored r :
  stored_by_extraction r ->
  exists v sg, index_row r = Ok (FloatArray v, sg) /\ length v = 45%nat.
Proof.
  intros (fp & doc & Hfp & Hdoc & Hr).
  destruct (ExtractedFacts.stored_vector fp Hfp) as (doc' & v & Hdoc' & Hv & Hlen).
  rewrite Hdoc in Hdoc'. injection Hdoc' as <-.
  exists v. eexists. split; [|exact Hlen].
  unfold index_row. rewrite Hr. cbn [json_loads mbind result_bind].
  rewrite Hv. reflexivity.
Qed.

Lemma index_rows_stored rs :
  Forall stored_by_extraction rs ->
  Forall (wide 45) (index_rows rs [] []).1
  /\ length (index_rows rs [] []).2 = length rs.
Proof.
  induction 1 as [|r rs Hr Hrs [IH1 IH2]]; cbn [index_rows]; [done|].
  destruct (index_row_stored r Hr) as (v & sg & -> & Hlen).
  rewrite BuildFacts.index_rows_app. cbn [fst snd app length].
  split; [|by rewrite IH2].
  constructor; [by exists v | exact IH1].
Qed.

Lemma float_rows_wide n F :
  Forall (wide n) F ->
  exists X, float_rows F = Ok X /\ Forall (fun row => length row = n) X.
Proof.
  induction 1 as [|a F (v & -> & Hv) HF (X & HX & Hall)]; cbn [float_rows].
  - exists []. by split.
  - rewrite HX. cbn [astype_float32 mbind result_bind].
    exists (v :: X). split; [done|]. by constructor.
Qed.

Lemma matrix_of_wide n F :
  Forall (wide n) F ->
  exists X, matrix_of F = Ok X /\ Forall (fun row => length row = n) X.
Proof.
  intros HF. destruct (float_rows_wide n F HF) as (X & HX & Hall).
  exists X. split; [|exact Hall].
  unfold matrix_of. rewrite HX. cbn [mbind result_bind].
  destruct X as [|r X]; [done|].
  rewrite (proj2 (forallb_forall _ _)); [done|].
  intros row Hrow%list_elem_of_In. apply bool_decide_eq_true.
  rewrite Forall_forall in Hall.
  rewrite (Hall row Hrow). rewrite (Hall r); [done | left].
Qed.

Lemma load_stored db :
  Forall stored_by_extraction (songs db) -> _load_all_songs db = songs db.
Proof.
  unfold _load_all_songs. generalize (songs db). intros l.
  induction 1 as [|r rs (fp & doc & _ & _ & Hr) Hrs IH]; [done|].
  rewrite filter_cons, decide_True by (rewrite Hr; eauto).
  by rewrite IH.
Qed.

(** The engine made from a non-empty table of rows the application
    stored. *)
Lemma init_stored fit_stats l2_norm db :
  Forall stored_by_extraction (songs db) -> songs db <> [] ->
  exists X,
    Forall (fun row => length row = 45%nat) X
    /\ length X = length (songs db)
    /\ init fit_stats l2_norm db
       = built fit_stats l2_norm X (index_rows (songs db) [] []).2.
Proof.
  intros Hall Hne. unfold init, _initialize_index.
  rewrite (load_stored db Hall).
  destruct (songs db) as [|r rs] eqn:Hsongs; [done|].
  destruct (index_rows_stored _ Hall) as [Hwide Hlen].
  destruct (matrix_of_wide 45 _ Hwide) as (X & HX & HX45).
  destruct (BuildFacts.build_cases fit_stats l2_norm fresh (r :: rs))
    as [[_ Hc] | (X' & _ & HX' & ->)].
  - exfalso. destruct Hc as [Hc | [e Hc]]; [|congruence].
    pose proof (BuildFacts.index_rows_lengths (r :: rs)) as (Hl & _).
    rewrite Hc, Hlen in Hl. discriminate.
  - rewrite HX in HX'. injection HX' as <-.
    exists X. split; [exact HX45|]. split; [|reflexivity].
    destruct (BuildFacts.matrix_of_spec _ _ HX) as [-> _].
    pose proof (BuildFacts.index_rows_lengths (r :: rs)) as (Hl & _).
    by rewrite Hl, Hlen.
Qed.

Lemma built_width fit_stats l2_norm X indexed n :
  Forall (fun row => length row = n) X -> X <> [] ->
  feature_dim (built fit_stats l2_norm X indexed) = Some n
  /\ n_features_in_ <$> scaler (built fit_stats l2_norm X indexed) = Some n.
Proof.
  intros Hall Hne. destruct X as [|r X]; [done|].
  apply Forall_cons in Hall as [Hr _]. unfold built. cbn.
  by rewrite SearchFacts.length_standardize, Hr.
Qed.

(** A query whose vector is not 45 wide finds nothing in such an engine. *)
Lemma search_stored cd fit_stats l2_norm db q mr th v :
  Forall stored_by_extraction (songs db) ->
  AudioFingerprinter.create_feature_vector AudioFingerprinter.init q
    = Ok (FloatArray v) ->
  length v <> 45%nat ->
  search_local cd l2_norm (init fit_stats l2_norm db) q mr th = [].
Proof.
  intros Hall Hv Hlen.
  destruct (songs db) as [|r rs] eqn:Hsongs.
  { apply SearchFacts.search_local_no_index. left.
    unfold init, _initialize_index, _load_all_songs. by rewrite Hsongs. }
  destruct (init_stored fit_stats l2_norm db) as (X & HX & HlenX & ->);
    [by rewrite Hsongs.. |].
  assert (HXne : X <> []).
  { intros ->. rewrite Hsongs in HlenX. discriminate. }
  destruct (built_width fit_stats l2_norm X
              (index_rows (songs db) [] []).2 45 HX HXne) as [_ Hsc].
  unfold search_local, search_local_body.
  change (index (built fit_stats l2_norm X (index_rows (songs db) [] []).2))
    with (Some {| d := length (default [] (head (standardize (fit fit_stats X) <$> X)));
                  rows := normalize_L2 l2_norm
                          <$> (standardize (fit fit_stats X) <$> X) |}).
  change (indexed_songs (built fit_stats l2_norm X (index_rows (songs db) [] []).2))
    with (index_rows (songs db) [] []).2.
  destruct (index_rows (songs db) [] []).2 as [|sg sgs]; [done|].
  rewrite Hv. cbn [mbind result_bind astype_float32].
  change (scaler (built fit_stats l2_norm X (sg :: sgs)))
    with (Some (fit fit_stats X)).
  cbn in Hsc. injection Hsc as Hsc.
  unfold transform. rewrite decide_False; [done|].
  cbn [n_features_in_ fit]. by rewrite Hsc.
Qed.


End LibraryFacts.

(** ** extract_fingerprint *)




(** ** An index built from what the application stores, continued *)

(** X10: the engine [__init__] makes from a non-empty table whose rows the
    application stored for extracted fingerprints has 45 columns and one
    index row and one indexed song for every row of the table.  A query
    whose feature vector has another width, such as the 96 entries of an
    extracted fingerprint, finds nothing there: [search_local] returns the
    empty list whatever the threshold. *)
Theorem X10_stored_library_is_45_wide
    (cosine_dist : list Q -> list Q -> npfloat)
    (fit_stats : list (list Q) -> list Q * list Q) (l2_norm : list Q -> Q)
    (db : database) :
  Forall Laws.stored_by_extraction (songs db) -> songs db <> [] ->
  let engine := SimilarityEngine.init fit_stats l2_norm db in
  SimilarityEngine.get_index_stats engine
    = (length (songs db), Some 45%nat, true)
  /\ Laws.aligned engine
  /\ Laws.consistent engine
  /\ (forall q max_results threshold,
        Schema.extracted q = true ->
        SimilarityEngine.search_local cosine_dist l2_norm engine q
          max_results threshold = []).
Proof.
  intros Hall Hne engine.
  assert (Hsearch : forall q mr th, Schema.extracted q = true ->
            SimilarityEngine.search_local cosine_dist l2_norm engine q mr th
            = []).
  { intros q mr th Hq.
    destruct (ExtractedFacts.extracted_vector q Hq) as [Hv Hlen].
    eapply LibraryFacts.search_stored; [done | exact Hv |].
    rewrite Hlen. discriminate. }
  assert (Hcons : Laws.consistent engine).
  { subst engine.
    unfold SimilarityEngine.init, SimilarityEngine._initialize_index.
    destruct (SimilarityEngine._load_all_songs db); [exact I|].
    apply BuildFacts.build_consistent. exact I. }
  subst engine.
  destruct (LibraryFacts.init_stored fit_stats l2_norm db Hall Hne)
    as (X & HX & HlenX & E).
  assert (HXne : X <> []).
  { intros ->. destruct (songs db); [done | discriminate]. }
  destruct (LibraryFacts.index_rows_stored _ Hall) as [Hwide Hlen].
  split; [|split; [|split]]; [| |exact Hcons|exact Hsearch]; rewrite E.
  - unfold SimilarityEngine.get_index_stats.
    destruct (LibraryFacts.built_width fit_stats l2_norm X
                (SimilarityEngine.index_rows (songs db) [] []).2 45 HX HXne)
      as [-> _].
    cbn [Laws.built SimilarityEngine.indexed_songs SimilarityEngine.index].
    rewrite Hlen. f_equal.
  - eexists. split; [reflexivity|]. cbn.
    by rewrite !length_fmap, HlenX, Hlen.
Qed.

Lemma X10_stored_library_is_45_wide_witness :
  SimilarityEngine.get_index_stats
    (SimilarityEngine.init (fun _ => ([], [])) (fun _ => 1) Laws.stored_once)
  = (1%nat, Some 45%nat, true).
Proof.
  refine (proj1 (X10_stored_library_is_45_wide (fun _ _ => NaN)
                   (fun _ => ([], [])) (fun _ => 1) Laws.stored_once _ _)).
  - repeat constructor.
    exists Samples.sample_fingerprint. eexists.
    split; [reflexivity|]. split; reflexivity.
  - discriminate.
Defined.

(** ** store_audio_data and the handlers that call it *)

Module StoreFacts.
Import App Schema Laws.

Lemma max_id_base (l : list Z) m : (m <= foldr Z.max m l)%Z.
Proof. induction l as [|x l IH]; cbn [foldr]; lia. Qed.

Lemma max_id_ge (l : list Z) m x : x ∈ l -> (x <= foldr Z.max m l)%Z.
Proof.
  induction 1 as [x l | x y l _ IH]; cbn [foldr]; [lia|].
  lia.
Qed.

Lemma max_id_bounded (l : list Z) m :
  Forall (fun x => (x <= m)%Z) l -> foldr Z.max m l = m.
Proof. induction 1 as [|x l Hx _ IH]; cbn [foldr]; [done | lia]. Qed.

Lemma insert_songs db r :
  songs (insert_or_replace db r)
  = kept (file_path r) (file_hash r) db ++ [with_id r (next_id db)].
Proof. reflexivity. Qed.

Lemma insert_last_id db r : last_id (insert_or_replace db r) = next_id db.
Proof. reflexivity. Qed.

Lemma next_id_above db :
  (last_id db < next_id db)%Z
  /\ Forall (fun r => (id r < next_id db)%Z) (songs db).
Proof.
  unfold next_id. split.
  - pose proof (max_id_base (id <$> songs db) (last_id db)). lia.
  - apply Forall_forall. intros r Hr.
    pose proof (max_id_ge (id <$> songs db) (last_id db) (id r)
                  (list_elem_of_fmap_2 id _ _ Hr)). lia.
Qed.

Lemma kept_sublist p h db : kept p h db `sublist_of` songs db.
Proof. apply sublist_filter. Qed.

Lemma kept_spec p h db r :
  r ∈ kept p h db <-> file_path r <> p /\ file_hash r <> h /\ r ∈ songs db.
Proof.
  unfold kept. rewrite list_elem_of_filter. unfold conflicts.
  rewrite orb_false_iff, !bool_decide_eq_false. tauto.
Qed.

Lemma insert_well_formed db r :
  well_formed db -> well_formed (insert_or_replace db r).
Proof.
  intros (Hp & Hh & Hi & Hb).
  pose proof (kept_sublist (file_path r) (file_hash r) db) as Hsub.
  destruct (next_id_above db) as [Hlast Hall].
  unfold well_formed. rewrite insert_songs, insert_last_id, !fmap_app.
  rewrite !NoDup_app. cbn [fmap list_fmap with_id file_path file_hash id].
  assert (Hone : forall {A} (x : A), NoDup [x])
    by (intros; apply NoDup_singleton).
  split; [|split; [|split]].
  - split; [|split; [|apply Hone]].
    + eapply sublist_NoDup; [exact Hp | by apply fmap_sublist].
    + intros x Hx Hx'. apply list_elem_of_singleton in Hx'. subst x.
      apply list_elem_of_fmap in Hx as (r' & E & Hr').
      apply kept_spec in Hr' as (Hne & _). by rewrite E in Hne.
  - split; [|split; [|apply Hone]].
    + eapply sublist_NoDup; [exact Hh | by apply fmap_sublist].
    + intros x Hx Hx'. apply list_elem_of_singleton in Hx'. subst x.
      apply list_elem_of_fmap in Hx as (r' & E & Hr').
      apply kept_spec in Hr' as (_ & Hne & _). by rewrite E in Hne.
  - split; [|split; [|apply Hone]].
    + eapply sublist_NoDup; [exact Hi | by apply fmap_sublist].
    + intros x Hx Hx'. apply list_elem_of_singleton in Hx'. subst x.
      apply list_elem_of_fmap in Hx as (r' & E & Hr').
      apply kept_spec in Hr' as (_ & _ & Hin).
      rewrite Forall_forall in Hall. specialize (Hall r' Hin). lia.
  - apply Forall_app. split.
    + apply Forall_forall. intros r' Hr'.
      apply kept_spec in Hr' as (_ & _ & Hin).
      rewrite Forall_forall in Hall. specialize (Hall r' Hin). lia.
    + repeat constructor. cbn. lia.
Qed.

Lemma kept_insert db r :
  kept (file_path r) (file_hash r) (insert_or_replace db r)
  = kept (file_path r) (file_hash r) db.
Proof.
  unfold kept at 1. rewrite insert_songs, filter_app.
  rewrite (filter_cons _ (with_id r (next_id db))), decide_False.
  - rewrite filter_nil, app_nil_r. unfold kept.
    by apply list_filter_filter_r.
  - unfold conflicts. cbn [with_id file_path].
    by rewrite bool_decide_eq_true_2.
Qed.

Lemma next_id_insert db r :
  next_id (insert_or_replace db r) = (next_id db + 1)%Z.
Proof.
  unfold next_id at 1. rewrite insert_last_id, insert_songs.
  rewrite max_id_bounded; [done|].
  rewrite fmap_app. apply Forall_app. split.
  - apply Forall_fmap, Forall_forall. intros r' Hr'.
    apply kept_spec in Hr' as (_ & _ & Hin).
    destruct (next_id_above db) as [_ Hall].
    rewrite Forall_forall in Hall. specialize (Hall r' Hin). cbn. lia.
  - repeat constructor. cbn. lia.
Qed.

Section Store.
Variable files : gmap string (list Byte.byte).
Variable sha256 : list Byte.byte -> string.

(** Either nothing is written, or the row of the document is inserted. *)
Lemma store_cases db p fp md :
  store_audio_data files sha256 db p fp md = db
  \/ exists r doc bytes,
       files !! p = Some bytes
       /\ fingerprint_json fp = Ok doc
       /\ file_path r = p /\ file_hash r = sha256 bytes
       /\ fingerprint_data r = Some doc
       /\ store_audio_data files sha256 db p fp md = insert_or_replace db r.
Proof.
  unfold store_audio_data, calculate_file_hash.
  destruct (files !! p) as [bytes|]; [|by left].
  cbn [mbind result_bind].
  destruct (fingerprint_json fp) as [doc|e]; [|by left].
  cbn [mbind result_bind].
  destruct (sql_bind (default (PyFloat 0) (fp !! "tempo"))) as [t|e];
    [|by left].
  cbn [mbind result_bind].
  destruct (sql_bind (default (PyStr "Unknown") (fp !! "key"))) as [k|e];
    [|by left].
  cbn [mbind result_bind].
  destruct (sql_bind (default (PyFloat 0) (fp !! "energy"))) as [en|e];
    [|by left].
  cbn [mbind result_bind try_except].
  right. eexists _, doc, bytes. repeat split; reflexivity.
Qed.

(** The row written for a readable file and an extracted fingerprint. *)
Lemma store_extracted_row p bytes fp md :
  files !! p = Some bytes -> extracted fp = true ->
  exists r, file_path r = p /\ file_hash r = sha256 bytes
    /\ forall db, store_audio_data files sha256 db p fp md
                  = insert_or_replace db r.
Proof.
  intros Hp Hfp.
  destruct (RoundTrip.extracted_stored_fields fp Hfp)
    as (x & xs & c & cs & sc & sr & zc & tempo & energy & key
        & E1 & E2 & E3 & E4 & E5 & E6 & E7 & E8).
  eexists. split; [|split]; [| |intros db].
  3: { unfold store_audio_data, calculate_file_hash, fingerprint_json,
         tolist_or_empty.
       rewrite Hp, E1, E2, E3, E4, E5, E6, E7, E8.
       cbn [mbind result_bind try_except tolist json_encode sql_bind default
            from_option Datatypes.id].
       reflexivity. }
  all: reflexivity.
Qed.

(** The zero fingerprint holds Python floats where the document wants
    [tolist]: nothing is written. *)
Lemma store_zero db p md :
  store_audio_data files sha256 db p
    (AudioFingerprinter._get_empty_fingerprint AudioFingerprinter.init) md
  = db.
Proof.
  unfold store_audio_data, calculate_file_hash.
  destruct (files !! p) as [bytes|]; reflexivity.
Qed.

End Store.

Section Handlers.
Variable files : gmap string (list Byte.byte).
Variable sha256 : list Byte.byte -> string.
Variable pearson : list Q -> list Q -> npfloat.
Variable analyse :
  AudioFingerprinter.t -> string -> result AudioFingerprinter.analysis.
Variable extract_metadata : string -> metadata.

Local Abbreviation scan_file' :=
  (scan_file files sha256 pearson analyse extract_metadata).

Lemma extract_failed p e :
  analyse AudioFingerprinter.init p = Raise e ->
  extract pearson analyse p
  = AudioFingerprinter._get_empty_fingerprint AudioFingerprinter.init.
Proof.
  intros H. unfold extract, AudioFingerprinter.extract_fingerprint.
  by rewrite H.
Qed.

Lemma state_eta (st : state) :
  {| db := db st; similarity_engine := similarity_engine st |} = st.
Proof. by destruct st. Qed.

(** One round of the scan: the engine stays, the counter grows by at most
    one, and the table is left alone or gets one row for the file. *)
Lemma scan_file_cases st n p :
  exists db' n',
    scan_file' (st, n) p
    = ({| db := db'; similarity_engine := similarity_engine st |}, n')
    /\ (n <= n' <= S n)%nat
    /\ (db' = db st
        \/ exists r doc,
             fingerprint_json (extract pearson analyse p) = Ok doc
             /\ file_path r = p /\ fingerprint_data r = Some doc
             /\ db' = insert_or_replace (db st) r).
Proof.
  unfold scan_file.
  destruct (is_file_processed files sha256 (db st) p).
  - exists (db st), n. rewrite state_eta. split; [done|]. split; [lia|].
    by left.
  - eexists _, (S n). split; [reflexivity|]. split; [lia|].
    destruct (store_cases files sha256 (db st) p (extract pearson analyse p)
                (extract_metadata p))
      as [-> | (r & doc & bytes & _ & Hdoc & Hp & _ & Hr & ->)];
      [by left|].
    right. by exists r, doc.
Qed.

End Handlers.

End StoreFacts.

(** X11: a file on which the analysis fails is counted but never stored.
    [extract_fingerprint] then returns the zero fingerprint, whose scalar
    fields are Python floats; [store_audio_data] raises on their [tolist]
    and its handler leaves the table as it was.  So processing the file
    changes nothing, no later scan finds its hash in the table, and a
    scan that meets the file [k] times reports [k] processed files. *)
Theorem X11_failed_extraction_counted_not_stored
    (files : gmap string (list Byte.byte)) (sha256 : list Byte.byte -> string)
    (pearson : list Q -> list Q -> npfloat)
    (analyse : AudioFingerprinter.t -> string ->
               result AudioFingerprinter.analysis)
    (extract_metadata : string -> App.metadata)
    (st : App.state) (file_path : string) (e : exn) :
  analyse AudioFingerprinter.init file_path = Raise e ->
  App.is_file_processed files sha256 (App.db st) file_path = false ->
  App.handle_process_audio files sha256 pearson analyse extract_metadata
    st file_path = st
  /\ forall k,
       App.handle_scan_library files sha256 pearson analyse extract_metadata
         st (replicate k file_path) = (st, k).
Proof.
  intros Hfail Hnew.
  assert (Hstore : forall md,
            App.store_audio_data files sha256 (App.db st) file_path
              (App.extract pearson analyse file_path) md = App.db st).
  { intros md. rewrite (StoreFacts.extract_failed _ _ _ _ Hfail).
    apply StoreFacts.store_zero. }
  split.
  - unfold App.handle_process_audio. rewrite Hstore.
    apply StoreFacts.state_eta.
  - intros k. unfold App.handle_scan_library.
    assert (H : forall n,
              foldl (App.scan_file files sha256 pearson analyse
                       extract_metadata) (st, n) (replicate k file_path)
              = (st, (n + k)%nat)).
    { induction k as [|k IH]; intros n; cbn [replicate foldl].
      - f_equal. lia.
      - rewrite IngestFacts.scan_file_new by done.
        rewrite Hstore, StoreFacts.state_eta, IH. f_equal. lia. }
    apply (H 0%nat).
Qed.

Lemma X11_failed_extraction_counted_not_stored_witness :
  App.handle_scan_library Samples.one_file (fun _ => "h") (fun _ _ => NaN)
    Laws.unreadable Samples.no_tags Samples.started (replicate 3 "a.wav")
  = (Samples.started, 3%nat).
Proof.
  refine (proj2 (X11_failed_extraction_counted_not_stored Samples.one_file
                   (fun _ => "h") (fun _ _ => NaN) Laws.unreadable
                   Samples.no_tags Samples.started "a.wav" LibraryError
                   _ _) 3%nat); reflexivity.
Defined.

(** X12: what every library scan keeps.  The engine is the one the scan
    started with; the number of files reported as processed is at most the
    number of files met; ids are never given out twice, so the largest id
    handed out does not decrease; a table that respects its UNIQUE
    constraints still does afterwards; and every row of the table was there
    before or belongs to one of the files scanned. *)
Theorem X12_scan_invariants
    (files : gmap string (list Byte.byte)) (sha256 : list Byte.byte -> string)
    (pearson : list Q -> list Q -> npfloat)
    (analyse : AudioFingerprinter.t -> string ->
               result AudioFingerprinter.analysis)
    (extract_metadata : string -> App.metadata)
    (st : App.state) (audio_files : list string) :
  let out := App.handle_scan_library files sha256 pearson analyse
               extract_metadata st audio_files in
  App.similarity_engine out.1 = App.similarity_engine st
  /\ (out.2 <= length audio_files)%nat
  /\ (last_id (App.db st) <= last_id (App.db out.1))%Z
  /\ (Laws.well_formed (App.db st) -> Laws.well_formed (App.db out.1))
  /\ (forall r, r ∈ songs (App.db out.1) ->
        r ∈ songs (App.db st) \/ file_path r ∈ audio_files).
Proof.
  unfold App.handle_scan_library.
  assert (H : forall n,
    let out := foldl (App.scan_file files sha256 pearson analyse
                        extract_metadata) (st, n) audio_files in
    App.similarity_engine out.1 = App.similarity_engine st
    /\ (out.2 <= n + length audio_files)%nat
    /\ (last_id (App.db st) <= last_id (App.db out.1))%Z
    /\ (Laws.well_formed (App.db st) -> Laws.well_formed (App.db out.1))
    /\ (forall r, r ∈ songs (App.db out.1) ->
          r ∈ songs (App.db st) \/ file_path r ∈ audio_files));
    [|apply (H 0%nat)].
  revert st. induction audio_files as [|p fs IH]; intros st n; cbn [foldl].
  - cbn. split; [done|]. split; [lia|]. split; [lia|]. split; [done|].
    intros r Hr. by left.
  - destruct (StoreFacts.scan_file_cases files sha256 pearson analyse
                extract_metadata st n p) as (db' & n' & -> & Hn & Hdb).
    destruct (IH {| App.db := db';
                    App.similarity_engine := App.similarity_engine st |} n')
      as (IH1 & IH2 & IH3 & IH4 & IH5).
    cbn [App.db App.similarity_engine] in *.
    split; [exact IH1|]. split; [cbn [length]; lia|].
    destruct Hdb as [-> | (r0 & doc & _ & Hp & _ & ->)].
    + split; [exact IH3|]. split; [exact IH4|].
      intros r Hr. destruct (IH5 r Hr) as [?|?]; [by left|].
      right. by right.
    + destruct (StoreFacts.next_id_above (App.db st)) as [Hlast _].
      rewrite StoreFacts.insert_last_id in IH3.
      split; [lia|]. split.
      * intros Hwf. by apply IH4, StoreFacts.insert_well_formed.
      * intros r Hr. destruct (IH5 r Hr) as [Hin|?]; [|right; by right].
        rewrite StoreFacts.insert_songs in Hin.
        apply elem_of_app in Hin as [Hin|Hin].
        -- left. by apply StoreFacts.kept_spec in Hin as (_ & _ & Hin).
        -- apply list_elem_of_singleton in Hin. subst r.
           right. apply elem_of_cons. left. exact Hp.
Qed.

Lemma X12_scan_invariants_witness :
  Laws.well_formed empty_db
  /\ Laws.well_formed
       (App.db (App.handle_scan_library Samples.one_file (fun _ => "h")
                  (fun _ _ => NaN) Samples.analysed Samples.no_tags
                  Samples.started ["a.wav"; "a.wav"]).1).
Proof.
  assert (H : Laws.well_formed empty_db).
  { repeat split; constructor. }
  split; [exact H|].
  exact (proj1 (proj2 (proj2 (proj2 (X12_scan_invariants Samples.one_file
           (fun _ => "h") (fun _ _ => NaN) Samples.analysed Samples.no_tags
           Samples.started ["a.wav"; "a.wav"])))) H).
Defined.

(** X13: [handle_process_audio] replaces where a scan skips.  For a readable
    file on which extraction succeeds, processing it deletes the rows that
    hold its path or its hash and appends its row under a new id above
    every id handed out; processing it again leaves the same rows but gives
    the song the next id again. *)
Theorem X13_process_audio_replaces_row
    (files : gmap string (list Byte.byte)) (sha256 : list Byte.byte -> string)
    (pearson : list Q -> list Q -> npfloat)
    (analyse : AudioFingerprinter.t -> string ->
               result AudioFingerprinter.analysis)
    (extract_metadata : string -> App.metadata)
    (st : App.state) (file_path : string) (bytes : list Byte.byte) :
  files !! file_path = Some bytes ->
  Schema.extracted (App.extract pearson analyse file_path) = true ->
  let process := App.handle_process_audio files sha256 pearson analyse
                   extract_metadata in
  let others := Laws.kept file_path (sha256 bytes) (App.db st) in
  exists r,
    songs (App.db (process st file_path))
      = others ++ [Laws.with_id r (App.next_id (App.db st))]
    /\ songs (App.db (process (process st file_path) file_path))
       = others ++ [Laws.with_id r (App.next_id (App.db st) + 1)]
    /\ (last_id (App.db st) < App.next_id (App.db st))%Z
    /\ Forall (fun r' => (id r' < App.next_id (App.db st))%Z)
              (songs (App.db st)).
Proof.
  intros Hp Hfp process others. subst process others.
  unfold App.handle_process_audio. cbn [App.db].
  destruct (StoreFacts.store_extracted_row files sha256 file_path bytes
              (App.extract pearson analyse file_path)
              (extract_metadata file_path) Hp Hfp) as (r & Hpath & Hhash & E).
  exists r. rewrite !E, !StoreFacts.insert_songs.
  rewrite StoreFacts.kept_insert, StoreFacts.next_id_insert.
  rewrite Hpath, Hhash.
  destruct (StoreFacts.next_id_above (App.db st)) as [Hlast Hall].
  done.
Qed.

Lemma X13_process_audio_replaces_row_witness :
  let process := App.handle_process_audio Samples.one_file (fun _ => "h")
                   (fun _ _ => NaN) Samples.analysed Samples.no_tags in
  exists r,
    songs (App.db (process Samples.started "a.wav"))
      = [] ++ [Laws.with_id r 1]
    /\ songs (App.db (process (process Samples.started "a.wav") "a.wav"))
       = [] ++ [Laws.with_id r (1 + 1)]
    /\ (0 < 1)%Z
    /\ Forall (fun r' => (id r' < 1)%Z) [].
Proof.
  apply (X13_process_audio_replaces_row Samples.one_file (fun _ => "h")
           (fun _ _ => NaN) Samples.analysed Samples.no_tags Samples.started
           "a.wav" [Byte.x52; Byte.x49; Byte.x46; Byte.x46]);
    reflexivity.
Defined.

(** ** From the scan to the search *)

Module PipelineFacts.
Import App Schema Laws.

Section Scan.
Variable files : gmap string (list Byte.byte).
Variable sha256 : list Byte.byte -> string.
Variable pearson : list Q -> list Q -> npfloat.
Variable analyse :
  AudioFingerprinter.t -> string -> result AudioFingerprinter.analysis.
Variable extract_metadata : string -> metadata.

Lemma scan_stored audio_files :
  Forall (regular pearson analyse) audio_files ->
  forall st n,
    Forall stored_by_extraction (songs (db st)) ->
    Forall stored_by_extraction
      (songs (db (foldl (scan_file files sha256 pearson analyse
                           extract_metadata) (st, n) audio_files).1)).
Proof.
  induction 1 as [|p fs Hp Hfs IH]; intros st n Hst; cbn [foldl]; [done|].
  destruct (StoreFacts.scan_file_cases files sha256 pearson analyse
              extract_metadata st n p) as (db' & n' & -> & _ & Hdb).
  apply IH. cbn [db].
  destruct Hdb as [-> | (r & doc & Hdoc & _ & Hr & ->)]; [done|].
  rewrite StoreFacts.insert_songs. apply Forall_app. split.
  - apply Forall_forall. intros r' Hr'.
    apply StoreFacts.kept_spec in Hr' as (_ & _ & Hin).
    rewrite Forall_forall in Hst. by apply Hst.
  - repeat constructor.
    exists (extract pearson analyse p), doc.
    destruct Hp as [Hzero | Hext].
    + rewrite Hzero in Hdoc. discriminate.
    + done.
Qed.

End Scan.

End PipelineFacts.

(** X14: the application finds no local song for an extracted fingerprint.
    Let the process start on a table whose rows were stored for extracted
    fingerprints (the empty table is one), and let it scan any files on
    which extraction fails or gives a fingerprint of the extracted shape.
    Then the table still holds only such rows; the engine of the running
    process, which no handler updates, returns no hit for an extracted
    query; and neither does the engine a restart would build from the
    table, since its rows are 45 wide and the query vector is 96 wide. *)
Theorem X14_scanned_library_finds_nothing
    (cosine_dist : list Q -> list Q -> npfloat)
    (fit_stats : list (list Q) -> list Q * list Q) (l2_norm : list Q -> Q)
    (files : gmap string (list Byte.byte)) (sha256 : list Byte.byte -> string)
    (pearson : list Q -> list Q -> npfloat)
    (analyse : AudioFingerprinter.t -> string ->
               result AudioFingerprinter.analysis)
    (extract_metadata : string -> App.metadata)
    (db0 : database) (audio_files : list string)
    (q : gmap string value) (max_results : Z) (threshold : Q) :
  Forall Laws.stored_by_extraction (songs db0) ->
  Forall (Laws.regular pearson analyse) audio_files ->
  Schema.extracted q = true ->
  let st := {| App.db := db0;
               App.similarity_engine :=
                 SimilarityEngine.init fit_stats l2_norm db0 |} in
  let st' := (App.handle_scan_library files sha256 pearson analyse
                extract_metadata st audio_files).1 in
  Forall Laws.stored_by_extraction (songs (App.db st'))
  /\ SimilarityEngine.search_local cosine_dist l2_norm
       (App.similarity_engine st') q max_results threshold = []
  /\ SimilarityEngine.search_local cosine_dist l2_norm
       (SimilarityEngine.init fit_stats l2_norm (App.db st')) q
       max_results threshold = [].
Proof.
  intros Hdb Hfiles Hq st st'.
  destruct (ExtractedFacts.extracted_vector q Hq) as [Hv Hlen].
  assert (Hstored : Forall Laws.stored_by_extraction (songs (App.db st'))).
  { subst st'. unfold App.handle_scan_library.
    by apply PipelineFacts.scan_stored. }
  assert (Hengine : App.similarity_engine st'
                    = SimilarityEngine.init fit_stats l2_norm db0).
  { subst st'. unfold App.handle_scan_library.
    assert (G : forall fs s n,
              App.similarity_engine
                (foldl (App.scan_file files sha256 pearson analyse
                          extract_metadata) (s, n) fs).1
              = App.similarity_engine s).
    { induction fs as [|p fs IH]; intros s n; cbn [foldl]; [done|].
      destruct (StoreFacts.scan_file_cases files sha256 pearson analyse
                  extract_metadata s n p) as (db' & n' & -> & _).
      by rewrite IH. }
    by rewrite G. }
  split; [exact Hstored|]. split.
  - rewrite Hengine.
    eapply LibraryFacts.search_stored; [exact Hdb | exact Hv |].
    rewrite Hlen. discriminate.
  - eapply LibraryFacts.search_stored; [exact Hstored | exact Hv |].
    rewrite Hlen. discriminate.
Qed.

Lemma X14_scanned_library_finds_nothing_witness :
  SimilarityEngine.search_local (fun _ _ => NaN) (fun _ => 1)
    (SimilarityEngine.init (fun _ => ([], [])) (fun _ => 1)
       (App.db (App.handle_scan_library Samples.one_file (fun _ => "h")
                  (fun _ _ => NaN) Samples.analysed Samples.no_tags
                  {| App.db := empty_db;
                     App.similarity_engine :=
                       SimilarityEngine.init (fun _ => ([], []))
                         (fun _ => 1) empty_db |}
                  ["a.wav"]).1))
    Samples.sample_fingerprint 20 0.7 = [].
Proof.
  refine (proj2 (proj2 (X14_scanned_library_finds_nothing (fun _ _ => NaN)
            (fun _ => ([], [])) (fun _ => 1) Samples.one_file (fun _ => "h")
            (fun _ _ => NaN) Samples.analysed Samples.no_tags empty_db
            ["a.wav"] Samples.sample_fingerprint 20 0.7 _ _ _))).
  - constructor.
  - constructor; [right; reflexivity | constructor].
  - reflexivity.
Defined.

(** ** The hits of search_local *)

Module HitFacts.
Import SimilarityEngine Schema Laws.

Lemma descending_insert {A} (key : A -> Q) x l :
  descending key l -> descending key (insert_desc key x l).
Proof.
  induction l as [|y l IH]; cbn [insert_desc descending].
  - by split.
  - intros [Hy Hl].
    destruct (Qle_bool (key y) (key x)) eqn:E.
    + apply Qle_bool_iff in E. cbn [descending]. split; [|by split].
      constructor; [done|].
      eapply Forall_impl; [exact Hy|]. cbn. intros z Hz. lra.
    + assert (key x <= key y).
      { destruct (Qlt_le_dec (key x) (key y)) as [?|Hle]; [lra|].
        apply Qle_bool_iff in Hle. congruence. }
      cbn [descending]. split; [|by apply IH].
      by apply SearchFacts.Forall_insert_desc.
Qed.

Lemma descending_sort {A} (key : A -> Q) l : descending key (sort_desc key l).
Proof.
  unfold sort_desc. induction l as [|x l IH]; cbn [foldr]; [done|].
  by apply descending_insert.
Qed.

Lemma descending_take {A} (key : A -> Q) n l :
  descending key l -> descending key (take n l).
Proof.
  revert n. induction l as [|x l IH]; intros [|n]; cbn [take descending];
    try done.
  intros [Hx Hl]. split; [by apply Forall_take | by apply IH].
Qed.

Lemma length_insert_desc {A} (key : A -> Q) x l :
  length (insert_desc key x l) = S (length l).
Proof.
  induction l as [|y l IH]; cbn [insert_desc]; [done|].
  destruct (Qle_bool _ _); cbn [length]; [done | by rewrite IH].
Qed.

Lemma length_sort_desc {A} (key : A -> Q) l :
  length (sort_desc key l) = length l.
Proof.
  unfold sort_desc. induction l as [|x l IH]; cbn [foldr]; [done|].
  by rewrite length_insert_desc, IH.
Qed.

(** A list that is in descending order already is left as it is. *)
Lemma sort_desc_sorted {A} (key : A -> Q) l :
  descending key l -> sort_desc key l = l.
Proof.
  unfold sort_desc. induction l as [|x l IH]; cbn [foldr descending]; [done|].
  intros [Hx Hl]. rewrite IH by done.
  destruct l as [|y l]; [done|]. cbn [insert_desc].
  apply Forall_cons in Hx as [Hy _].
  apply Qle_bool_iff in Hy. by rewrite Hy.
Qed.

Lemma search_length ix query k found :
  search ix query k = Ok found -> length found = Z.to_nat k /\ (0 < k)%Z.
Proof.
  unfold search. destruct (negb _); [discriminate|].
  destruct (Z.leb_spec k 0); [discriminate|]. intros [= <-].
  split; [|lia]. rewrite length_app, length_replicate, length_take. lia.
Qed.

(** The places [search] fills with a row carry its position; the others
    carry [-FLT_MAX]. *)
Lemma search_places ix query k found :
  search ix query k = Ok found ->
  Forall (fun f => (0 <= f.2 < Z.of_nat (length (rows ix)))%Z
                   \/ f.1 = - FLT_MAX) found.
Proof.
  unfold search. destruct (negb _); [discriminate|].
  destruct (k <=? 0)%Z; [discriminate|]. intros [= <-].
  apply Forall_app. split.
  - apply Forall_take, SearchFacts.Forall_sort_desc.
    apply Forall_forall. intros [sim i] Hin.
    apply elem_of_lookup_imap in Hin as (j & row & [= -> ->] & Hj).
    apply lookup_lt_Some in Hj. left. simpl. lia.
  - apply Forall_replicate. by right.
Qed.

Lemma py_index_position {A} (l : list A) (i : Z) a :
  (0 <= i)%Z -> py_index l i = Ok a -> l !! Z.to_nat i = Some a.
Proof.
  intros Hi. unfold py_index.
  destruct (Z.ltb_spec i 0); [lia|].
  destruct (_ && _); [|discriminate].
  destruct (l !! Z.to_nat i); [|discriminate]. by intros [= ->].
Qed.

Section Collect.
Variable cosine_dist : list Q -> list Q -> npfloat.
Variable self : t.
Variable q : gmap string value.
Variable th : Q.
Variables (n : nat) (k : Z).
Hypothesis Hth : - FLT_MAX < th.

Local Abbreviation good := (hit_among cosine_dist q (indexed_songs self) n th k).

Lemma collect_all_good found :
  Forall (fun f => (0 <= f.2 < Z.of_nat n)%Z \/ f.1 = - FLT_MAX) found ->
  forall i results results',
    (Z.of_nat i + Z.of_nat (length found) <= k)%Z ->
    Forall good results ->
    collect_all cosine_dist self q th i found results = Ok results' ->
    Forall good results'
    /\ (length results' <= length results + length found)%nat.
Proof.
  induction 1 as [|[sim idx] found Hf Hfound IH];
    intros i results results' Hk Hres; cbn [collect_all].
  - intros [= <-]. split; [done | lia].
  - intros (r1 & Hr1 & Hrest)%bind_Ok. cbn [length] in Hk.
    destruct (IH (S i) r1 results') as [IH1 IH2]; [lia | | done |].
    + unfold collect in Hr1.
      destruct (Qle_bool th sim) eqn:E; [|by injection Hr1 as <-].
      apply Qle_bool_iff in E.
      apply bind_Ok in Hr1 as (sg & Hsg & [= <-]).
      apply Forall_app. split; [done|]. apply Forall_singleton.
      destruct Hf as [Hidx | Hpad]; cbn [fst snd] in *;
        [|rewrite Hpad in E; lra].
      exists (Z.to_nat idx), sg.
      split; [lia|]. split; [apply py_index_position; [lia | done]|].
      split; [done|]. split; [cbn; lia | reflexivity].
    + split; [done|].
      assert (length r1 <= S (length results))%nat; [|cbn [length]; lia].
      unfold collect in Hr1.
      destruct (Qle_bool th sim); [|injection Hr1 as <-; lia].
      apply bind_Ok in Hr1 as (sg & _ & [= <-]).
      rewrite length_app. cbn. lia.
Qed.

End Collect.

(** What [search_local] returns when its body goes through. *)
Lemma search_local_body_hits cd l2 self q mr th hits :
  - FLT_MAX < th ->
  search_local_body cd l2 self q mr th = Ok hits ->
  hits = [] \/
  exists ix,
    index self = Some ix
    /\ (0 < mr)%Z
    /\ (length hits <= Z.to_nat mr)%nat
    /\ (length hits <= length (indexed_songs self))%nat
    /\ descending similarity hits
    /\ Forall (hit_among cd q (indexed_songs self) (length (rows ix)) th
                 (mr * 2)) hits.
Proof.
  intros Hth. unfold search_local_body.
  destruct (index self) as [ix|] eqn:Hix; [|intros [= <-]; by left].
  destruct (indexed_songs self) as [|sg sgs] eqn:Hsongs;
    [intros [= <-]; by left|].
  rewrite <- Hsongs.
  intros (v1 & _ & (v2 & _ & (v3 & _ & H)%bind_Ok)%bind_Ok)%bind_Ok.
  apply bind_Ok in H as (found & Hfound & H).
  apply bind_Ok in H as (results & Hres & [= <-]).
  destruct (search_length _ _ _ _ Hfound) as [Hlen Hk].
  pose proof (search_places _ _ _ _ Hfound) as Hplaces.
  set (k := Z.min (mr * 2) (Z.of_nat (length (indexed_songs self)))) in *.
  destruct (collect_all_good cd self q th (length (rows ix)) (mr * 2) Hth
              found Hplaces 0%nat [] results) as [Hgood Hcount];
    [lia | constructor | done |].
  cbn [length] in Hcount.
  assert (Hmr : (0 < mr)%Z) by lia.
  right. exists ix. split; [done|]. split; [done|].
  unfold py_prefix. destruct (Z.ltb_spec mr 0); [lia|].
  split; [|split; [|split]].
  - rewrite length_take. lia.
  - rewrite length_take, length_sort_desc. lia.
  - apply descending_take, descending_sort.
  - by apply Forall_take, SearchFacts.Forall_sort_desc.
Qed.

Lemma py_prefix_is_take {A} (l : list A) n :
  exists k, py_prefix l n = take k l.
Proof. unfold py_prefix. destruct (n <? 0)%Z; eauto. Qed.

Lemma insert_desc_perm {A} (key : A -> Q) x l :
  insert_desc key x l ≡ₚ x :: l.
Proof.
  induction l as [|y l IH]; cbn [insert_desc]; [done|].
  destruct (Qle_bool _ _); [done|].
  rewrite IH. apply Permutation_swap.
Qed.

Lemma sort_desc_perm {A} (key : A -> Q) l : sort_desc key l ≡ₚ l.
Proof.
  unfold sort_desc. induction l as [|x l IH]; cbn [foldr]; [done|].
  by rewrite insert_desc_perm, IH.
Qed.

Lemma insert_desc_fmap {A B} (f : A -> B) (key : B -> Q) x l :
  insert_desc key (f x) (f <$> l)
  = f <$> insert_desc (fun a => key (f a)) x l.
Proof.
  induction l as [|y l IH]; [done|].
  rewrite fmap_cons. cbn [insert_desc].
  destruct (Qle_bool (key (f y)) (key (f x))); [done|].
  by rewrite IH, fmap_cons.
Qed.

Lemma sort_desc_fmap {A B} (f : A -> B) (key : B -> Q) l :
  sort_desc key (f <$> l) = f <$> sort_desc (fun a => key (f a)) l.
Proof.
  unfold sort_desc. induction l as [|x l IH]; [done|].
  rewrite fmap_cons. cbn [foldr]. by rewrite IH, insert_desc_fmap.
Qed.

Lemma omap_sublist {A B} (f : A -> option B) l1 l2 :
  l1 `sublist_of` l2 -> omap f l1 `sublist_of` omap f l2.
Proof.
  induction 1 as [|x l1 l2 _ IH|x l1 l2 _ IH]; [done| |].
  - unfold omap. cbn [list_omap]. fold (omap f l1) (omap f l2).
    destruct (f x); [by apply sublist_skip | done].
  - unfold omap at 2. cbn [list_omap]. fold (omap f l2).
    destruct (f x); [by apply sublist_cons | done].
Qed.

Lemma positions_of_numbers (l : list nat) :
  omap position (Z.of_nat <$> l) = l.
Proof.
  induction l as [|i l IH]; [done|].
  rewrite fmap_cons. unfold omap. cbn [list_omap].
  fold (omap position (Z.of_nat <$> l)). rewrite IH.
  unfold position. destruct (Z.leb_spec 0 (Z.of_nat i)); [|lia].
  by rewrite Nat2Z.id.
Qed.

Lemma positions_of_padding m :
  omap position (replicate m (-1)%Z) = [].
Proof. induction m as [|m IH]; [done|]. exact IH. Qed.

(** No row is named twice by [index.search]. *)
Lemma search_positions ix query k found :
  search ix query k = Ok found -> NoDup (positions_of found).
Proof.
  unfold search. destruct (negb _); [discriminate|].
  destruct (k <=? 0)%Z; [discriminate|]. intros [= <-].
  unfold positions_of.
  rewrite fmap_app, omap_app, fmap_replicate. cbn [snd].
  rewrite positions_of_padding, app_nil_r, fmap_take.
  eapply sublist_NoDup; [|apply omap_sublist, sublist_take].
  rewrite sort_desc_perm, fmap_imap.
  rewrite (imap_ext _ (fun j _ => Z.of_nat j)) by done.
  rewrite imap_seq_0, positions_of_numbers. apply NoDup_seq.
Qed.

Lemma positions_of_cons sim idx found :
  positions_of ((sim, idx) :: found)
  = match position idx with
    | Some i => i :: positions_of found
    | None => positions_of found
    end.
Proof. reflexivity. Qed.

Lemma Forall2_pairs {A B} (P : A -> B -> Prop) (l : list (A * B)) :
  Forall (fun x => P x.1 x.2) l -> Forall2 P l.*1 l.*2.
Proof. induction 1; csimpl; by constructor. Qed.

Section Positions.
Variable cosine_dist : list Q -> list Q -> npfloat.
Variable self : t.
Variable q : gmap string value.
Variable th : Q.
Variables (n : nat) (k : Z).
Hypothesis Hth : - FLT_MAX < th.

Local Abbreviation placed :=
  (fun hp : hit * nat =>
     hit_at cosine_dist q (indexed_songs self) n th k hp.1 hp.2).

(** The loop over what the index found, with the position every hit was
    made at. *)
Lemma collect_all_tagged found :
  Forall (fun f => (0 <= f.2 < Z.of_nat n)%Z \/ f.1 = - FLT_MAX) found ->
  forall i (tagged : list (hit * nat)) results',
    (Z.of_nat i + Z.of_nat (length found) <= k)%Z ->
    collect_all cosine_dist self q th i found tagged.*1 = Ok results' ->
    exists more,
      results' = (tagged ++ more).*1
      /\ Forall placed more
      /\ more.*2 `sublist_of` positions_of found.
Proof.
  induction 1 as [|[sim idx] found Hf Hfound IH];
    intros i tagged results' Hk; cbn [collect_all].
  - intros [= <-]. exists []. by rewrite app_nil_r.
  - intros (r1 & Hr1 & Hrest)%bind_Ok. cbn [length] in Hk.
    unfold collect in Hr1.
    destruct (Qle_bool th sim) eqn:E.
    + apply Qle_bool_iff in E.
      apply bind_Ok in Hr1 as (sg & Hsg & [= <-]).
      destruct Hf as [Hidx | Hpad]; cbn [fst snd] in *;
        [|rewrite Hpad in E; lra].
      set (h := {| hit_title := song_title sg |}) in *.
      destruct (IH (S i) (tagged ++ [(h, Z.to_nat idx)]) results')
        as (more & -> & Hmore & Hsub); [lia | by rewrite fmap_app|].
      exists ((h, Z.to_nat idx) :: more).
      split; [by rewrite <- app_assoc|]. split.
      * constructor; [|done]. cbn [fst snd]. split; [lia|].
        exists sg. split; [apply py_index_position; [lia | done]|].
        split; [done|]. split; [cbn; lia | reflexivity].
      * rewrite positions_of_cons. unfold position.
        destruct (Z.leb_spec 0 idx); [|lia].
        rewrite fmap_cons. by apply sublist_skip.
    + injection Hr1 as <-.
      destruct (IH (S i) tagged results') as (more & -> & Hmore & Hsub);
        [lia | done|].
      exists more. split; [done|]. split; [done|].
      rewrite positions_of_cons.
      destruct (position idx); [by apply sublist_cons | done].
Qed.

End Positions.

(** Every hit of a search that goes through was made at a row of its own. *)
Lemma search_local_body_positions cd l2 self q mr th hits :
  - FLT_MAX < th ->
  search_local_body cd l2 self q mr th = Ok hits ->
  exists positions,
    NoDup positions
    /\ Forall2 (hit_at cd q (indexed_songs self)
                  (length (default [] (rows <$> index self))) th (mr * 2))
               hits positions.
Proof.
  intros Hth. unfold search_local_body.
  destruct (index self) as [ix|] eqn:Hix;
    [|intros [= <-]; exists []; split; constructor].
  destruct (indexed_songs self) as [|sg sgs] eqn:Hsongs;
    [intros [= <-]; exists []; split; constructor|].
  rewrite <- Hsongs.
  intros (v1 & _ & (v2 & _ & (v3 & _ & H)%bind_Ok)%bind_Ok)%bind_Ok.
  apply bind_Ok in H as (found & Hfound & H).
  apply bind_Ok in H as (results & Hres & [= <-]).
  destruct (search_length _ _ _ _ Hfound) as [Hlen Hk].
  pose proof (search_places _ _ _ _ Hfound) as Hplaces.
  pose proof (search_positions _ _ _ _ Hfound) as Hnodup.
  destruct (collect_all_tagged cd self q th (length (rows ix)) (mr * 2) Hth
              found Hplaces 0%nat [] results)
    as (tagged & -> & Htagged & Hsub); [lia | done |].
  cbn [app].
  destruct (py_prefix_is_take
              (sort_desc similarity tagged.*1) mr) as [j ->].
  rewrite sort_desc_fmap, <- fmap_take.
  exists (take j (sort_desc (fun a : hit * nat => similarity a.1) tagged)).*2.
  cbn [fmap option_fmap option_map default from_option].
  split.
  - assert (N1 : NoDup tagged.*2) by (by eapply sublist_NoDup).
    assert (N2 : NoDup (sort_desc (fun a : hit * nat => similarity a.1)
                          tagged).*2)
      by (by rewrite sort_desc_perm).
    eapply sublist_NoDup; [exact N2|]. apply fmap_sublist, sublist_take.
  - apply Forall2_pairs, Forall_take, SearchFacts.Forall_sort_desc.
    exact Htagged.
Qed.

End HitFacts.

(** X15: what the hits of [search_local] are.  For a threshold above
    [-FLT_MAX], the list is in descending order of similarity and has at
    most [max_results] entries; every hit was made of an indexed song whose
    position is that of a row of the index, with a similarity of at least
    the threshold, the detailed score of the query against that song, and a
    rank between 1 and [2 * max_results]; and there is at most one hit per
    indexed song: the hits were made at pairwise different positions of
    [indexed_songs], so there are no more hits than indexed songs. *)
Theorem X15_search_hits
    (cosine_dist : list Q -> list Q -> npfloat) (l2_norm : list Q -> Q)
    (self : SimilarityEngine.t) (query_fingerprint : gmap string value)
    (max_results : Z) (threshold : Q) :
  - SimilarityEngine.FLT_MAX < threshold ->
  let hits := SimilarityEngine.search_local cosine_dist l2_norm self
                query_fingerprint max_results threshold in
  (length hits <= Z.to_nat max_results)%nat
  /\ (length hits <= length (SimilarityEngine.indexed_songs self))%nat
  /\ Laws.descending SimilarityEngine.similarity hits
  /\ Forall (Laws.hit_among cosine_dist query_fingerprint
               (SimilarityEngine.indexed_songs self)
               (length (default [] (SimilarityEngine.rows
                                     <$> SimilarityEngine.index self)))
               threshold (max_results * 2)) hits
  /\ (exists positions,
        NoDup positions
        /\ Forall2 (Laws.hit_at cosine_dist query_fingerprint
                      (SimilarityEngine.indexed_songs self)
                      (length (default [] (SimilarityEngine.rows
                                            <$> SimilarityEngine.index self)))
                      threshold (max_results * 2)) hits positions).
Proof.
  intros Hth hits. subst hits. unfold SimilarityEngine.search_local.
  destruct (SimilarityEngine.search_local_body _ _ _ _ _ _) as [hits|e] eqn:E;
    cbn [try_except].
  - destruct (HitFacts.search_local_body_positions _ _ _ _ _ _ _ Hth E)
      as (positions & Hnodup & Hat).
    destruct (HitFacts.search_local_body_hits _ _ _ _ _ _ _ Hth E)
      as [-> | (ix & Hix & _ & H1 & H2 & H3 & H4)].
    + cbn. split; [lia|]. split; [lia|]. split; [done|]. split; [done|].
      exists []. split; constructor.
    + split; [done|]. split; [done|]. split; [done|]. split.
      * rewrite Hix.
        cbn [fmap option_fmap option_map default from_option]. done.
      * by exists positions.
  - cbn. split; [lia|]. split; [lia|]. split; [done|]. split; [done|].
    exists []. split; constructor.
Qed.

Lemma X15_search_hits_witness :
  exists positions,
    NoDup positions
    /\ Forall2 (Laws.hit_at (fun _ _ => NaN)
                  (SimilarityEngine._parse_fingerprint Samples.sample_document)
                  (SimilarityEngine.indexed_songs Samples.one_song_engine)
                  1 0 (20 * 2))
         (SimilarityEngine.search_local (fun _ _ => NaN) (fun _ => 1)
            Samples.one_song_engine
            (SimilarityEngine._parse_fingerprint Samples.sample_document)
            20 0)
         positions.
Proof.
  refine (proj2 (proj2 (proj2 (proj2 (X15_search_hits (fun _ _ => NaN)
            (fun _ => 1) Samples.one_song_engine
            (SimilarityEngine._parse_fingerprint Samples.sample_document)
            20 0 _))))).
  reflexivity.
Defined.

(** X16: a song added between two rebuilds is not found by a search whose
    threshold is above [-FLT_MAX].  On an engine whose index has one row
    per indexed song, [add_song_to_index] (when the new count is no
    multiple of 100) appends the song to [indexed_songs] only, so for such
    a threshold every hit of a later [search_local] was made of a song that
    was indexed before the call: no row label reaches the position of the
    new song.  (The threshold matters: the places faiss pads carry the
    similarity [-FLT_MAX] and the label -1, which Python reads as the last
    song; a threshold above [-FLT_MAX] drops them.) *)
Theorem X16_added_song_is_not_found
    (cosine_dist : list Q -> list Q -> npfloat)
    (fit_stats : list (list Q) -> list Q * list Q) (l2_norm : list Q -> Q)
    (self : SimilarityEngine.t) (db : database) (song_data : song_row)
    (query_fingerprint : gmap string value) (max_results : Z)
    (threshold : Q) :
  Laws.aligned self ->
  - SimilarityEngine.FLT_MAX < threshold ->
  ((Z.of_nat (length (SimilarityEngine.indexed_songs self)) + 1) mod 100
   <> 0)%Z ->
  Forall (Laws.hit_among cosine_dist query_fingerprint
            (SimilarityEngine.indexed_songs self)
            (length (SimilarityEngine.indexed_songs self))
            threshold (max_results * 2))
    (SimilarityEngine.search_local cosine_dist l2_norm
       (SimilarityEngine.add_song_to_index fit_stats l2_norm self db
          song_data)
       query_fingerprint max_results threshold).
Proof.
  intros (ix & Hix & Hrows) Hth Hmod.
  set (self' := SimilarityEngine.add_song_to_index fit_stats l2_norm self db
                  song_data).
  assert (Hadd : SimilarityEngine.index self' = Some ix
                 /\ exists extra,
                      SimilarityEngine.indexed_songs self'
                      = SimilarityEngine.indexed_songs self ++ extra).
  { subst self'. unfold SimilarityEngine.add_song_to_index.
    destruct (SimilarityEngine.json_loads _) as [doc|e];
      cbn [mbind result_bind try_except];
      [|split; [done|]; exists []; by rewrite app_nil_r].
    destruct (AudioFingerprinter.create_feature_vector _ _) as [v|e];
      cbn [mbind result_bind try_except];
      [|split; [done|]; exists []; by rewrite app_nil_r].
    cbn [SimilarityEngine.indexed_songs].
    rewrite length_app. cbn [length].
    replace (Z.of_nat (length (SimilarityEngine.indexed_songs self) + 1))
      with (Z.of_nat (length (SimilarityEngine.indexed_songs self)) + 1)%Z
      by lia.
    destruct (Z.eqb_spec
                ((Z.of_nat (length (SimilarityEngine.indexed_songs self)) + 1)
                 mod 100) 0); [done|].
    cbn [try_except SimilarityEngine.index SimilarityEngine.indexed_songs].
    split; [done|]. eauto. }
  destruct Hadd as [Hix' [extra Hsongs]].
  unfold SimilarityEngine.search_local.
  destruct (SimilarityEngine.search_local_body _ _ _ _ _ _) as [hits|e] eqn:E;
    cbn [try_except]; [|constructor].
  destruct (HitFacts.search_local_body_hits _ _ _ _ _ _ _ Hth E)
    as [-> | (ix' & Hix'' & _ & _ & _ & _ & Hhits)]; [constructor|].
  rewrite Hix' in Hix''. injection Hix'' as <-.
  eapply Forall_impl; [exact Hhits|].
  intros h (i & sg & Hi & Hsg & Hrest).
  exists i, sg. split; [lia|]. split; [|exact Hrest].
  rewrite Hsongs in Hsg. rewrite lookup_app_l in Hsg by lia. exact Hsg.
Qed.

Lemma X16_added_song_is_not_found_witness :
  Forall (Laws.hit_among (fun _ _ => NaN)
            (SimilarityEngine._parse_fingerprint Samples.sample_document)
            (SimilarityEngine.indexed_songs Samples.one_song_engine)
            1 0 (20 * 2))
    (SimilarityEngine.search_local (fun _ _ => NaN) (fun _ => 1)
       (SimilarityEngine.add_song_to_index (fun _ => ([], [])) (fun _ => 1)
          Samples.one_song_engine Laws.two_rows
          (Samples.sample_row 2 "b.wav" "h2"))
       (SimilarityEngine._parse_fingerprint Samples.sample_document) 20 0).
Proof.
  apply (X16_added_song_is_not_found (fun _ _ => NaN) (fun _ => ([], []))
           (fun _ => 1) Samples.one_song_engine Laws.two_rows
           (Samples.sample_row 2 "b.wav" "h2")
           (SimilarityEngine._parse_fingerprint Samples.sample_document)
           20 0).
  - eexists. split; reflexivity.
  - reflexivity.
  - discriminate.
Defined.

(** ** More on the scorer *)

Module ScoreLaws.
Import SimilarityEngine Schema Laws.

Lemma py_min_Qmin a b : py_min a b == Qmin a b.
Proof.
  unfold py_min. ScoreFacts.case_ltb.
  - symmetry. apply Q.min_r. lra.
  - symmetry. by apply Q.min_l.
Qed.

Lemma energy_ratio_sym a b :
  py_min a b / py_max a b == py_min b a / py_max b a.
Proof.
  rewrite !py_min_Qmin, !ScoreFacts.py_max_Qmax.
  by rewrite (Q.min_comm a b), (Q.max_comm a b).
Qed.

Lemma tempo_score_sym q t : tempo_score q t == tempo_score t q.
Proof.
  unfold tempo_score. rewrite !ScoreFacts.tempo_formula_eq.
  apply ScoreFacts.tempo_formula_sym.
Qed.

Lemma energy_score_sym q t : energy_score q t == energy_score t q.
Proof.
  unfold energy_score. rewrite (andb_comm (Qltb 0 (energy_of q))).
  destruct (_ && _); [apply energy_ratio_sym | reflexivity].
Qed.

Lemma key_score_sym q t : key_score q t = key_score t q.
Proof.
  unfold key_score.
  rewrite (andb_comm (negb (bool_decide (key_of q = "Unknown")))).
  destruct (_ && _); [|done].
  destruct (decide (key_of q = key_of t)) as [E|E].
  - by rewrite !bool_decide_eq_true_2.
  - by rewrite !bool_decide_eq_false_2.
Qed.

Lemma cosine_score_sym cd f q t :
  (forall u v, cd u v = cd v u) ->
  cosine_score cd f q t = cosine_score cd f t q.
Proof.
  intros Hcd. unfold cosine_score.
  destruct (q !! f), (t !! f); try done. by rewrite Hcd.
Qed.

Lemma weighted_sum_formula cd q t :
  weighted_sum (five_channels cd q t)
  == 0.3 * default 0 (cosine_score cd "mfcc" q t)
     + 0.25 * default 0 (cosine_score cd "chroma" q t)
     + 0.2 * tempo_score q t + 0.15 * energy_score q t
     + 0.1 * key_score q t.
Proof. rewrite ScoreFacts.weighted_sum_five. ring. Qed.

(** Any channel of the score of two scorable fingerprints. *)
Lemma score_lookup cd q t name :
  scorable q = true -> scorable t = true ->
  _calculate_detailed_similarity cd q t !! name
  = if decide (name = "overall")
    then Some (weighted_sum (five_channels cd q t))
    else if decide (name = "key") then Some (key_score q t)
    else if decide (name = "energy") then Some (energy_score q t)
    else if decide (name = "tempo") then Some (tempo_score q t)
    else if decide (name = "chroma") then cosine_score cd "chroma" q t
    else if decide (name = "mfcc") then cosine_score cd "mfcc" q t
    else None.
Proof.
  intros Hq Ht. rewrite (ScoreFacts.score_scorable cd q t Hq Ht).
  destruct (ScoreFacts.five_channels_lookup cd q t)
    as (E1 & E2 & E3 & E4 & E5 & _).
  case_decide as H0; [subst; by rewrite lookup_insert_eq|].
  rewrite lookup_insert_ne by done.
  case_decide as H1; [by subst|].
  case_decide as H2; [by subst|].
  case_decide as H3; [by subst|].
  case_decide as H4; [by subst|].
  case_decide as H5; [by subst|].
  unfold five_channels. rewrite !lookup_insert_ne by done.
  rewrite !ScoreFacts.lookup_insert_if_ne by done. apply lookup_empty.
Qed.

(** What a channel that goes through adds. *)
Lemma cosine_channel_adds cd f q t (s s' : gmap string Q) :
  cosine_channel cd f q t s = Ok s' ->
  s' = s \/ exists x, s' = <[f := x]> s.
Proof.
  unfold cosine_channel.
  destruct (q !! f); [|intros [= <-]; by left].
  destruct (t !! f); [|intros [= <-]; by left].
  intros (dist & _ & [= <-])%bind_Ok. right. eauto.
Qed.

Lemma tempo_channel_adds q t (s s' : gmap string Q) :
  tempo_channel q t s = Ok s' -> exists x, s' = <["tempo" := x]> s.
Proof.
  unfold tempo_channel.
  intros (a & _ & (b & _ & [= <-])%bind_Ok)%bind_Ok. eauto.
Qed.

Lemma energy_channel_adds q t (s s' : gmap string Q) :
  energy_channel q t s = Ok s' -> exists x, s' = <["energy" := x]> s.
Proof.
  unfold energy_channel.
  intros (a & _ & (both & _ & H)%bind_Ok)%bind_Ok.
  destruct both.
  - apply bind_Ok in H as (b & _ & [= <-]). eauto.
  - injection H as <-. eauto.
Qed.

Lemma key_channel_adds q t (s s' : gmap string Q) :
  key_channel q t s = Ok s' -> exists x, s' = <["key" := x]> s.
Proof.
  unfold key_channel.
  intros (known & _ & (both & _ & H)%bind_Ok)%bind_Ok.
  destruct both.
  - apply bind_Ok in H as (same & _ & [= <-]). eauto.
  - injection H as <-. eauto.
Qed.

Lemma weighted_sum_overall (s : gmap string Q) :
  weighted_sum s == overall_formula (<["overall" := weighted_sum s]> s).
Proof.
  unfold overall_formula. rewrite !lookup_insert_ne by done.
  unfold weighted_sum, weights. cbn [foldl fst snd]. ring.
Qed.

End ScoreLaws.

(** X17: the score is symmetric.  For a cosine distance that does not
    depend on the order of its arguments and two fingerprints whose fields
    hold what the schema says, scoring the query against the target gives
    the same channels with the same values as scoring the target against
    the query. *)
Theorem X17_score_symmetric
    (cosine_dist : list Q -> list Q -> npfloat)
    (q t : gmap string value) :
  (forall u v, cosine_dist u v = cosine_dist v u) ->
  Schema.scorable q = true -> Schema.scorable t = true ->
  Laws.same_scores
    (SimilarityEngine._calculate_detailed_similarity cosine_dist q t)
    (SimilarityEngine._calculate_detailed_similarity cosine_dist t q).
Proof.
  intros Hcd Hq Ht name.
  rewrite (ScoreLaws.score_lookup cosine_dist q t name Hq Ht).
  rewrite (ScoreLaws.score_lookup cosine_dist t q name Ht Hq).
  pose proof (ScoreLaws.cosine_score_sym cosine_dist "mfcc" q t Hcd) as Em.
  pose proof (ScoreLaws.cosine_score_sym cosine_dist "chroma" q t Hcd) as Ec.
  repeat case_decide.
  - constructor. rewrite !ScoreLaws.weighted_sum_formula, Em, Ec.
    rewrite (ScoreLaws.tempo_score_sym q t), (ScoreLaws.energy_score_sym q t).
    rewrite (ScoreLaws.key_score_sym q t). reflexivity.
  - constructor. by rewrite ScoreLaws.key_score_sym.
  - constructor. apply ScoreLaws.energy_score_sym.
  - constructor. apply ScoreLaws.tempo_score_sym.
  - rewrite Ec.
    generalize (Schema.cosine_score cosine_dist "chroma" t q).
    intros [x|]; constructor; reflexivity.
  - rewrite Em.
    generalize (Schema.cosine_score cosine_dist "mfcc" t q).
    intros [x|]; constructor; reflexivity.
  - constructor.
Qed.

Lemma X17_score_symmetric_witness :
  Laws.same_scores
    (SimilarityEngine._calculate_detailed_similarity (fun _ _ => NaN)
       Samples.c_major_fingerprint Samples.bare_fingerprint)
    (SimilarityEngine._calculate_detailed_similarity (fun _ _ => NaN)
       Samples.bare_fingerprint Samples.c_major_fingerprint).
Proof.
  apply X17_score_symmetric; reflexivity.
Defined.

(** X18: a fingerprint scored against itself.  For a fingerprint whose
    fields hold what the schema says, the tempo channel is 1; the energy
    channel is 1 when the energy is positive and 0.5 otherwise; the key
    channel is 1 when the key is known and 0.5 for "Unknown" or no key.
    The overall score is 1 only when, besides, both vectors are present
    with cosine distance 0 to themselves. *)
Theorem X18_self_score
    (cosine_dist : list Q -> list Q -> npfloat) (q : gmap string value) :
  Schema.scorable q = true ->
  let score :=
    SimilarityEngine._calculate_detailed_similarity cosine_dist q q in
  Schema.channel_is score "tempo" 1
  /\ Schema.channel_is score "energy"
       (if Qltb 0 (Schema.energy_of q) then 1 else 0.5)
  /\ Schema.channel_is score "key"
       (if bool_decide (Schema.key_of q = "Unknown") then 0.5 else 1)
  /\ (is_Some (q !! "mfcc") -> is_Some (q !! "chroma") ->
      cosine_dist (Schema.vector_at q "mfcc") (Schema.vector_at q "mfcc")
        = Fin 0 ->
      cosine_dist (Schema.vector_at q "chroma") (Schema.vector_at q "chroma")
        = Fin 0 ->
      0 < Schema.energy_of q -> Schema.key_of q <> "Unknown" ->
      Schema.channel_is score "overall" 1).
Proof.
  intros Hq score. subst score.
  assert (Et : Schema.tempo_score q q == 1).
  { unfold Schema.tempo_score. rewrite ScoreFacts.tempo_formula_eq.
    apply ScoreFacts.tempo_formula_same. }
  assert (Ee : Schema.energy_score q q
               == if Qltb 0 (Schema.energy_of q) then 1 else 0.5).
  { unfold Schema.energy_score.
    destruct (Qltb 0 (Schema.energy_of q)) eqn:E; cbn [andb]; [|reflexivity].
    apply ScoreFacts.Qltb_true in E.
    unfold py_min, py_max. ScoreFacts.case_ltb; try lra; field; lra. }
  assert (Ek : Schema.key_score q q
               == if bool_decide (Schema.key_of q = "Unknown") then 0.5 else 1).
  { unfold Schema.key_score.
    destruct (bool_decide (Schema.key_of q = "Unknown")); cbn [negb andb];
      [reflexivity|].
    rewrite bool_decide_eq_true_2 by done. reflexivity. }
  split; [|split; [|split]].
  - eexists. split; [|exact Et].
    by rewrite (ScoreLaws.score_lookup cosine_dist q q "tempo" Hq Hq).
  - eexists. split; [|exact Ee].
    by rewrite (ScoreLaws.score_lookup cosine_dist q q "energy" Hq Hq).
  - eexists. split; [|exact Ek].
    by rewrite (ScoreLaws.score_lookup cosine_dist q q "key" Hq Hq).
  - intros [m Hm] [c Hc] Dm Dc He Hk. eexists. split.
    + by rewrite (ScoreLaws.score_lookup cosine_dist q q "overall" Hq Hq).
    + rewrite ScoreLaws.weighted_sum_formula, Et, Ee, Ek.
      unfold Schema.cosine_score. rewrite Hm, Hc, Dm, Dc.
      apply ScoreFacts.Qltb_true in He. rewrite He.
      rewrite bool_decide_eq_false_2 by done.
      vm_compute. reflexivity.
Qed.

Lemma X18_self_score_witness :
  Schema.channel_is
    (SimilarityEngine._calculate_detailed_similarity Laws.exact
       (SimilarityEngine._parse_fingerprint Samples.sample_document)
       (SimilarityEngine._parse_fingerprint Samples.sample_document))
    "overall" 1.
Proof.
  apply (X18_self_score Laws.exact
           (SimilarityEngine._parse_fingerprint Samples.sample_document));
    try reflexivity.
  - eexists. reflexivity.
  - eexists. reflexivity.
  - discriminate.
Defined.

(** X19: the score is all or nothing.  Whatever the two fingerprints hold,
    the result is either exactly [{'overall': 0.0}], the channels computed
    before an exception being dropped, or it has the channels tempo, energy
    and key, and its overall channel is the weighted sum
    0.3 mfcc + 0.25 chroma + 0.2 tempo + 0.15 energy + 0.1 key of its other
    channels, an absent mfcc or chroma channel counting 0. *)
Theorem X19_score_all_or_nothing
    (cosine_dist : list Q -> list Q -> npfloat)
    (q t : gmap string value) :
  let score :=
    SimilarityEngine._calculate_detailed_similarity cosine_dist q t in
  score = {["overall" := 0.0]}
  \/ (is_Some (score !! "tempo") /\ is_Some (score !! "energy")
      /\ is_Some (score !! "key")
      /\ exists o, score !! "overall" = Some o
                   /\ o == Laws.overall_formula score).
Proof.
  intros score. subst score.
  unfold SimilarityEngine._calculate_detailed_similarity.
  destruct (SimilarityEngine.detailed_similarity_body cosine_dist q t)
    as [s|e] eqn:E; cbn [try_except]; [|by left].
  right. unfold SimilarityEngine.detailed_similarity_body in E.
  apply bind_Ok in E as (s1 & _ & E). apply bind_Ok in E as (s2 & _ & E).
  apply bind_Ok in E as (s3 & H3 & E). apply bind_Ok in E as (s4 & H4 & E).
  apply bind_Ok in E as (s5 & H5 & [= <-]).
  apply ScoreLaws.tempo_channel_adds in H3 as [x3 ->].
  apply ScoreLaws.energy_channel_adds in H4 as [x4 ->].
  apply ScoreLaws.key_channel_adds in H5 as [x5 ->].
  split; [|split; [|split]].
  - rewrite !lookup_insert_ne by done. rewrite lookup_insert_eq. eauto.
  - rewrite !lookup_insert_ne by done. rewrite lookup_insert_eq. eauto.
  - rewrite lookup_insert_ne by done. rewrite lookup_insert_eq. eauto.
  - eexists. split; [apply lookup_insert_eq|].
    apply ScoreLaws.weighted_sum_overall.
Qed.

(** X20: one unusable field voids the whole score.  When both fingerprints
    have an mfcc (or chroma) field and the two are vectors of different
    lengths, or are not vectors, [cosine] raises and the result is exactly
    [{'overall': 0.0}]: no tempo, energy or key channel is returned. *)
Theorem X20_mismatched_vectors_score_zero
    (cosine_dist : list Q -> list Q -> npfloat)
    (q t : gmap string value) (f : string) (u v : value) :
  f = "mfcc" \/ f = "chroma" ->
  q !! f = Some u -> t !! f = Some v ->
  (forall xs ys, as_vector u = Some xs -> as_vector v = Some ys ->
                 length xs <> length ys) ->
  SimilarityEngine._calculate_detailed_similarity cosine_dist q t
  = {["overall" := 0.0]}.
Proof.
  intros Hf Hu Hv Hne.
  assert (Hraise : forall s,
            SimilarityEngine.cosine_channel cosine_dist f q t s
            = Raise ValueError).
  { intros s. unfold SimilarityEngine.cosine_channel, SimilarityEngine.cosine.
    rewrite Hu, Hv.
    destruct (as_vector u) as [xs|]; [|done].
    destruct (as_vector v) as [ys|]; [|done].
    by rewrite decide_False by (by apply Hne). }
  unfold SimilarityEngine._calculate_detailed_similarity,
    SimilarityEngine.detailed_similarity_body.
  destruct Hf as [-> | ->].
  - by rewrite Hraise.
  - destruct (SimilarityEngine.cosine_channel cosine_dist "mfcc" q t ∅)
      as [s1|e]; [|done].
    cbn [mbind result_bind]. by rewrite Hraise.
Qed.

Lemma X20_mismatched_vectors_score_zero_witness :
  SimilarityEngine._calculate_detailed_similarity (fun _ _ => NaN)
    (<["mfcc" := NdArray (replicate 20 1)]> Samples.c_major_fingerprint)
    Samples.c_major_fingerprint
  = {["overall" := 0.0]}.
Proof.
  apply (X20_mismatched_vectors_score_zero (fun _ _ => NaN) _ _ "mfcc"
           (NdArray (replicate 20 1)) (NdArray (replicate 13 0)));
    [by left | reflexivity | reflexivity |].
  intros xs ys [= <-] [= <-]. discriminate.
Defined.

(** ** _convert_to_spotify_features *)

Module SpotifyFacts.
Import ExternalAPIManager Laws.

Lemma number_numeric fp f dflt :
  numeric fp f ->
  exists x, SimilarityEngine.number (default (PyFloat dflt) (fp !! f)) = Ok x.
Proof.
  intros H. unfold SimilarityEngine.number, numeric in *.
  destruct (fp !! f) as [v|]; simpl; [|eauto].
  destruct (H v eq_refl) as [x Hx]. rewrite Hx. eauto.
Qed.

Lemma features_valence tempo energy valence valence' :
  <["valence" := valence']> (spotify_features_of tempo energy valence)
  = spotify_features_of tempo energy valence'.
Proof. reflexivity. Qed.

(** The body, for a fingerprint whose tempo and energy are numbers. *)
Lemma convert_body_numeric fp :
  numeric fp "tempo" -> numeric fp "energy" ->
  exists tempo energy,
    convert_body fp
    = match fp !! "key" with
      | Some (PyStr key) =>
          Ok (spotify_features_of tempo energy (valence_for key))
      | Some _ => Raise AttributeError
      | None => Ok (spotify_features_of tempo energy 0.5)
      end.
Proof.
  intros Ht He.
  destruct (number_numeric fp "tempo" 120 Ht) as [tempo Etempo].
  destruct (number_numeric fp "energy" 0.5 He) as [energy Eenergy].
  exists tempo, energy. unfold convert_body.
  rewrite Etempo, Eenergy. cbn [mbind result_bind].
  fold (spotify_features_of tempo energy 0.5).
  destruct (fp !! "key") as [[| | | | | |key]|]; try reflexivity.
  cbn [lower_of mbind result_bind]. unfold valence_for.
  destruct (occurs "minor" (lower key));
    [by rewrite features_valence|].
  destruct (occurs "major" (lower key));
    [by rewrite features_valence | done].
Qed.

(** Every outcome of the conversion. *)
Lemma convert_cases fp :
  _convert_to_spotify_features fp = fallback_features
  \/ exists tempo energy valence,
       valence ∈ [0.3; 0.5; 0.7]
       /\ _convert_to_spotify_features fp
          = spotify_features_of tempo energy valence.
Proof.
  unfold _convert_to_spotify_features, convert_body.
  destruct (SimilarityEngine.number (default (PyFloat 120) (fp !! "tempo")))
    as [tempo|e]; [|left; reflexivity].
  cbn [mbind result_bind].
  destruct (SimilarityEngine.number (default (PyFloat 0.5) (fp !! "energy")))
    as [energy|e]; [|left; reflexivity].
  cbn [mbind result_bind].
  fold (spotify_features_of tempo energy 0.5).
  destruct (fp !! "key") as [v|].
  - destruct (lower_of v) as [lowered|e]; [|left; reflexivity].
    cbn [mbind result_bind].
    destruct (occurs "minor" lowered); cbn [try_except].
    + right. exists tempo, energy, 0.3. rewrite features_valence.
      split; [left | done].
    + destruct (occurs "major" lowered); cbn [try_except].
      * right. exists tempo, energy, 0.7. rewrite features_valence.
        split; [right; right; left | done].
      * right. exists tempo, energy, 0.5.
        split; [right; left | done].
  - right. exists tempo, energy, 0.5.
    split; [right; left | done].
Qed.

Lemma clamp_range lo hi x : lo <= hi -> lo <= py_max lo (py_min hi x) <= hi.
Proof. intros. unfold py_max, py_min. ScoreFacts.case_ltb; lra. Qed.

Lemma estimated_label pearson self chroma :
  AudioFingerprinter.estimate_key pearson self chroma ∈ key_labels.
Proof.
  destruct (decide (length chroma = 12%nat)) as [Hc|Hc].
  - rewrite (KeyLaws.estimate_key_fold pearson self chroma Hc).
    destruct (KeyLaws.foldl_step_spec (correlations pearson chroma)
                (-1) "C") as [[-> _] | (l1 & c & l2 & Hl & _)].
    + by refine (bool_decide_unpack _ _).
    + set (k := (foldl step (-1, "C") (correlations pearson chroma)).2) in *.
      assert (Hin : (Fin c, k) ∈ correlations pearson chroma).
      { rewrite Hl. apply elem_of_app. right. left. }
      unfold correlations in Hin.
      apply list_elem_of_fmap in Hin as ([profile label] & [= _ ->] & Hcand).
      assert (Hall : Forall (fun c => c.2 ∈ key_labels) candidates).
      { refine (bool_decide_unpack _ _). vm_compute. exact I. }
      rewrite Forall_forall in Hall. exact (Hall _ Hcand).
  - unfold AudioFingerprinter.estimate_key,
      AudioFingerprinter.estimate_key_body.
    cbn [seq AudioFingerprinter.key_rounds].
    rewrite KeyLaws.key_round_raises by (by rewrite !length_fmap).
    by refine (bool_decide_unpack _ _).
Qed.

(** The valence of each of the 26 labels. *)
Lemma label_valence :
  Forall (fun key =>
            (exists n, n ∈ AudioFingerprinter.key_names
                       /\ key = n +:+ " major" /\ valence_for key = 0.7)
            \/ (exists n, n ∈ AudioFingerprinter.key_names
                          /\ key = n +:+ " minor" /\ valence_for key = 0.3)
            \/ ((key = "C" \/ key = "Unknown") /\ valence_for key = 0.5))
         key_labels.
Proof.
  unfold key_labels, AudioFingerprinter.key_names.
  cbn [flat_map app].
  repeat (apply Forall_cons; split;
          [first
             [ right; right; split; [by left | reflexivity]
             | right; right; split; [by right | reflexivity]
             | left; eexists; split; [|split; [reflexivity | reflexivity]];
               by refine (bool_decide_unpack _ _)
             | right; left; eexists;
               split; [|split; [reflexivity | reflexivity]];
               by refine (bool_decide_unpack _ _) ] |]).
  constructor.
Qed.

End SpotifyFacts.

(** X21: what [_convert_to_spotify_features] returns.  For every
    fingerprint the dictionary has exactly the nine Spotify keys; the tempo
    lies in [60, 200], energy and danceability in [0, 1], the valence is
    0.3, 0.5 or 0.7, and the five other entries are the constants 0.5, 0.7,
    0.1, -10 and 0.1.  This covers the dictionary of the [except] branch
    too. *)
Theorem X21_spotify_features_range (fingerprint_data : gmap string value) :
  let features :=
    ExternalAPIManager._convert_to_spotify_features fingerprint_data in
  dom features = list_to_set Laws.spotify_keys
  /\ (exists tempo energy danceability valence,
        features !! "tempo" = Some tempo /\ 60 <= tempo <= 200
        /\ features !! "energy" = Some energy /\ 0 <= energy <= 1
        /\ features !! "danceability" = Some danceability
        /\ 0 <= danceability <= 1
        /\ features !! "valence" = Some valence
        /\ valence ∈ [0.3; 0.5; 0.7])
  /\ features !! "acousticness" = Some 0.5
  /\ features !! "instrumentalness" = Some 0.7
  /\ features !! "liveness" = Some 0.1
  /\ features !! "loudness" = Some (-10)
  /\ features !! "speechiness" = Some 0.1.
Proof.
  intros features. subst features.
  destruct (SpotifyFacts.convert_cases fingerprint_data)
    as [-> | (tempo & energy & valence & Hv & ->)].
  - split; [by refine (bool_decide_unpack _ _)|].
    split; [|by repeat split].
    exists 120, 0.5, 0.5, 0.5.
    split; [reflexivity|]. split; [lra|]. split; [reflexivity|].
    split; [lra|]. split; [reflexivity|]. split; [lra|].
    split; [reflexivity|]. right. left.
  - split.
    + unfold Laws.spotify_features_of. rewrite dom_list_to_map_L.
      reflexivity.
    + split; [|by repeat split].
      eexists _, _, _, valence.
      split; [reflexivity|]. split; [apply SpotifyFacts.clamp_range; lra|].
      split; [reflexivity|]. split; [apply SpotifyFacts.clamp_range; lra|].
      split; [reflexivity|]. split; [apply SpotifyFacts.clamp_range; lra|].
      split; [reflexivity | exact Hv].
Qed.

(** X22: the valence follows the mode of the estimated key.  When the key
    of the fingerprint is what [estimate_key] returned and its tempo and
    energy are numbers, the valence is 0.7 for the twelve major labels, 0.3
    for the twelve minor labels, and the neutral 0.5 for the two labels
    without a mode, "C" and "Unknown"; there is no other label. *)
Theorem X22_valence_of_estimated_key
    (pearson : list Q -> list Q -> npfloat) (self : AudioFingerprinter.t)
    (chroma : list (list Q)) (fingerprint_data : gmap string value) :
  let key := AudioFingerprinter.estimate_key pearson self chroma in
  fingerprint_data !! "key" = Some (PyStr key) ->
  Laws.numeric fingerprint_data "tempo" ->
  Laws.numeric fingerprint_data "energy" ->
  exists valence,
    ExternalAPIManager._convert_to_spotify_features fingerprint_data
      !! "valence" = Some valence
    /\ ((exists n, n ∈ AudioFingerprinter.key_names
                   /\ key = n +:+ " major" /\ valence = 0.7)
        \/ (exists n, n ∈ AudioFingerprinter.key_names
                      /\ key = n +:+ " minor" /\ valence = 0.3)
        \/ ((key = "C" \/ key = "Unknown") /\ valence = 0.5)).
Proof.
  intros key Hkey Ht He.
  destruct (SpotifyFacts.convert_body_numeric fingerprint_data Ht He)
    as (tempo & energy & E).
  rewrite Hkey in E.
  exists (Laws.valence_for key). split.
  - unfold ExternalAPIManager._convert_to_spotify_features. by rewrite E.
  - pose proof SpotifyFacts.label_valence as Hall.
    rewrite Forall_forall in Hall.
    apply Hall, SpotifyFacts.estimated_label.
Qed.

Lemma X22_valence_of_estimated_key_witness :
  exists valence,
    ExternalAPIManager._convert_to_spotify_features
      (<["key" := PyStr (AudioFingerprinter.estimate_key (fun _ _ => NaN)
                           AudioFingerprinter.init (replicate 12 [1; 1]))]>
         Samples.bare_fingerprint) !! "valence" = Some valence
    /\ ((exists n, n ∈ AudioFingerprinter.key_names
                   /\ AudioFingerprinter.estimate_key (fun _ _ => NaN)
                        AudioFingerprinter.init (replicate 12 [1; 1])
                      = n +:+ " major" /\ valence = 0.7)
        \/ (exists n, n ∈ AudioFingerprinter.key_names
                      /\ AudioFingerprinter.estimate_key (fun _ _ => NaN)
                           AudioFingerprinter.init (replicate 12 [1; 1])
                         = n +:+ " minor" /\ valence = 0.3)
        \/ ((AudioFingerprinter.estimate_key (fun _ _ => NaN)
               AudioFingerprinter.init (replicate 12 [1; 1]) = "C"
             \/ AudioFingerprinter.estimate_key (fun _ _ => NaN)
                  AudioFingerprinter.init (replicate 12 [1; 1]) = "Unknown")
            /\ valence = 0.5)).
Proof.
  apply (X22_valence_of_estimated_key (fun _ _ => NaN)
           AudioFingerprinter.init (replicate 12 [1; 1])).
  - reflexivity.
  - intros v [= <-]. eexists. reflexivity.
  - intros v [= <-]. eexists. reflexivity.
Defined.

(** X23: one unusable field and the conversion falls back on its constants.
    When the tempo or the energy is a str or a list ([min] raises
    TypeError), or the key is not a str ([lower] raises AttributeError),
    the result is the dictionary of the [except] branch, tempo 120 and
    energy 0.5 included: what the usable fields hold is dropped. *)
Theorem X23_unusable_field_gives_fallback
    (fingerprint_data : gmap string value) (f : string) (v : value) :
  fingerprint_data !! f = Some v ->
  (f = "tempo" /\ Laws.str_or_list v)
  \/ (f = "energy" /\ Laws.str_or_list v)
  \/ (f = "key" /\ forall s, v <> PyStr s) ->
  ExternalAPIManager._convert_to_spotify_features fingerprint_data
  = ExternalAPIManager.fallback_features.
Proof.
  intros Hv H.
  assert (Hn : Laws.str_or_list v -> as_number v = None).
  { intros [[s ->] | [xs ->]]; reflexivity. }
  unfold ExternalAPIManager._convert_to_spotify_features,
    ExternalAPIManager.convert_body.
  destruct H as [[-> Hs] | [[-> Hs] | [-> Hs]]].
  - rewrite Hv. cbn [from_option Datatypes.id]. unfold SimilarityEngine.number.
    by rewrite (Hn Hs).
  - destruct (SimilarityEngine.number (default _ (_ !! "tempo")));
      [|done].
    cbn [mbind result_bind]. rewrite Hv. cbn [from_option Datatypes.id].
    unfold SimilarityEngine.number. by rewrite (Hn Hs).
  - destruct (SimilarityEngine.number (default _ (_ !! "tempo")));
      [|done].
    cbn [mbind result_bind].
    destruct (SimilarityEngine.number (default _ (_ !! "energy")));
      [|done].
    cbn [mbind result_bind]. rewrite Hv.
    destruct v; try done. by destruct (Hs s).
Qed.

Lemma X23_unusable_field_gives_fallback_witness :
  ExternalAPIManager._convert_to_spotify_features
    (<["key" := PyFloat 3]> (<["tempo" := PyFloat 150]> Samples.bare_fingerprint))
  = ExternalAPIManager.fallback_features.
Proof.
  apply (X23_unusable_field_gives_fallback _ "key" (PyFloat 3));
    [reflexivity|].
  right. right. split; [reflexivity | discriminate].
Defined.

(** ** _calculate_spotify_similarity *)

Module SpotifyScore.
Import ExternalAPIManager Laws.

(** The running total never exceeds the running count. *)
Definition bounded (acc : Q * Z) : Prop :=
  (0 <= acc.2)%Z /\ acc.1 <= inject_Z acc.2.

Lemma inject_succ n : inject_Z (n + 1) == inject_Z n + 1.
Proof. rewrite inject_Z_plus. reflexivity. Qed.

Lemma compare_bounded qf tf acc f acc' :
  compare qf tf acc f = Ok acc' -> bounded acc -> bounded acc'.
Proof.
  unfold compare.
  destruct (qf !! f) as [x|]; [|by intros [= <-]].
  destruct (tf !! f) as [v|]; [|by intros [= <-]].
  intros (y & _ & [= <-])%bind_Ok [Hn Hle]. unfold bounded. cbn [fst snd].
  split; [lia|]. rewrite inject_succ.
  pose proof (ScoreFacts.py_abs_nonneg (x - y)). lra.
Qed.

Lemma compare_nonneg qf tf acc f acc' :
  f ∈ feature_names ->
  (forall x, qf !! f = Some x -> 0 <= x <= 1) -> unit_features tf ->
  compare qf tf acc f = Ok acc' -> 0 <= acc.1 -> 0 <= acc'.1.
Proof.
  intros Hf Hq Ht. unfold compare.
  destruct (qf !! f) as [x|]; [|by intros [= <-]].
  destruct (tf !! f) as [v|] eqn:Hv; [|by intros [= <-]].
  intros (y & Hy & [= <-])%bind_Ok Hacc. cbn [fst snd].
  unfold SimilarityEngine.number in Hy.
  destruct (as_number v) as [y'|] eqn:Ey; [|discriminate].
  injection Hy as ->.
  pose proof (Hq x eq_refl). pose proof (Ht f v y Hf Hv Ey).
  assert (py_abs (x - y) <= 1); [|lra].
  unfold py_abs. ScoreFacts.case_ltb; lra.
Qed.

Lemma compare_all_bounded qf tf features :
  forall acc acc',
    compare_all qf tf features acc = Ok acc' -> bounded acc -> bounded acc'.
Proof.
  induction features as [|f features IH]; intros acc acc'; cbn [compare_all].
  - by intros [= <-].
  - intros (acc1 & H1 & H)%bind_Ok Hacc.
    eapply IH; [exact H|]. by eapply compare_bounded.
Qed.

Lemma compare_all_nonneg qf tf features :
  Forall (fun f => f ∈ feature_names
                   /\ forall x, qf !! f = Some x -> 0 <= x <= 1) features ->
  unit_features tf ->
  forall acc acc',
    compare_all qf tf features acc = Ok acc' -> 0 <= acc.1 -> 0 <= acc'.1.
Proof.
  intros Hall Ht. induction Hall as [|f features [Hf Hq] _ IH];
    intros acc acc'; cbn [compare_all].
  - by intros [= <-].
  - intros (acc1 & H1 & H)%bind_Ok Hacc.
    eapply IH; [exact H|]. by eapply compare_nonneg.
Qed.

Lemma compare_tempo_bounded qf tf acc acc' :
  compare_tempo qf tf acc = Ok acc' ->
  (bounded acc -> bounded acc') /\ (0 <= acc.1 -> 0 <= acc'.1).
Proof.
  unfold compare_tempo.
  destruct (qf !! "tempo") as [x|]; [|by intros [= <-]].
  destruct (tf !! "tempo") as [v|]; [|by intros [= <-]].
  intros (y & _ & [= <-])%bind_Ok. cbn [fst snd].
  pose proof (ScoreFacts.tempo_range x y) as Hr.
  split.
  - intros [Hn Hle]. unfold bounded. cbn [fst snd].
    split; [lia|]. rewrite inject_succ. lra.
  - intros. lra.
Qed.

Lemma average_le_1 total n :
  (0 < n)%Z -> total <= inject_Z n -> total / inject_Z n <= 1.
Proof.
  intros Hn Hle.
  assert (0 < inject_Z n).
  { change 0 with (inject_Z 0). by rewrite <- Zlt_Qlt. }
  apply Qle_shift_div_r; lra.
Qed.

Lemma average_nonneg total n :
  (0 < n)%Z -> 0 <= total -> 0 <= total / inject_Z n.
Proof.
  intros Hn Hle.
  assert (0 < inject_Z n).
  { change 0 with (inject_Z 0). by rewrite <- Zlt_Qlt. }
  apply Qle_shift_div_l; lra.
Qed.

Lemma similarity_le_1 qf tf : _calculate_spotify_similarity qf tf <= 1.
Proof.
  unfold _calculate_spotify_similarity.
  destruct (spotify_similarity_body qf tf) as [x|e] eqn:E;
    cbn [try_except]; [|lra].
  unfold spotify_similarity_body in E.
  apply bind_Ok in E as (acc1 & H1 & E).
  apply bind_Ok in E as (acc2 & H2 & E).
  assert (Hb : bounded acc2).
  { apply (compare_tempo_bounded _ _ _ _ H2).
    eapply compare_all_bounded; [exact H1|].
    split; cbn [fst snd]; [lia | apply Qle_refl]. }
  destruct Hb as [Hn Hle].
  destruct (Z.ltb_spec 0 acc2.2); injection E as <-; [|lra].
  by apply average_le_1.
Qed.

Lemma similarity_nonneg qf tf :
  Forall (fun f => f ∈ feature_names
                   /\ forall x, qf !! f = Some x -> 0 <= x <= 1)
         feature_names ->
  unit_features tf ->
  0 <= _calculate_spotify_similarity qf tf.
Proof.
  intros Hq Ht. unfold _calculate_spotify_similarity.
  destruct (spotify_similarity_body qf tf) as [x|e] eqn:E;
    cbn [try_except]; [|lra].
  unfold spotify_similarity_body in E.
  apply bind_Ok in E as (acc1 & H1 & E).
  apply bind_Ok in E as (acc2 & H2 & E).
  assert (Hb : 0 <= acc2.1).
  { apply (compare_tempo_bounded _ _ _ _ H2).
    eapply compare_all_nonneg; [exact Hq | exact Ht | exact H1 |].
    cbn [fst snd]. apply Qle_refl. }
  destruct (Z.ltb_spec 0 acc2.2); injection E as <-; [|lra].
  by apply average_nonneg.
Qed.

(** The compared features of a converted fingerprint lie in [0, 1]. *)
Lemma unit_of_lookups (m : gmap string Q) a d e i l sp v :
  m !! "acousticness" = Some a -> m !! "danceability" = Some d ->
  m !! "energy" = Some e -> m !! "instrumentalness" = Some i ->
  m !! "liveness" = Some l -> m !! "speechiness" = Some sp ->
  m !! "valence" = Some v ->
  0 <= a <= 1 -> 0 <= d <= 1 -> 0 <= e <= 1 -> 0 <= i <= 1 ->
  0 <= l <= 1 -> 0 <= sp <= 1 -> 0 <= v <= 1 ->
  Forall (fun f => f ∈ feature_names
                   /\ forall x, m !! f = Some x -> 0 <= x <= 1)
         feature_names.
Proof.
  intros E1 E2 E3 E4 E5 E6 E7 ? ? ? ? ? ? ?.
  assert (Hin : Forall (fun f => f ∈ feature_names) feature_names).
  { apply Forall_forall. auto. }
  unfold feature_names in *.
  repeat (apply Forall_cons in Hin as [? Hin]).
  repeat (apply Forall_cons; split;
          [split; [done|]; intros x Hx;
           first [ rewrite E1 in Hx | rewrite E2 in Hx | rewrite E3 in Hx
                 | rewrite E4 in Hx | rewrite E5 in Hx | rewrite E6 in Hx
                 | rewrite E7 in Hx ];
           injection Hx as <-; done|]).
  constructor.
Qed.

(** The compared features of a converted fingerprint lie in [0, 1]. *)
Lemma converted_unit fp :
  Forall (fun f => f ∈ feature_names
                   /\ forall x, _convert_to_spotify_features fp !! f = Some x
                                -> 0 <= x <= 1)
         feature_names.
Proof.
  destruct (SpotifyFacts.convert_cases fp)
    as [-> | (tempo & energy & valence & Hv & ->)].
  - apply (unit_of_lookups _ 0.5 0.5 0.5 0.7 0.1 0.1 0.5);
      try reflexivity; lra.
  - pose proof (SpotifyFacts.clamp_range 0 1 energy).
    pose proof (SpotifyFacts.clamp_range 0 1 (energy * 0.8)).
    assert (0 <= valence <= 1).
    { repeat (apply elem_of_cons in Hv as [->|Hv]; [lra|]).
      by apply elem_of_nil in Hv. }
    apply (unit_of_lookups _ 0.5 (py_max 0 (py_min 1 (energy * 0.8)))
             (py_max 0 (py_min 1 energy)) 0.7 0.1 0.1 valence);
      try reflexivity; lra.
Qed.

End SpotifyScore.

(** X24: the range of the Spotify similarity.  Whatever the two
    dictionaries hold, [_calculate_spotify_similarity] returns at most 1;
    and for the features converted from any fingerprint and a track whose
    compared features lie in [0, 1], it returns a number in [0, 1]. *)
Theorem X24_spotify_similarity_range
    (query_features : gmap string Q)
    (fingerprint_data : gmap string value)
    (track_features : gmap string value) :
  ExternalAPIManager._calculate_spotify_similarity query_features
    track_features <= 1
  /\ (Laws.unit_features track_features ->
      0 <= ExternalAPIManager._calculate_spotify_similarity
             (ExternalAPIManager._convert_to_spotify_features
                fingerprint_data) track_features <= 1).
Proof.
  split; [apply SpotifyScore.similarity_le_1|].
  intros Ht. split; [|apply SpotifyScore.similarity_le_1].
  apply SpotifyScore.similarity_nonneg; [|exact Ht].
  apply SpotifyScore.converted_unit.
Qed.

Lemma X24_spotify_similarity_range_witness :
  0 <= ExternalAPIManager._calculate_spotify_similarity
         (ExternalAPIManager._convert_to_spotify_features
            Samples.bare_fingerprint)
         {["energy" := PyFloat 0.5]} <= 1.
Proof.
  refine (proj2 (X24_spotify_similarity_range ∅ Samples.bare_fingerprint
                   {["energy" := PyFloat 0.5]}) _).
  intros f v x _ Hv Hx.
  destruct (decide (f = "energy")) as [->|Hne].
  - rewrite lookup_singleton_eq in Hv. injection Hv as <-.
    injection Hx as <-. lra.
  - rewrite lookup_singleton_ne in Hv by done. discriminate.
Defined.

(** ** search_external, combine_and_rank_results, handle_search_similar *)

Module ResultFacts.
Import SimilarityEngine ExternalAPIManager AppSearch Laws.

Lemma descending_fmap {A B} (f : A -> B) (key : B -> Q) l :
  descending (fun x => key (f x)) l -> descending key (f <$> l).
Proof.
  induction l as [|x l IH]; cbn [descending]; [done|].
  intros [Hx Hl]. rewrite fmap_cons. cbn [descending].
  split; [by apply Forall_fmap | by apply IH].
Qed.

(** The list [search_local] returns is in descending order, whatever the
    threshold. *)
Lemma search_local_descending cd l2 self q mr th :
  descending similarity (search_local cd l2 self q mr th).
Proof.
  unfold search_local.
  destruct (search_local_body cd l2 self q mr th) as [hits|e] eqn:E;
    cbn [try_except]; [|done].
  unfold search_local_body in E.
  destruct (index self) as [ix|]; [|by injection E as <-].
  destruct (indexed_songs self) as [|sg sgs]; [by injection E as <-|].
  apply bind_Ok in E as (v1 & _ & E). apply bind_Ok in E as (v2 & _ & E).
  apply bind_Ok in E as (v3 & _ & E). apply bind_Ok in E as (found & _ & E).
  apply bind_Ok in E as (results & _ & [= <-]).
  destruct (HitFacts.py_prefix_is_take (sort_desc similarity results) mr) as [k ->].
  apply HitFacts.descending_take, HitFacts.descending_sort.
Qed.

Lemma format_tracks_spec c sf tracks :
  forall formatted out,
    format_tracks c sf tracks formatted = Ok out ->
    Forall from_spotify formatted -> Forall from_spotify out.
Proof.
  induction tracks as [|tr tracks IH]; intros formatted out;
    cbn [format_tracks].
  - by intros [= <-].
  - intros (features & _ & H)%bind_Ok Hall.
    destruct features as [features|]; [|by eapply IH].
    destruct (size features); [by eapply IH|].
    eapply IH; [exact H|]. apply Forall_app. split; [done|].
    apply Forall_singleton. split; [done|].
    apply SpotifyScore.similarity_le_1.
Qed.

Lemma search_spotify_spec self fp mr :
  let results := search_spotify_by_features self fp mr in
  descending (fun x => sp_similarity (item x)) results
  /\ Forall from_spotify results.
Proof.
  unfold search_spotify_by_features.
  destruct (spotify self) as [c|]; [|by split].
  destruct (recommendations c mr _) as [tracks|e];
    cbn [mbind result_bind try_except]; [|by split].
  destruct (format_tracks c _ tracks []) as [out|e] eqn:E;
    cbn [mbind result_bind try_except]; [|by split].
  split; [apply HitFacts.descending_sort|].
  apply SearchFacts.Forall_sort_desc.
  eapply format_tracks_spec; [exact E | constructor].
Qed.

(** With no external result the local hits come back tagged, in the order
    [search_local] gave them. *)
Lemma combine_local_only hits :
  descending similarity hits ->
  combine_and_rank_results hits [] = tag_local <$> hits.
Proof.
  intros H. unfold combine_and_rank_results.
  rewrite fmap_nil, app_nil_r.
  apply HitFacts.sort_desc_sorted. by apply descending_fmap.
Qed.

Lemma handle_local cd l2 engine api data fp :
  fingerprint data = Some fp ->
  spotify api = None
  \/ default "hybrid" (search_mode data) ∉ ["online"; "hybrid"] ->
  handle_search_similar cd l2 engine api data
  = Some (tag_local
          <$> search_local cd l2 engine fp
                (default 20%Z (max_results data))
                (default 0.7 (threshold data))).
Proof.
  intros Hfp Hno. unfold handle_search_similar. rewrite Hfp. f_equal.
  assert (E : (if bool_decide (default "hybrid" (search_mode data)
                               ∈ ["online"; "hybrid"])
               then search_external api fp (default 20%Z (max_results data))
               else []) = []).
  { destruct Hno as [Hno | Hno].
    - case_bool_decide; [|done].
      unfold search_external, search_spotify_by_features. rewrite Hno.
      cbn [app]. by destruct (HitFacts.py_prefix_is_take (@nil (sourced spotify_result))
                               (default 20%Z (max_results data))) as [k ->];
        destruct k.
    - by rewrite bool_decide_eq_false_2. }
  rewrite E. apply combine_local_only, search_local_descending.
Qed.

Lemma setup_without_credentials getenv connect :
  no_credentials getenv -> spotify (setup_apis getenv connect) = None.
Proof.
  unfold setup_apis.
  intros [H | [H | [H | H]]]; rewrite H.
  - done.
  - by destruct (getenv "SPOTIFY_CLIENT_SECRET").
  - by destruct (getenv "SPOTIFY_CLIENT_ID").
  - destruct (getenv "SPOTIFY_CLIENT_ID") as [client_id|]; [|done].
    cbn [nonempty]. by rewrite andb_false_r.
Qed.

End ResultFacts.

(** X25: what [search_external] returns.  Without a Spotify client it is
    the empty list.  With one, whatever the client answers, the results are
    in descending order of similarity, each carries the source "spotify"
    and a similarity of at most 1, and for a non-negative [max_results]
    there are at most [max_results] of them. *)
Theorem X25_search_external
    (self : ExternalAPIManager.t) (fingerprint_data : gmap string value)
    (max_results : Z) :
  let results :=
    ExternalAPIManager.search_external self fingerprint_data max_results in
  (ExternalAPIManager.spotify self = None -> results = [])
  /\ ((0 <= max_results)%Z -> (length results <= Z.to_nat max_results)%nat)
  /\ Laws.descending (fun x => ExternalAPIManager.sp_similarity (item x))
       results
  /\ Forall Laws.from_spotify results.
Proof.
  intros results. subst results. unfold ExternalAPIManager.search_external.
  cbn [app].
  destruct (ResultFacts.search_spotify_spec self fingerprint_data max_results)
    as [Hd Hall].
  split; [|split; [|split]].
  - intros Hno. unfold ExternalAPIManager.search_spotify_by_features.
    rewrite Hno.
    destruct (HitFacts.py_prefix_is_take
                (@nil (sourced ExternalAPIManager.spotify_result))
                max_results) as [k ->].
    by destruct k.
  - intros Hmr. unfold SimilarityEngine.py_prefix.
    destruct (Z.ltb_spec max_results 0); [lia|].
    rewrite length_take. lia.
  - destruct (HitFacts.py_prefix_is_take
                (ExternalAPIManager.search_spotify_by_features self
                   fingerprint_data max_results) max_results) as [k ->].
    by apply HitFacts.descending_take.
  - destruct (HitFacts.py_prefix_is_take
                (ExternalAPIManager.search_spotify_by_features self
                   fingerprint_data max_results) max_results) as [k ->].
    by apply Forall_take.
Qed.

Lemma X25_search_external_witness :
  (length (ExternalAPIManager.search_external
             {| ExternalAPIManager.spotify := Some Laws.one_track_client |}
             Samples.bare_fingerprint 20) <= Z.to_nat 20)%nat.
Proof.
  refine (proj1 (proj2 (X25_search_external
            {| ExternalAPIManager.spotify := Some Laws.one_track_client |}
            Samples.bare_fingerprint 20)) _).
  lia.
Defined.

(** X26: [combine_and_rank_results] returns the local and the external
    results together, each once, in descending order of similarity.  Every
    result carries the source "local" or "external": the source "spotify"
    of an external result is overwritten.  Local results that were in
    descending order already and have no external result beside them come
    back in their order. *)
Theorem X26_combine_and_rank
    (local_results : list SimilarityEngine.hit)
    (external_results : list (sourced ExternalAPIManager.spotify_result)) :
  let all_results :=
    AppSearch.combine_and_rank_results local_results external_results in
  all_results ≡ₚ (Laws.tag_local <$> local_results)
                 ++ (Laws.tag_external <$> external_results)
  /\ length all_results
     = (length local_results + length external_results)%nat
  /\ Laws.descending AppSearch.similarity_of all_results
  /\ Forall (fun x => source x = "local" \/ source x = "external")
            all_results
  /\ (Laws.descending SimilarityEngine.similarity local_results ->
      external_results = [] ->
      all_results = Laws.tag_local <$> local_results).
Proof.
  intros all_results. subst all_results.
  assert (Hperm : AppSearch.combine_and_rank_results local_results
                    external_results
                  ≡ₚ (Laws.tag_local <$> local_results)
                     ++ (Laws.tag_external <$> external_results))
    by apply HitFacts.sort_desc_perm.
  split; [exact Hperm|]. split; [|split; [|split]].
  - by rewrite Hperm, length_app, !length_fmap.
  - apply HitFacts.descending_sort.
  - rewrite Hperm. apply Forall_app. split.
    + apply Forall_fmap, Forall_forall. intros h _. by left.
    + apply Forall_fmap, Forall_forall. intros r _. by right.
  - intros Hd ->. by apply ResultFacts.combine_local_only.
Qed.

Lemma X26_combine_and_rank_witness :
  AppSearch.combine_and_rank_results
    (SimilarityEngine.search_local (fun _ _ => NaN) (fun _ => 1)
       Samples.one_song_engine
       (SimilarityEngine._parse_fingerprint Samples.sample_document) 20 0)
    []
  = Laws.tag_local
    <$> SimilarityEngine.search_local (fun _ _ => NaN) (fun _ => 1)
          Samples.one_song_engine
          (SimilarityEngine._parse_fingerprint Samples.sample_document) 20 0.
Proof.
  refine (proj2 (proj2 (proj2 (proj2 (X26_combine_and_rank _ [])))) _ _).
  - vm_compute. split; [constructor | exact I].
  - reflexivity.
Defined.

(** X27: a search that stays local.  For a request with a fingerprint,
    when the search mode is neither "online" nor "hybrid", or the manager
    has no Spotify client, [handle_search_similar] answers with exactly the
    hits of [search_local] for the request's [max_results] and [threshold]
    (20 and 0.7 when the request has none), in their order, each tagged
    "local"; a request without mode is treated as "hybrid". *)
Theorem X27_search_stays_local
    (cosine_dist : list Q -> list Q -> npfloat) (l2_norm : list Q -> Q)
    (similarity_engine : SimilarityEngine.t)
    (api_manager : ExternalAPIManager.t) (data : AppSearch.request)
    (source_fingerprint : gmap string value) :
  AppSearch.fingerprint data = Some source_fingerprint ->
  ExternalAPIManager.spotify api_manager = None
  \/ (exists mode, AppSearch.search_mode data = Some mode
                   /\ mode <> "online" /\ mode <> "hybrid") ->
  AppSearch.handle_search_similar cosine_dist l2_norm similarity_engine
    api_manager data
  = Some (Laws.tag_local
          <$> SimilarityEngine.search_local cosine_dist l2_norm
                similarity_engine source_fingerprint
                (default 20%Z (AppSearch.max_results data))
                (default 0.7 (AppSearch.threshold data))).
Proof.
  intros Hfp Hno. apply ResultFacts.handle_local; [exact Hfp|].
  destruct Hno as [Hno | (mode & -> & H1 & H2)]; [by left|].
  right. cbn [default from_option Datatypes.id].
  intros Hin. apply elem_of_cons in Hin as [->|Hin]; [done|].
  apply elem_of_cons in Hin as [->|Hin]; [done|].
  by apply elem_of_nil in Hin.
Qed.

Lemma X27_search_stays_local_witness :
  AppSearch.handle_search_similar (fun _ _ => NaN) (fun _ => 1)
    Samples.one_song_engine
    {| ExternalAPIManager.spotify := Some Laws.one_track_client |}
    {| AppSearch.fingerprint := Some Samples.bare_fingerprint;
       AppSearch.search_mode := Some "local";
       AppSearch.max_results := None; AppSearch.threshold := None |}
  = Some (Laws.tag_local
          <$> SimilarityEngine.search_local (fun _ _ => NaN) (fun _ => 1)
                Samples.one_song_engine Samples.bare_fingerprint 20 0.7).
Proof.
  apply (X27_search_stays_local (fun _ _ => NaN) (fun _ => 1)
           Samples.one_song_engine
           {| ExternalAPIManager.spotify := Some Laws.one_track_client |}
           {| AppSearch.fingerprint := Some Samples.bare_fingerprint;
              AppSearch.search_mode := Some "local";
              AppSearch.max_results := None; AppSearch.threshold := None |}
           Samples.bare_fingerprint); [reflexivity|].
  right. exists "local". split; [reflexivity|]. split; discriminate.
Defined.

(** X28: without credentials nothing is searched online.  When one of the
    environment variables SPOTIFY_CLIENT_ID and SPOTIFY_CLIENT_SECRET is
    unset or empty, the manager [setup_apis] makes has no client (the
    connection is never attempted), [search_external] returns the empty
    list, and [handle_search_similar] returns the tagged local hits in
    every search mode. *)
Theorem X28_no_credentials_no_external
    (cosine_dist : list Q -> list Q -> npfloat) (l2_norm : list Q -> Q)
    (getenv : string -> option string)
    (connect : string -> string -> result ExternalAPIManager.client)
    (similarity_engine : SimilarityEngine.t) (data : AppSearch.request)
    (source_fingerprint : gmap string value) (max_results : Z) :
  Laws.no_credentials getenv ->
  AppSearch.fingerprint data = Some source_fingerprint ->
  let api_manager := ExternalAPIManager.setup_apis getenv connect in
  ExternalAPIManager.spotify api_manager = None
  /\ ExternalAPIManager.search_external api_manager source_fingerprint
       max_results = []
  /\ AppSearch.handle_search_similar cosine_dist l2_norm similarity_engine
       api_manager data
     = Some (Laws.tag_local
             <$> SimilarityEngine.search_local cosine_dist l2_norm
                   similarity_engine source_fingerprint
                   (default 20%Z (AppSearch.max_results data))
                   (default 0.7 (AppSearch.threshold data))).
Proof.
  intros Henv Hfp api_manager.
  pose proof (ResultFacts.setup_without_credentials getenv connect Henv)
    as Hno.
  split; [exact Hno|]. split.
  - unfold ExternalAPIManager.search_external,
      ExternalAPIManager.search_spotify_by_features.
    subst api_manager. rewrite Hno. cbn [app].
    destruct (HitFacts.py_prefix_is_take
                (@nil (sourced ExternalAPIManager.spotify_result))
                max_results) as [k ->].
    by destruct k.
  - apply ResultFacts.handle_local; [exact Hfp | by left].
Qed.

Lemma X28_no_credentials_no_external_witness :
  ExternalAPIManager.search_external
    (ExternalAPIManager.setup_apis (fun _ => None)
       (fun _ _ => Ok Laws.one_track_client))
    Samples.bare_fingerprint 20 = [].
Proof.
  refine (proj1 (proj2 (X28_no_credentials_no_external (fun _ _ => NaN)
            (fun _ => 1) (fun _ => None) (fun _ _ => Ok Laws.one_track_client)
            Samples.one_song_engine
            {| AppSearch.fingerprint := Some Samples.bare_fingerprint;
               AppSearch.search_mode := None;
               AppSearch.max_results := None; AppSearch.threshold := None |}
            Samples.bare_fingerprint 20 _ _))).
  - by left.
  - reflexivity.
Defined.

(** ** Two files with the same bytes *)

Module DuplicateFacts.
Import App Schema Laws.

Lemma rows_with_hash_after_insert db r :
  rows_with_hash (file_hash r) (insert_or_replace db r)
  = [with_id r (next_id db)].
Proof.
  unfold rows_with_hash. rewrite StoreFacts.insert_songs, filter_app.
  unfold kept. rewrite IngestFacts.filter_hash_kept.
  rewrite filter_cons, decide_True by done. done.
Qed.

Lemma paths_after_insert db r p :
  file_path r <> p ->
  Forall (fun r' => file_path r' <> p) (kept (file_path r) (file_hash r) db) ->
  Forall (fun r' => file_path r' <> p) (songs (insert_or_replace db r)).
Proof.
  intros Hne Hkept. rewrite StoreFacts.insert_songs.
  apply Forall_app. split; [done|]. by apply Forall_singleton.
Qed.

End DuplicateFacts.

(** X29: two files with the same bytes.  Let two readable paths hold the
    same bytes and let extraction succeed on both.  A scan that meets both
    stores what a scan of the first alone stores: the second is skipped by
    its hash.  But processing the first and then the second with
    [handle_process_audio] leaves exactly one row with that hash, the row
    of the second path: the row of the first path is replaced, and when the
    paths differ no row with the first path is left. *)
Theorem X29_same_bytes_two_paths
    (files : gmap string (list Byte.byte)) (sha256 : list Byte.byte -> string)
    (pearson : list Q -> list Q -> npfloat)
    (analyse : AudioFingerprinter.t -> string ->
               result AudioFingerprinter.analysis)
    (extract_metadata : string -> App.metadata)
    (st : App.state) (p1 p2 : string) (bytes : list Byte.byte) :
  files !! p1 = Some bytes -> files !! p2 = Some bytes ->
  Schema.extracted (App.extract pearson analyse p1) = true ->
  Schema.extracted (App.extract pearson analyse p2) = true ->
  let scan := App.handle_scan_library files sha256 pearson analyse
                extract_metadata st in
  let process := App.handle_process_audio files sha256 pearson analyse
                   extract_metadata in
  App.db (scan [p1; p2]).1 = App.db (scan [p1]).1
  /\ (exists r,
        file_path r = p2
        /\ Schema.rows_with_hash (sha256 bytes)
             (App.db (process (process st p1) p2)) = [r])
  /\ (p1 <> p2 ->
      Forall (fun r => file_path r <> p1)
             (songs (App.db (process (process st p1) p2)))).
Proof.
  intros H1 H2 E1 E2 scan process. subst scan process.
  split; [|split].
  - unfold App.handle_scan_library. cbn [foldl].
    destruct (App.is_file_processed files sha256 (App.db st) p1) eqn:Hdone.
    + rewrite (IngestFacts.scan_file_processed _ _ _ _ _ st 0 p1 Hdone).
      rewrite IngestFacts.scan_file_processed; [done|].
      rewrite (IngestFacts.processed_rows _ _ _ _ _ H2).
      by rewrite <- (IngestFacts.processed_rows _ _ _ _ _ H1).
    + rewrite (IngestFacts.scan_file_new _ _ _ _ _ st 0 p1 Hdone).
      destruct (IngestFacts.store_extracted files sha256 (App.db st) p1
                  bytes _ (extract_metadata p1) H1 E1) as (r & Hr & ->).
      rewrite IngestFacts.scan_file_processed; [done|].
      cbn [App.db].
      by apply (IngestFacts.processed_after_insert _ _ _ _ bytes).
  - unfold App.handle_process_audio. cbn [App.db].
    destruct (StoreFacts.store_extracted_row files sha256 p2 bytes
                (App.extract pearson analyse p2) (extract_metadata p2) H2 E2)
      as (r2 & Hp2 & Hh2 & ->).
    eexists. split; [|rewrite <- Hh2; apply
                        DuplicateFacts.rows_with_hash_after_insert].
    exact Hp2.
  - intros Hne. unfold App.handle_process_audio. cbn [App.db].
    destruct (StoreFacts.store_extracted_row files sha256 p1 bytes
                (App.extract pearson analyse p1) (extract_metadata p1) H1 E1)
      as (r1 & Hp1 & Hh1 & ->).
    destruct (StoreFacts.store_extracted_row files sha256 p2 bytes
                (App.extract pearson analyse p2) (extract_metadata p2) H2 E2)
      as (r2 & Hp2 & Hh2 & ->).
    apply DuplicateFacts.paths_after_insert; [congruence|].
    apply Forall_forall. intros r Hr.
    apply StoreFacts.kept_spec in Hr as (_ & Hhash & Hin).
    rewrite StoreFacts.insert_songs in Hin.
    apply elem_of_app in Hin as [Hin|Hin].
    + apply StoreFacts.kept_spec in Hin as (Hpath & _).
      by rewrite Hp1 in Hpath.
    + apply list_elem_of_singleton in Hin. subst r.
      cbn [Laws.with_id file_hash] in Hhash. congruence.
Qed.

Lemma X29_same_bytes_two_paths_witness :
  let files : gmap string (list Byte.byte) :=
    <["b.wav" := [Byte.x52; Byte.x49; Byte.x46; Byte.x46]]> Samples.one_file in
  App.db (App.handle_scan_library files (fun _ => "h") (fun _ _ => NaN)
            Samples.analysed Samples.no_tags Samples.started
            ["a.wav"; "b.wav"]).1
  = App.db (App.handle_scan_library files (fun _ => "h") (fun _ _ => NaN)
              Samples.analysed Samples.no_tags Samples.started ["a.wav"]).1.
Proof.
  intros files.
  refine (proj1 (X29_same_bytes_two_paths files (fun _ => "h")
                   (fun _ _ => NaN) Samples.analysed Samples.no_tags
                   Samples.started "a.wav" "b.wav"
                   [Byte.x52; Byte.x49; Byte.x46; Byte.x46] _ _ _ _));
    reflexivity.
Defined.

(** X30: the index of a stored library is searched with 45 numbers.  On the
    engine made from a non-empty table of rows stored for extracted
    fingerprints, a query whose feature vector has 45 entries, such as a
    fingerprint parsed from a stored document, is searched without any
    exception for every positive [max_results]: the body of [search_local]
    runs to its end. *)
Theorem X30_stored_query_is_searched
    (cosine_dist : list Q -> list Q -> npfloat)
    (fit_stats : list (list Q) -> list Q * list Q) (l2_norm : list Q -> Q)
    (db : database) (q : gmap string value) (v : list Q)
    (max_results : Z) (threshold : Q) :
  Forall Laws.stored_by_extraction (songs db) -> songs db <> [] ->
  AudioFingerprinter.create_feature_vector AudioFingerprinter.init q
    = Ok (FloatArray v) ->
  length v = 45%nat -> (0 < max_results)%Z ->
  exists hits,
    SimilarityEngine.search_local_body cosine_dist l2_norm
      (SimilarityEngine.init fit_stats l2_norm db) q max_results threshold
    = Ok hits.
Proof.
  intros Hall Hne Hv Hlen Hmr.
  destruct (LibraryFacts.init_stored fit_stats l2_norm db Hall Hne)
    as (X & HX & HlenX & E).
  assert (HXne : X <> []).
  { intros ->. destruct (songs db); [done | discriminate]. }
  destruct (LibraryFacts.index_rows_stored _ Hall) as [_ Hsongs].
  destruct (LibraryFacts.built_width fit_stats l2_norm X
              (SimilarityEngine.index_rows (songs db) [] []).2 45 HX HXne)
    as [Hdim Hsc].
  destruct (SearchFacts.search_local_body_ok cosine_dist l2_norm
              (SimilarityEngine.init fit_stats l2_norm db) q max_results
              threshold v) as (hits & Hhits & _); [|exact Hv|exact Hmr|eauto].
  rewrite Hlen, E. unfold Schema.searchable.
  cbn [Laws.built SimilarityEngine.scaler SimilarityEngine.index
       SimilarityEngine.indexed_songs] in *.
  eexists _, _. split; [reflexivity|]. split; [reflexivity|].
  cbn [SimilarityEngine.d SimilarityEngine.rows].
  injection Hdim as Hdim. injection Hsc as Hsc.
  split; [exact Hsc|]. split; [exact Hdim|].
  rewrite Hsongs, !length_fmap, HlenX.
  destruct (songs db); [done|]. cbn [length]. lia.
Qed.

Lemma X30_stored_query_is_searched_witness :
  exists hits,
    SimilarityEngine.search_local_body (fun _ _ => NaN) (fun _ => 1)
      (SimilarityEngine.init (fun _ => ([], [])) (fun _ => 1)
         Laws.stored_once)
      (SimilarityEngine._parse_fingerprint Samples.sample_document) 20 0.7
    = Ok hits.
Proof.
  eapply (X30_stored_query_is_searched (fun _ _ => NaN) (fun _ => ([], []))
            (fun _ => 1) Laws.stored_once
            (SimilarityEngine._parse_fingerprint Samples.sample_document)).
  - repeat constructor.
    exists Samples.sample_fingerprint. eexists.
    split; [reflexivity|]. split; reflexivity.
  - discriminate.
  - reflexivity.
  - reflexivity.
  - reflexivity.
Defined.
